(** * Tourer admin console: the shared store and its page handlers

    A shallow embedding of the admin dashboard's client-side logic:
    the zustand store [useAdminStore] (health, auth, packages, reviews),
    its [persist] configuration, and the request-issuing handlers of the
    page components, followed by the properties proved about them.

    Conventions of the embedding.
    - JavaScript values are the untyped [JsVal]; TypeScript annotations are
      erased at run time, so where a statement relies on a declared type
      it says so with a hypothesis on the value.
    - Numbers are the integer-valued ones ([Z]); fractional numbers, NaN
      and infinities are outside the model as values. Where a value is
      compared with a number, what it stands for by ToNumber is a
      [Number]: a decimal with its exponent, NaN or an infinity.
    - An [async] function is run to completion: [await] is sequencing, and
      no other handler interleaves with a running one.
    - The backend is an arbitrary deterministic function of the requests
      it has received so far and the request at hand. *)

From Stdlib Require Import ZArith String List Bool Lia.
From stdpp Require Import base option list gmap strings pretty.

Open Scope Z_scope.
Open Scope string_scope.

(** ** JavaScript values *)

#[local] Set Warnings "-register-all".

Inductive JsVal : Type :=
| JUndefined
| JNull
| JBool (b : bool)
| JNum (n : Z)
| JStr (s : string)
| JArr (items : list JsVal)
| JObj (fields : list (string * JsVal)).

(** ToBoolean. *)
Definition truthy (v : JsVal) : bool :=
  match v with
  | JUndefined | JNull => false
  | JBool b => b
  | JNum n => negb (Z.eqb n 0)
  | JStr s => negb (String.eqb s "")
  | JArr _ | JObj _ => true
  end.

(** [a || b] *)
Definition js_or (a b : JsVal) : JsVal := if truthy a then a else b.

Definition nullish (v : JsVal) : bool :=
  match v with JUndefined | JNull => true | _ => false end.

(** Own property of an object literal or parsed JSON object; the first
    binding of a key is the one in force. *)
Fixpoint lookup_field (k : string) (fields : list (string * JsVal)) : JsVal :=
  match fields with
  | [] => JUndefined
  | (k', v) :: rest => if String.eqb k k' then v else lookup_field k rest
  end.

(** [v.k] for the property names the console reads ([data], [pagination],
    [user], [role], [access_token], [refresh_token], [url]): none of them
    is a built-in property of a primitive or of an array, so only objects
    can answer with something else than [undefined]; reading a property of
    [undefined] or [null] is a TypeError, rendered here as [None]. *)
Definition get_prop (v : JsVal) (k : string) : option JsVal :=
  match v with
  | JUndefined | JNull => None
  | JObj fields => Some (lookup_field k fields)
  | _ => Some JUndefined
  end.

(** [v === 'lit'] against a string literal. *)
Definition strict_eq_str (v : JsVal) (lit : string) : bool :=
  match v with JStr s => String.eqb s lit | _ => false end.

Definition join_with (sep : string) (parts : list string) : string :=
  match parts with
  | [] => ""
  | p :: ps => fold_left (fun acc q => acc ++ sep ++ q) ps p
  end.

(** ToString, as applied by a template literal [`${v}`]. *)
Fixpoint js_to_string (v : JsVal) : string :=
  match v with
  | JUndefined => "undefined"
  | JNull => "null"
  | JBool true => "true"
  | JBool false => "false"
  | JNum n => pretty n
  | JStr s => s
  | JArr items =>
      join_with ","
        (List.map (fun x => if nullish x then "" else js_to_string x) items)
  | JObj _ => "[object Object]"
  end.

(** What a [throw] carries: an [Error] instance with its message, or any
    other value. *)
Inductive Thrown : Type :=
| ErrorObj (message : string)
| NonError (v : JsVal).

(** [error instanceof Error ? error.message : fallback] *)
Definition message_or (error : Thrown) (fallback : string) : string :=
  match error with
  | ErrorObj m => m
  | NonError _ => fallback
  end.

(** The TypeError of reading property [k] of [undefined] or [null]
    (V8's wording). *)
Definition TypeError_read (v : JsVal) (k : string) : Thrown :=
  ErrorObj ("Cannot read properties of " ++ js_to_string v
            ++ " (reading '" ++ k ++ "')").

(** The TypeError of destructuring [undefined] or [null] (V8's wording). *)
Definition TypeError_destructure (v : JsVal) (k src : string) : Thrown :=
  ErrorObj ("Cannot destructure property '" ++ k ++ "' of '" ++ src
            ++ "' as it is " ++ js_to_string v ++ ".").

(** ** Computations that may throw *)

Inductive Outcome (A : Type) : Type :=
| Returned (a : A)
| Threw (e : Thrown).
Arguments Returned {A} a.
Arguments Threw {A} e.

Definition M (St A : Type) : Type := St -> Outcome A * St.

Global Instance M_ret {St} : MRet (M St) :=
  fun A a s => (Returned a, s).

Global Instance M_bind {St} : MBind (M St) :=
  fun A B f m s =>
    match m s with
    | (Returned a, s') => f a s'
    | (Threw e, s') => (Threw e, s')
    end.

Definition throw {St A} (e : Thrown) : M St A := fun s => (Threw e, s).

(** [throw new Error(msg)] *)
Definition throw_Error {St A} (msg : string) : M St A := throw (ErrorObj msg).

(** [try { body } catch (error) { handler }] *)
Definition try_catch {St A} (body : M St A) (handler : Thrown -> M St A)
  : M St A :=
  fun s =>
    match body s with
    | (Returned a, s') => (Returned a, s')
    | (Threw e, s') => handler e s'
    end.

(** [try { body } finally { cleanup }], for a cleanup that cannot throw or
    return. *)
Definition try_finally {St A} (body : M St A) (cleanup : St -> St) : M St A :=
  fun s => let (o, s') := body s in (o, cleanup s').

Definition gets {St A} (f : St -> A) : M St A := fun s => (Returned (f s), s).
Definition modify {St} (f : St -> St) : M St unit := fun s => (Returned tt, f s).

(** Property read inside a computation. *)
Definition read_prop {St} (v : JsVal) (k : string) : M St JsVal :=
  match get_prop v k with
  | Some x => mret x
  | None => throw (TypeError_read v k)
  end.

(** One binding of [const { k, ... } = v]. *)
Definition destructure {St} (v : JsVal) (k src : string) : M St JsVal :=
  match get_prop v k with
  | Some x => mret x
  | None => throw (TypeError_destructure v k src)
  end.

Definition outcome_of {St A} (r : Outcome A * St) : Outcome A := fst r.
Definition state_of {St A} (r : Outcome A * St) : St := snd r.

(** ** HTTP as the console sees it *)

Inductive Method : Type := GET | POST | PATCH | DELETE.

Inductive Body : Type :=
| NoBody
| JsonBody (v : JsVal)          (* an object sent as JSON *)
| FormDataBody (file : string). (* a FormData holding one image file *)

Record Request : Type := {
  method : Method;
  url : string;
  headers : list (string * string);
  body : Body;
  timeout : option Z
}.

(** What comes back in a response body: JSON text (as the value it
    denotes) or anything else. *)
Inductive Payload : Type :=
| Json (v : JsVal)
| Text (s : string).

Inductive HttpReply : Type :=
| NetworkError (message : string)   (* no response: refused, timed out *)
| HttpResponse (status : Z) (payload : Payload).

(** The backend: a deterministic server seen through the requests it
    received so far (oldest first) and the request at hand. *)
Definition Backend : Type := list Request -> Request -> HttpReply.

Definition status_ok (status : Z) : bool :=
  (200 <=? status)%Z && (status <? 300)%Z.

(** A request failed: no response, or a status outside 2xx. *)
Definition failed (r : HttpReply) : bool :=
  match r with
  | NetworkError _ => true
  | HttpResponse status _ => negb (status_ok status)
  end.

(** [response.data] of axios: the parsed body, or the raw text when the
    body is not JSON. *)
Definition payload_data (p : Payload) : JsVal :=
  match p with Json v => v | Text s => JStr s end.

(** The [Response] of the Fetch API. *)
Record Response : Type := {
  ok : bool;
  status : Z;
  payload : Payload
}.

(** The header a request carries under a name. *)
Fixpoint header (name : string) (hs : list (string * string)) : option string :=
  match hs with
  | [] => None
  | (n, v) :: rest => if String.eqb n name then Some v else header name rest
  end.

(** [`Bearer ${token}`] *)
Definition Bearer (token : JsVal) : string := "Bearer " ++ js_to_string token.

(** ** The store's state *)

Record AdminState : Type := {
  (* Health *)
  healthData : JsVal;
  loading : bool;
  error : option string;
  (* Auth *)
  user : JsVal;
  accessToken : JsVal;
  refreshToken : JsVal;
  isLoading : bool;
  authError : option string;
  (* Packages *)
  packages : JsVal;
  packagesLoading : bool;
  packagesError : option string;
  (* Reviews *)
  reviews : JsVal;
  reviewsLoading : bool;
  reviewsError : option string;
  reviewsPagination : JsVal
}.

(** The state the store is created with. *)
Definition initial_state : AdminState := {|
  healthData := JNull; loading := false; error := None;
  user := JNull; accessToken := JNull; refreshToken := JNull;
  isLoading := false; authError := None;
  packages := JArr []; packagesLoading := false; packagesError := None;
  reviews := JArr []; reviewsLoading := false; reviewsError := None;
  reviewsPagination := JNull
|}.

(** One [field: value] entry of the partial object handed to [set]. *)
Inductive Assign : Type :=
| healthData_ (v : JsVal) | loading_ (b : bool) | error_ (m : option string)
| user_ (v : JsVal) | accessToken_ (v : JsVal) | refreshToken_ (v : JsVal)
| isLoading_ (b : bool) | authError_ (m : option string)
| packages_ (v : JsVal) | packagesLoading_ (b : bool)
| packagesError_ (m : option string)
| reviews_ (v : JsVal) | reviewsLoading_ (b : bool)
| reviewsError_ (m : option string) | reviewsPagination_ (v : JsVal).

Definition assign (s : AdminState) (a : Assign) : AdminState :=
  let '{| healthData := hd; loading := ld; error := er;
          user := us; accessToken := at_; refreshToken := rt;
          isLoading := il; authError := ae;
          packages := pk; packagesLoading := pl; packagesError := pe;
          reviews := rv; reviewsLoading := rl; reviewsError := re;
          reviewsPagination := rp |} := s in
  match a with
  | healthData_ v => Build_AdminState v ld er us at_ rt il ae pk pl pe rv rl re rp
  | loading_ b => Build_AdminState hd b er us at_ rt il ae pk pl pe rv rl re rp
  | error_ m => Build_AdminState hd ld m us at_ rt il ae pk pl pe rv rl re rp
  | user_ v => Build_AdminState hd ld er v at_ rt il ae pk pl pe rv rl re rp
  | accessToken_ v => Build_AdminState hd ld er us v rt il ae pk pl pe rv rl re rp
  | refreshToken_ v => Build_AdminState hd ld er us at_ v il ae pk pl pe rv rl re rp
  | isLoading_ b => Build_AdminState hd ld er us at_ rt b ae pk pl pe rv rl re rp
  | authError_ m => Build_AdminState hd ld er us at_ rt il m pk pl pe rv rl re rp
  | packages_ v => Build_AdminState hd ld er us at_ rt il ae v pl pe rv rl re rp
  | packagesLoading_ b => Build_AdminState hd ld er us at_ rt il ae pk b pe rv rl re rp
  | packagesError_ m => Build_AdminState hd ld er us at_ rt il ae pk pl m rv rl re rp
  | reviews_ v => Build_AdminState hd ld er us at_ rt il ae pk pl pe v rl re rp
  | reviewsLoading_ b => Build_AdminState hd ld er us at_ rt il ae pk pl pe rv b re rp
  | reviewsError_ m => Build_AdminState hd ld er us at_ rt il ae pk pl pe rv rl m rp
  | reviewsPagination_ v => Build_AdminState hd ld er us at_ rt il ae pk pl pe rv rl re v
  end.

(** The merge zustand's [set(partial)] performs. *)
Definition merge (s : AdminState) (partial : list Assign) : AdminState :=
  fold_left assign partial s.

(** ** The persist middleware's configuration *)

(** The object [partialize] builds. *)
Record Persisted : Type := {
  p_user : JsVal;
  p_accessToken : JsVal;
  p_refreshToken : JsVal
}.

Definition partialize (state : AdminState) : Persisted := {|
  p_user := user state;
  p_accessToken := accessToken state;
  p_refreshToken := refreshToken state
|}.

(** [name: 'admin-auth-storage'] *)
Definition persist_name : string := "admin-auth-storage".

(** The browser's localStorage. The entry the persist middleware owns
    (under [persist_name]) is kept as the snapshot its JSON text encodes;
    [items] holds every other key with its text. The console reads the
    snapshot only through the middleware. *)
Record Storage : Type := {
  snapshot : option Persisted;
  items : gmap string string
}.

Definition empty_storage : Storage := {| snapshot := None; items := ∅ |}.

(** [localStorage.getItem(key)] for a key other than [persist_name]. *)
Definition getItem (ls : Storage) (key : string) : option string :=
  items ls !! key.

(** What the middleware writes after every [set]. *)
Definition persist_write (state : AdminState) (ls : Storage) : Storage :=
  {| snapshot := Some (partialize state); items := items ls |}.

(** What JSON text keeps of a value: [undefined] and what holds it at the
    top are absent when read back. *)
Definition read_back (v initial : JsVal) : JsVal :=
  match v with JUndefined => initial | _ => v end.

(** The state of a store created in a new session: the initial state with
    the stored snapshot, when there is one, merged over it. *)
Definition hydrate (ls : Storage) : AdminState :=
  match snapshot ls with
  | None => initial_state
  | Some p =>
      merge initial_state
        [user_ (read_back (p_user p) (user initial_state));
         accessToken_ (read_back (p_accessToken p) (accessToken initial_state));
         refreshToken_ (read_back (p_refreshToken p) (refreshToken initial_state))]
  end.

(** ** The browser around the store *)

Record World : Type := {
  store : AdminState;                (* the zustand store *)
  localStorage : Storage;
  sent : list Request;               (* requests issued, oldest first *)
  alerts : list string;              (* alert() messages, oldest first *)
  navigations : list string;         (* routes navigated to, oldest first *)
  console : list (string * Thrown);  (* console.error(label, error) *)
  cells : gmap string JsVal          (* the mounted page's useState cells *)
}.

Definition new_session (ls : Storage) : World := {|
  store := hydrate ls; localStorage := ls; sent := []; alerts := [];
  navigations := []; console := []; cells := ∅
|}.

Definition with_store (f : AdminState -> AdminState) (w : World) : World :=
  let s' := f (store w) in
  {| store := s'; localStorage := persist_write s' (localStorage w);
     sent := sent w; alerts := alerts w; navigations := navigations w;
     console := console w; cells := cells w |}.

Definition record_request (req : Request) (w : World) : World :=
  {| store := store w; localStorage := localStorage w;
     sent := sent w ++ [req]; alerts := alerts w;
     navigations := navigations w; console := console w; cells := cells w |}.

Definition record_alert (msg : string) (w : World) : World :=
  {| store := store w; localStorage := localStorage w; sent := sent w;
     alerts := alerts w ++ [msg]; navigations := navigations w;
     console := console w; cells := cells w |}.

Definition record_navigation (route : string) (w : World) : World :=
  {| store := store w; localStorage := localStorage w; sent := sent w;
     alerts := alerts w; navigations := navigations w ++ [route];
     console := console w; cells := cells w |}.

Definition record_console (label : string) (e : Thrown) (w : World) : World :=
  {| store := store w; localStorage := localStorage w; sent := sent w;
     alerts := alerts w; navigations := navigations w;
     console := console w ++ [(label, e)]; cells := cells w |}.

Definition with_cell (name : string) (v : JsVal) (w : World) : World :=
  {| store := store w; localStorage := localStorage w; sent := sent w;
     alerts := alerts w; navigations := navigations w;
     console := console w; cells := <[name := v]> (cells w) |}.

(** [alert(msg)], [router.push(route)] or [window.location.href = route],
    [console.error(label, error)], and a useState setter. *)
Definition alert (msg : string) : M World unit := modify (record_alert msg).
Definition navigate (route : string) : M World unit :=
  modify (record_navigation route).
Definition console_error (label : string) (e : Thrown) : M World unit :=
  modify (record_console label e).
Definition set_cell (name : string) (v : JsVal) : M World unit :=
  modify (with_cell name v).

(** [process.env.NEXT_PUBLIC_API_BASE_URL || fallback] *)
Definition env_or (env : option string) (fallback : string) : string :=
  match env with
  | Some s => if String.eqb s "" then fallback else s
  | None => fallback
  end.

(** ** The HTTP clients *)

Section Clients.
Variable backend : Backend.

(** axios: resolves with [response.data] on a 2xx status and rejects
    with an [Error] otherwise. *)
Definition axios (req : Request) : M World JsVal :=
  fun w =>
    let w' := record_request req w in
    match backend (sent w) req with
    | NetworkError message => (Threw (ErrorObj message), w')
    | HttpResponse status payload =>
        if status_ok status then (Returned (payload_data payload), w')
        else (Threw (ErrorObj ("Request failed with status code "
                               ++ pretty status)), w')
    end.

(** fetch: resolves with a [Response] whatever the status and rejects
    only when there is no response. *)
Definition fetch (req : Request) : M World Response :=
  fun w =>
    let w' := record_request req w in
    match backend (sent w) req with
    | NetworkError message => (Threw (ErrorObj message), w')
    | HttpResponse status payload =>
        (Returned {| ok := status_ok status; status := status;
                     payload := payload |}, w')
    end.

(** [response.json()] *)
Definition response_json (response : Response) : M World JsVal :=
  match payload response with
  | Json v => mret v
  | Text _ => throw (ErrorObj "Unexpected token in JSON")
  end.
End Clients.

(** ** The store: [useAdminStore] *)

Module useAdminStore.
Section Store.
Variable NEXT_PUBLIC_API_BASE_URL : option string.
Variable backend : Backend.

Definition API_BASE_URL : string :=
  env_or NEXT_PUBLIC_API_BASE_URL "http://localhost:3000".

(** zustand's [set] and [get], with the persist middleware around them. *)
Definition set (partial : list Assign) : M World unit :=
  modify (with_store (fun s => merge s partial)).
Definition get : M World AdminState := gets store.

(** The headers of an authorized request. *)
Definition auth_headers (state : AdminState) : list (string * string) :=
  [("Authorization", Bearer (accessToken state))].
Definition auth_json_headers (state : AdminState) : list (string * string) :=
  [("Authorization", Bearer (accessToken state));
   ("Content-Type", "application/json")].

(** The request of each operation, as the source writes it in place. *)
Definition health_request (state : AdminState) : Request :=
  {| method := GET; url := API_BASE_URL ++ "/health";
     headers := if truthy (accessToken state)
                then [("Authorization", Bearer (accessToken state))]
                else [];
     body := NoBody; timeout := Some 5000 |}.

Definition login_request (email password : string) : Request :=
  {| method := POST; url := API_BASE_URL ++ "/auth/login"; headers := [];
     body := JsonBody (JObj [("email", JStr email);
                             ("password", JStr password)]);
     timeout := None |}.

Definition refresh_request (refreshToken : JsVal) : Request :=
  {| method := POST; url := API_BASE_URL ++ "/auth/refresh";
     headers := [("Authorization", Bearer refreshToken)];
     body := JsonBody (JObj []); timeout := None |}.

Definition packages_request (state : AdminState) : Request :=
  {| method := GET; url := API_BASE_URL ++ "/packages";
     headers := auth_headers state; body := NoBody; timeout := None |}.

Definition package_request (state : AdminState) (id : string) : Request :=
  {| method := GET; url := API_BASE_URL ++ "/packages/" ++ id;
     headers := auth_headers state; body := NoBody; timeout := None |}.

Definition createPackage_request (state : AdminState) (packageData : JsVal)
  : Request :=
  {| method := POST; url := API_BASE_URL ++ "/packages";
     headers := auth_json_headers state; body := JsonBody packageData;
     timeout := None |}.

Definition updatePackage_request (state : AdminState) (id : string)
  (packageData : JsVal) : Request :=
  {| method := PATCH; url := API_BASE_URL ++ "/packages/" ++ id;
     headers := auth_json_headers state; body := JsonBody packageData;
     timeout := None |}.

Definition deletePackage_request (state : AdminState) (id : string)
  : Request :=
  {| method := DELETE; url := API_BASE_URL ++ "/packages/" ++ id;
     headers := auth_headers state; body := NoBody; timeout := None |}.

(** [`${params}`] of the URLSearchParams built from page, limit and the
    optional verified flag. *)
Definition review_params (page limit : Z) (verified : option bool) : string :=
  "page=" ++ pretty page ++ "&limit=" ++ pretty limit
  ++ match verified with
     | Some b => "&verified=" ++ js_to_string (JBool b)
     | None => ""
     end.

Definition allReviews_request (state : AdminState) (page limit : Z)
  (verified : option bool) : Request :=
  {| method := GET;
     url := API_BASE_URL ++ "/admin/reviews?"
            ++ review_params page limit verified;
     headers := auth_headers state; body := NoBody; timeout := None |}.

Definition packageReviews_request (state : AdminState) (packageId : string)
  (page limit : Z) : Request :=
  {| method := GET;
     url := API_BASE_URL ++ "/packages/" ++ packageId
            ++ "/reviews?page=" ++ pretty page ++ "&limit=" ++ pretty limit;
     headers := auth_headers state; body := NoBody; timeout := None |}.

Definition approveReview_request (state : AdminState) (reviewId : string)
  : Request :=
  {| method := PATCH;
     url := API_BASE_URL ++ "/admin/reviews/" ++ reviewId ++ "/approve";
     headers := auth_headers state; body := JsonBody (JObj []);
     timeout := None |}.

Definition deleteReview_request (state : AdminState) (reviewId : string)
  : Request :=
  {| method := DELETE;
     url := API_BASE_URL ++ "/admin/reviews/" ++ reviewId;
     headers := auth_headers state; body := NoBody; timeout := None |}.

Definition fetchHealthStatus : M World unit :=
  set [loading_ true; error_ None];;
  try_catch
    (state ← get;
     data ← axios backend (health_request state);
     set [healthData_ data; loading_ false])
    (fun error =>
       set [error_ (Some (message_or error "Failed to fetch health status"));
            loading_ false]).

Definition login (email password : string) : M World unit :=
  set [isLoading_ true; authError_ None];;
  try_catch
    (data ← axios backend (login_request email password);
     access_token ← destructure data "access_token" "response.data";
     refresh_token ← destructure data "refresh_token" "response.data";
     user ← destructure data "user" "response.data";
     (* Check if user is admin *)
     role ← read_prop user "role";
     (if strict_eq_str role "ADMIN" then mret tt
      else throw_Error "Access denied. Admin privileges required.");;
     set [user_ user; accessToken_ access_token;
          refreshToken_ refresh_token; isLoading_ false; authError_ None])
    (fun error =>
       let errorMessage := message_or error "Login failed" in
       set [authError_ (Some errorMessage); isLoading_ false];;
       throw_Error errorMessage).

Definition logout : M World unit :=
  set [user_ JNull; accessToken_ JNull; refreshToken_ JNull;
       authError_ None].

Definition refreshAccessToken : M World JsVal :=
  state ← get;
  let refreshToken := refreshToken state in
  (if truthy refreshToken then mret tt
   else throw_Error "No refresh token available");;
  try_catch
    (data ← axios backend (refresh_request refreshToken);
     access_token ← destructure data "access_token" "response.data";
     set [accessToken_ access_token];;
     mret access_token)
    (fun _ =>
       (* If refresh fails, logout the user *)
       logout;;
       throw_Error "Session expired. Please login again.").

(** [!!(user && accessToken && user.role === 'ADMIN')] *)
Definition checkAuthStatus (state : AdminState) : bool :=
  truthy (user state) && truthy (accessToken state)
  && match get_prop (user state) "role" with
     | Some role => strict_eq_str role "ADMIN"
     | None => false
     end.

(* Package management methods *)
Definition fetchPackages : M World unit :=
  set [packagesLoading_ true; packagesError_ None];;
  try_catch
    (state ← get;
     data ← axios backend (packages_request state);
     inner ← read_prop data "data";
     set [packages_ (js_or inner data); packagesLoading_ false])
    (fun error =>
       console_error "Error fetching packages:" error;;
       set [packagesError_ (Some "Failed to fetch packages");
            packagesLoading_ false]).

Definition fetchPackageById (id : string) : M World JsVal :=
  try_catch
    (state ← get;
     data ← axios backend (package_request state id);
     inner ← read_prop data "data";
     mret (js_or inner data))
    (fun error =>
       console_error "Error fetching package by ID:" error;;
       mret JNull).

Definition createPackage (packageData : JsVal) : M World JsVal :=
  try_catch
    (state ← get;
     data ← axios backend (createPackage_request state packageData);
     (* Refresh packages list after creation *)
     fetchPackages;;
     mret data)
    (fun error =>
       console_error "Error creating package:" error;;
       throw_Error "Failed to create package").

Definition updatePackage (id : string) (packageData : JsVal) : M World JsVal :=
  try_catch
    (state ← get;
     data ← axios backend (updatePackage_request state id packageData);
     (* Refresh packages list after update *)
     fetchPackages;;
     mret data)
    (fun error =>
       console_error "Error updating package:" error;;
       throw_Error "Failed to update package").

Definition deletePackage (id : string) : M World JsVal :=
  try_catch
    (state ← get;
     axios backend (deletePackage_request state id);;
     (* Refresh packages list after deletion *)
     fetchPackages;;
     mret JUndefined)
    (fun error =>
       console_error "Error deleting package:" error;;
       throw_Error "Failed to delete package").

(* Review functions *)
Definition fetchAllReviews (page limit : Z) (verified : option bool)
  : M World unit :=
  set [reviewsLoading_ true; reviewsError_ None];;
  try_catch
    (state ← get;
     data ← axios backend (allReviews_request state page limit verified);
     reviews ← read_prop data "data";
     pagination ← read_prop data "pagination";
     set [reviews_ reviews; reviewsPagination_ pagination;
          reviewsLoading_ false])
    (fun error =>
       set [reviewsError_ (Some (message_or error "Failed to fetch reviews"));
            reviewsLoading_ false]).

(** [fetchAllReviews()]: the defaults [page = 1, limit = 10] and no
    [verified]. *)
Definition fetchAllReviews_default : M World unit :=
  fetchAllReviews 1 10 None.

Definition fetchPackageReviews (packageId : string) (page limit : Z)
  : M World unit :=
  set [reviewsLoading_ true; reviewsError_ None];;
  try_catch
    (state ← get;
     data ← axios backend (packageReviews_request state packageId page limit);
     reviews ← read_prop data "data";
     pagination ← read_prop data "pagination";
     set [reviews_ reviews; reviewsPagination_ pagination;
          reviewsLoading_ false])
    (fun error =>
       set [reviewsError_
              (Some (message_or error "Failed to fetch package reviews"));
            reviewsLoading_ false]).

Definition approveReview (reviewId : string) : M World JsVal :=
  try_catch
    (state ← get;
     axios backend (approveReview_request state reviewId);;
     (* Refresh reviews after approval *)
     fetchAllReviews_default;;
     mret JUndefined)
    (fun _ => throw_Error "Failed to approve review").

Definition deleteReview (reviewId : string) : M World JsVal :=
  try_catch
    (state ← get;
     axios backend (deleteReview_request state reviewId);;
     (* Refresh reviews after deletion *)
     fetchAllReviews_default;;
     mret JUndefined)
    (fun _ => throw_Error "Failed to delete review").
End Store.
End useAdminStore.

(** ** Page handlers

    A handler that the source starts without [await] (the refetch at the
    end of a bookings or carousel handler) is run here at the point of the
    call, which is where its request is issued. A component reads
    [accessToken] from the store when it renders; the handlers below take
    the value the store holds when they start. The answer to a
    [confirm()] dialog is a parameter of the handler. *)

(** [src/app/bookings/page.tsx] *)
Module BookingsPage.
Section Page.
Variable NEXT_PUBLIC_API_BASE_URL : option string.
Variable backend : Backend.

(** The four values of [Booking.status]. *)
Inductive BookingStatus : Type := PENDING | CONFIRMED | COMPLETED | CANCELLED.

Definition status_name (s : BookingStatus) : string :=
  match s with
  | PENDING => "PENDING"
  | CONFIRMED => "CONFIRMED"
  | COMPLETED => "COMPLETED"
  | CANCELLED => "CANCELLED"
  end.

Definition baseUrl : string :=
  env_or NEXT_PUBLIC_API_BASE_URL "http://localhost:3006".

(** [localStorage.getItem('adminToken')] *)
Definition adminToken (w : World) : JsVal :=
  match getItem (localStorage w) "adminToken" with
  | Some s => JStr s
  | None => JNull
  end.

Definition json_headers (token : JsVal) : list (string * string) :=
  [("Authorization", Bearer token); ("Content-Type", "application/json")].

Definition fetchBookings : M World unit :=
  try_finally
    (try_catch
       (set_cell "loading" (JBool true);;
        token ← gets adminToken;
        response ← fetch backend
          {| method := GET; url := baseUrl ++ "/bookings";
             headers := json_headers token; body := NoBody;
             timeout := None |};
        if negb (ok response) then
          if (status response =? 401)%Z then
            useAdminStore.logout;;
            navigate "/admin-login"
          else throw_Error "Failed to fetch bookings"
        else
          data ← response_json response;
          set_cell "bookings" data)
       (fun err => set_cell "error" (JStr (message_or err "An error occurred"))))
    (with_cell "loading" (JBool false)).

(** The [switch] of [updateBookingStatus]: the endpoint of a status. *)
Definition endpoint_of (bookingId status : string) : option string :=
  if String.eqb status "CONFIRMED" then
    Some (baseUrl ++ "/bookings/" ++ bookingId ++ "/confirm")
  else if String.eqb status "COMPLETED" then
    Some (baseUrl ++ "/bookings/" ++ bookingId ++ "/complete")
  else if String.eqb status "CANCELLED" then
    Some (baseUrl ++ "/bookings/" ++ bookingId ++ "/cancel")
  else None.

Definition updateBookingStatus (bookingId status : string) : M World unit :=
  try_catch
    (token ← gets adminToken;
     (* Map status to correct endpoint *)
     endpoint ← match endpoint_of bookingId status with
                | Some e => mret e
                | None => throw_Error "Invalid status"
                end;
     response ← fetch backend
       {| method := PATCH; url := endpoint; headers := json_headers token;
          body := NoBody; timeout := None |};
     (if negb (ok response)
      then throw_Error "Failed to update booking status"
      else mret tt);;
     (* Refresh bookings after update *)
     fetchBookings)
    (fun _ => alert "Failed to update booking status").

Definition deleteBooking (confirmed : bool) (bookingId : string)
  : M World unit :=
  if negb confirmed then mret tt
  else
    try_catch
      (token ← gets adminToken;
       response ← fetch backend
         {| method := DELETE; url := baseUrl ++ "/bookings/" ++ bookingId;
            headers := json_headers token; body := NoBody;
            timeout := None |};
       (if negb (ok response)
        then throw_Error "Failed to delete booking"
        else mret tt);;
       (* Refresh bookings after deletion *)
       fetchBookings)
      (fun _ => alert "Failed to delete booking").

(** The mount effect. *)
Definition on_mount : M World unit :=
  state ← gets store;
  if negb (useAdminStore.checkAuthStatus state)
  then navigate "/admin-login"
  else fetchBookings.
End Page.

(** [getStatusColor(status)]: the classes of the status badge. *)
Definition getStatusColor (status : string) : string :=
  if String.eqb status "CONFIRMED" then "bg-green-100 text-green-800"
  else if String.eqb status "COMPLETED" then "bg-blue-100 text-blue-800"
  else if String.eqb status "CANCELLED" then "bg-red-100 text-red-800"
  else "bg-yellow-100 text-yellow-800".

(** [bookings.filter(booking => booking.status === selectedStatus)]; reading
    the status of a null or undefined element is a TypeError. *)
Fixpoint filter_by_status (selectedStatus : string) (bookings : list JsVal)
  : Outcome (list JsVal) :=
  match bookings with
  | [] => Returned []
  | booking :: rest =>
      match get_prop booking "status" with
      | None => Threw (TypeError_read booking "status")
      | Some status =>
          match filter_by_status selectedStatus rest with
          | Threw e => Threw e
          | Returned kept =>
              Returned (if strict_eq_str status selectedStatus
                        then booking :: kept else kept)
          end
      end
  end.

(** [filteredBookings], computed at each render from the filter and the
    bookings held. *)
Definition filteredBookings (selectedStatus : string) (bookings : list JsVal)
  : Outcome (list JsVal) :=
  if String.eqb selectedStatus "all" then Returned bookings
  else filter_by_status selectedStatus bookings.
End BookingsPage.

(** [reviews/page.tsx] *)
Module ReviewsPage.
Section Page.
Variable NEXT_PUBLIC_API_BASE_URL : option string.
Variable backend : Backend.

(** The effect run on mount and when the page or the filter changes. *)
Definition on_effect (currentPage : Z) (filterVerified : option bool)
  : M World unit :=
  state ← gets store;
  if negb (useAdminStore.checkAuthStatus state)
  then navigate "/admin-login"
  else useAdminStore.fetchAllReviews NEXT_PUBLIC_API_BASE_URL backend
         currentPage 10 filterVerified.

Definition handleApprove (confirmed : bool) (reviewId : string)
  : M World unit :=
  if confirmed then
    try_catch
      (useAdminStore.approveReview NEXT_PUBLIC_API_BASE_URL backend reviewId;;
       alert "Review approved successfully")
      (fun error =>
         console_error "Error approving review:" error;;
         alert "Failed to approve review")
  else mret tt.

Definition handleDelete (confirmed : bool) (reviewId : string)
  : M World unit :=
  if confirmed then
    try_catch
      (useAdminStore.deleteReview NEXT_PUBLIC_API_BASE_URL backend reviewId;;
       alert "Review deleted successfully")
      (fun error =>
         console_error "Error deleting review:" error;;
         alert "Failed to delete review")
  else mret tt.
End Page.

(** The two literals of [renderStars], byte for byte as the source file
    holds them. *)
Definition filled_star : string := "‚≠ê".
Definition empty_star : string := "‚òÜ".

(** [s.repeat(count)]: a RangeError for a negative count. *)
Definition js_repeat (s : string) (count : Z) : Outcome string :=
  if (count <? 0)%Z
  then Threw (ErrorObj ("Invalid count value: " ++ pretty count))
  else Returned (String.concat "" (replicate (Z.to_nat count) s)).

Definition renderStars (rating : Z) : Outcome string :=
  match js_repeat filled_star rating with
  | Threw e => Threw e
  | Returned filled =>
      match js_repeat empty_star (5 - rating) with
      | Threw e => Threw e
      | Returned empty => Returned (filled ++ empty)
      end
  end.

(** The page's own state: [filterVerified] and [currentPage]. *)
Record View : Type := {
  filterVerified : option bool;
  currentPage : Z
}.

(** [useState(undefined)] and [useState(1)]. *)
Definition initial_view : View :=
  {| filterVerified := None; currentPage := 1 |}.

Definition handleFilterChange (value : string) (v : View) : View :=
  {| filterVerified :=
       if String.eqb value "all" then None
       else if String.eqb value "verified" then Some true
       else if String.eqb value "unverified" then Some false
       else filterVerified v;
     (* Reset to first page when filter changes *)
     currentPage := 1 |}.

Definition handlePageChange (page : Z) (v : View) : View :=
  {| filterVerified := filterVerified v; currentPage := page |}.

(** The value the filter's select shows. *)
Definition select_value (v : View) : string :=
  match filterVerified v with
  | None => "all"
  | Some true => "verified"
  | Some false => "unverified"
  end.

(** The Previous and Next buttons of a pagination of [pages] pages: the
    page a click asks for, and whether the button is disabled. *)
Definition previous_click (v : View) : View :=
  handlePageChange (Z.max 1 (currentPage v - 1)) v.

Definition next_click (pages : Z) (v : View) : View :=
  handlePageChange (Z.min pages (currentPage v + 1)) v.

Definition previous_disabled (v : View) : bool := (currentPage v =? 1)%Z.

Definition next_disabled (pages : Z) (v : View) : bool :=
  (currentPage v =? pages)%Z.

(** The effect, which depends on [currentPage] and [filterVerified], run
    for a view. *)
Definition effect_of (NEXT_PUBLIC_API_BASE_URL : option string)
    (backend : Backend) (v : View) : M World unit :=
  on_effect NEXT_PUBLIC_API_BASE_URL backend (currentPage v) (filterVerified v).
End ReviewsPage.

(** ** White space, and values as numbers *)

(** A string holds the UTF-8 bytes of its text. The white space that
    [String.prototype.trim] strips and that [StringToNumber] skips is
    WhiteSpace and LineTerminator of ECMA-262: U+0009 to U+000D, U+0020,
    U+00A0, U+1680, U+2000 to U+200A, U+2028, U+2029, U+202F, U+205F,
    U+3000 and U+FEFF. *)
Definition one_byte_space (a : Ascii.ascii) : bool :=
  let a := Ascii.N_of_ascii a in
  ((9 <=? a) && (a <=? 13) || (a =? 32))%N.

Definition two_byte_space (a b : Ascii.ascii) : bool :=
  ((Ascii.N_of_ascii a =? 194) && (Ascii.N_of_ascii b =? 160))%N.

Definition three_byte_space (a b c : Ascii.ascii) : bool :=
  let a := Ascii.N_of_ascii a in
  let b := Ascii.N_of_ascii b in
  let c := Ascii.N_of_ascii c in
  ((a =? 225) && (b =? 154) && (c =? 128)
   || (a =? 226) && (b =? 128)
      && ((128 <=? c) && (c <=? 138) || (c =? 168) || (c =? 169) || (c =? 175))
   || (a =? 226) && (b =? 129) && (c =? 159)
   || (a =? 227) && (b =? 128) && (c =? 128)
   || (a =? 239) && (b =? 187) && (c =? 191))%N.

Fixpoint skip_white_space (s : string) : string :=
  match s with
  | String a r1 =>
      if one_byte_space a then skip_white_space r1
      else
        match r1 with
        | String b r2 =>
            if two_byte_space a b then skip_white_space r2
            else
              match r2 with
              | String c r3 =>
                  if three_byte_space a b c then skip_white_space r3 else s
              | EmptyString => s
              end
        | EmptyString => s
        end
  | EmptyString => s
  end.

(** What is left without its trailing white space: a suffix that is white
    space throughout starts at a character, none of the continuation
    bytes [80] to [BF] being the first byte of a white space. *)
Fixpoint trim_end (s : string) : string :=
  match s with
  | String a rest =>
      if String.eqb (skip_white_space s) "" then ""
      else String a (trim_end rest)
  | EmptyString => ""
  end.

(** [s.trim()] *)
Definition trim (s : string) : string := trim_end (skip_white_space s).

(** The numbers a value can stand for in a comparison: the result of
    ToNumber before it is rounded to a double, [digits] times ten to the
    [exponent] and its sign. *)
Inductive Number : Type :=
| NaN
| Infinity (negative : bool)
| Decimal (negative : bool) (digits : N) (exponent : Z).

Definition digit_value (radix : N) (c : Ascii.ascii) : option N :=
  let n := Ascii.N_of_ascii c in
  let value :=
    (if (48 <=? n) && (n <=? 57) then Some (n - 48)
     else if (97 <=? n) && (n <=? 102) then Some (n - 87)
     else if (65 <=? n) && (n <=? 70) then Some (n - 55)
     else None)%N in
  match value with
  | Some d => if (d <? radix)%N then Some d else None
  | None => None
  end.

(** The digits a string starts with: their value after [value], how many
    they are after [count], and what follows them. *)
Fixpoint read_digits (radix : N) (s : string) (value : N) (count : nat)
  : N * nat * string :=
  match s with
  | String c rest =>
      match digit_value radix c with
      | Some d => read_digits radix rest (value * radix + d)%N (S count)
      | None => (value, count, s)
      end
  | EmptyString => (value, count, s)
  end.

(** A whole string of digits in a radix: [0x], [0o] and [0b] literals. *)
Definition radix_literal (radix : N) (s : string) : Number :=
  let '(value, count, rest) := read_digits radix s 0%N 0%nat in
  if Nat.eqb count 0 || negb (String.eqb rest "") then NaN
  else Decimal false value 0.

(** An optional ExponentPart that ends the string. *)
Definition exponent_part (s : string) : option Z :=
  match s with
  | EmptyString => Some 0
  | String c rest =>
      if (Ascii.N_of_ascii c =? 101)%N || (Ascii.N_of_ascii c =? 69)%N then
        let '(negative, body) :=
          match rest with
          | String sign body =>
              if (Ascii.N_of_ascii sign =? 43)%N then (false, body)
              else if (Ascii.N_of_ascii sign =? 45)%N then (true, body)
              else (false, rest)
          | EmptyString => (false, rest)
          end in
        let '(value, count, rest') := read_digits 10 body 0%N 0%nat in
        if Nat.eqb count 0 || negb (String.eqb rest' "") then None
        else Some (if negative then - Z.of_N value else Z.of_N value)
      else None
  end.

(** StrUnsignedDecimalLiteral. *)
Definition unsigned_decimal (negative : bool) (s : string) : Number :=
  if String.eqb s "Infinity" then Infinity negative
  else
    let '(whole, whole_count, rest) := read_digits 10 s 0%N 0%nat in
    match rest with
    | String c fraction =>
        if (Ascii.N_of_ascii c =? 46)%N then
          let '(digits, fraction_count, rest') :=
            read_digits 10 fraction whole 0%nat in
          if Nat.eqb whole_count 0 && Nat.eqb fraction_count 0 then NaN
          else
            match exponent_part rest' with
            | Some e => Decimal negative digits (e - Z.of_nat fraction_count)
            | None => NaN
            end
        else if Nat.eqb whole_count 0 then NaN
        else
          match exponent_part rest with
          | Some e => Decimal negative whole e
          | None => NaN
          end
    | EmptyString =>
        if Nat.eqb whole_count 0 then NaN else Decimal negative whole 0
    end.

(** StringToNumber: white space around a decimal literal with its sign,
    or around an unsigned [0x], [0o] or [0b] literal; nothing but white
    space is zero, anything else is NaN. *)
Definition StringToNumber (s : string) : Number :=
  match trim s with
  | EmptyString => Decimal false 0 0
  | String c rest =>
      let prefixed :=
        match rest with
        | String x body =>
            let x := Ascii.N_of_ascii x in
            if negb (Ascii.N_of_ascii c =? 48)%N then None
            else if (x =? 120)%N || (x =? 88)%N then Some (16%N, body)
            else if (x =? 111)%N || (x =? 79)%N then Some (8%N, body)
            else if (x =? 98)%N || (x =? 66)%N then Some (2%N, body)
            else None
        | EmptyString => None
        end in
      match prefixed with
      | Some (radix, body) => radix_literal radix body
      | None =>
          if (Ascii.N_of_ascii c =? 43)%N then unsigned_decimal false rest
          else if (Ascii.N_of_ascii c =? 45)%N then unsigned_decimal true rest
          else unsigned_decimal false (String c rest)
      end
  end.

(** ToNumber; an array or an object goes through its string, ToPrimitive
    finding no primitive [valueOf]. *)
Definition ToNumber (v : JsVal) : Number :=
  match v with
  | JUndefined => NaN
  | JNull => Decimal false 0 0
  | JBool b => Decimal false (if b then 1 else 0) 0
  | JNum n => Decimal (n <? 0)%Z (Z.abs_N n) 0
  | JStr s => StringToNumber s
  | JArr _ | JObj _ => StringToNumber (js_to_string v)
  end.

(** Whether the double nearest to [digits] times ten to the [exponent] is
    zero, which it is up to half the least double, 2^-1075, and whether it
    is below one, which it is below the midpoint 1 - 2^-54 of one and the
    double before it; at either midpoint the tie goes to zero and to
    one. *)
Definition rounds_to_zero (digits : N) (exponent : Z) : bool :=
  (digits =? 0)%N
  || (exponent <? 0)%Z
     && (Z.of_N digits * 2 ^ 1075 <=? 10 ^ (- exponent))%Z.

Definition rounds_below_one (digits : N) (exponent : Z) : bool :=
  if (exponent <? 0)%Z
  then (Z.of_N digits * 2 ^ 54 <? (2 ^ 54 - 1) * 10 ^ (- exponent))%Z
  else (digits =? 0)%N.

(** [v < 0], [v <= 0] and [v < 1]; a comparison with NaN is false. *)
Definition lt_0 (v : JsVal) : bool :=
  match ToNumber v with
  | NaN => false
  | Infinity negative => negative
  | Decimal negative digits exponent =>
      negative && negb (rounds_to_zero digits exponent)
  end.

Definition le_0 (v : JsVal) : bool :=
  match ToNumber v with
  | NaN => false
  | Infinity negative => negative
  | Decimal negative digits exponent =>
      negative || rounds_to_zero digits exponent
  end.

Definition lt_1 (v : JsVal) : bool :=
  match ToNumber v with
  | NaN => false
  | Infinity negative => negative
  | Decimal negative digits exponent =>
      negative || rounds_below_one digits exponent
  end.

(** ** Forms and their cells *)

(** [{ ...obj, [k]: v }] *)
Definition set_field (k : string) (v : JsVal) (obj : JsVal) : JsVal :=
  match obj with
  | JObj fields => JObj ((k, v) :: fields)
  | _ => JObj [(k, v)]
  end.

(** The value a useState cell holds: what was last set, or the initial
    value given to useState. *)
Definition cell (name : string) (initial : JsVal) (w : World) : JsVal :=
  default initial (cells w !! name).

(** [updateForm(field, value)] of the form pages: the field is set, and
    its validation error, when there is one, is dropped. *)
Definition updateForm (initialForm : JsVal) (field : string) (value : JsVal)
  : M World unit :=
  form ← gets (cell "form" initialForm);
  set_cell "form" (set_field field value form);;
  errors ← gets (cell "errors" (JObj []));
  if truthy (default JUndefined (get_prop errors field))
  then set_cell "errors" (set_field field JUndefined errors)
  else mret tt.

(** [arr.map((x, i) => f(x, i))] and [arr.filter((x, i) => keep(x, i))],
    with [i] counted from [start]. *)
Fixpoint map_index {A B : Type} (f : A -> nat -> B) (start : nat)
    (arr : list A) : list B :=
  match arr with
  | [] => []
  | x :: rest => f x start :: map_index f (S start) rest
  end.

Fixpoint filter_index {A : Type} (keep : A -> nat -> bool) (start : nat)
    (arr : list A) : list A :=
  match arr with
  | [] => []
  | x :: rest =>
      if keep x start then x :: filter_index keep (S start) rest
      else filter_index keep (S start) rest
  end.

(** The editors of the highlights in the create and edit pages of a
    package, as the array each puts in place of [prev.highlights], the
    [string[]] of the form; [index] is a JavaScript number, compared with
    [===] to the position of each element. *)
Definition addHighlight (highlights : list string) : list string :=
  highlights ++ [""].

Definition updateHighlight (index : Z) (value : string)
    (highlights : list string) : list string :=
  map_index (fun h i => if (Z.of_nat i =? index)%Z then value else h) 0
    highlights.

Definition removeHighlight (index : Z) (highlights : list string)
  : list string :=
  filter_index (fun _ i => negb (Z.of_nat i =? index)%Z) 0 highlights.

(** [obj[k] = v] on an object literal: a key that is there keeps its
    place, a new one comes last. *)
Fixpoint js_assign (k : string) (v : JsVal) (fields : list (string * JsVal))
  : list (string * JsVal) :=
  match fields with
  | [] => [(k, v)]
  | (k', v') :: rest =>
      if String.eqb k k' then (k, v) :: rest
      else (k', v') :: js_assign k v rest
  end.

(** Sequencing of computations that touch no state. *)
Definition and_then {A B : Type} (o : Outcome A) (k : A -> Outcome B)
  : Outcome B :=
  match o with
  | Returned a => k a
  | Threw e => Threw e
  end.

(** [form.field] *)
Definition field_of (form : JsVal) (field : string) : Outcome JsVal :=
  match get_prop form field with
  | Some v => Returned v
  | None => Threw (TypeError_read form field)
  end.

(** [if (!form.field.trim()) newErrors.field = message]: reading [trim]
    of an undefined or null field is a TypeError, and so is calling it on
    a value that is not a string, which has no such method. *)
Definition required (form : JsVal) (field message : string)
    (newErrors : list (string * JsVal)) : Outcome (list (string * JsVal)) :=
  and_then (field_of form field) (fun v =>
    match v with
    | JStr s =>
        Returned (if negb (truthy (JStr (trim s)))
                  then js_assign field (JStr message) newErrors
                  else newErrors)
    | JUndefined | JNull => Threw (TypeError_read v "trim")
    | _ => Threw (ErrorObj ("form." ++ field ++ ".trim is not a function"))
    end).

(** [validateForm()] of the form pages around the errors it finds:
    [setErrors(newErrors)] and whether [Object.keys(newErrors)] is empty;
    a TypeError raised while the form is read leaves before either. *)
Definition validateForm_by (validate : JsVal -> Outcome (list (string * JsVal)))
    (initialForm : JsVal) : M World bool :=
  form ← gets (cell "form" initialForm);
  match validate form with
  | Threw e => throw e
  | Returned newErrors =>
      set_cell "errors" (JObj newErrors);;
      mret (Nat.eqb (length newErrors) 0)
  end.

(** [uploadImage(file)], written out in four pages with the same body and
    a fallback base URL of their own. *)
Definition uploadImage_at (base : string) (backend : Backend) (file : string)
  : M World string :=
  try_catch
    (state ← gets store;
     response ← fetch backend
       {| method := POST; url := base ++ "/upload/image";
          headers := [("Authorization", Bearer (accessToken state))];
          body := FormDataBody file; timeout := None |};
     (if negb (ok response) then throw_Error "Upload failed" else mret tt);;
     data ← response_json response;
     inner ← read_prop data "data";
     path ← read_prop inner "url";
     mret (base ++ js_to_string path))
    (fun error =>
       console_error "Error uploading image:" error;;
       throw error).

(** The image-input handler of the form pages: [field] is the form field
    that receives the uploaded image's URL; no file chosen, nothing done. *)
Definition handleUpload_at (base : string) (backend : Backend)
    (initialForm : JsVal) (field : string) (file : option string)
  : M World unit :=
  match file with
  | None => mret tt
  | Some f =>
      try_finally
        (try_catch
           (set_cell "uploadingImage" (JBool true);;
            imageUrl ← uploadImage_at base backend f;
            updateForm initialForm field (JStr imageUrl))
           (fun _ => alert "Failed to upload image"))
        (with_cell "uploadingImage" (JBool false))
  end.

(** [packages/page.tsx] *)
Module PackagesPage.
Section Page.
Variable NEXT_PUBLIC_API_BASE_URL : option string.
Variable backend : Backend.

Definition on_mount : M World unit :=
  state ← gets store;
  if negb (useAdminStore.checkAuthStatus state)
  then navigate "/admin-login"
  else useAdminStore.fetchPackages NEXT_PUBLIC_API_BASE_URL backend.

Definition handleCreateNew : M World unit := navigate "/packages/create".

Definition handleEdit (packageId : string) : M World unit :=
  navigate ("/packages/" ++ packageId ++ "/edit").

Definition handleDelete (confirmed : bool) (packageId : string)
  : M World unit :=
  if confirmed then
    try_catch
      (useAdminStore.deletePackage NEXT_PUBLIC_API_BASE_URL backend packageId;;
       alert "Package deleted successfully")
      (fun error =>
         console_error "Error deleting package:" error;;
         alert "Failed to delete package")
  else mret tt.
End Page.
End PackagesPage.

(** [packages/create/page.tsx] *)
Module CreatePackagePage.
Section Page.
Variable NEXT_PUBLIC_API_BASE_URL : option string.
Variable backend : Backend.

Definition initialForm : JsVal :=
  JObj [("title", JStr ""); ("description", JStr ""); ("location", JStr "");
        ("price", JNum 0); ("duration", JNum 1);
        ("category", JStr "ADVENTURE"); ("difficulty", JStr "EASY");
        ("coverImage", JStr ""); ("images", JArr []);
        ("highlights", JArr []);
        ("itinerary", JArr [JObj [("day", JNum 1); ("title", JStr "");
                                  ("description", JStr "")]]);
        ("included", JArr []); ("excluded", JArr [])].

Definition on_mount : M World unit :=
  state ← gets store;
  if negb (useAdminStore.checkAuthStatus state)
  then navigate "/admin-login"
  else mret tt.

Definition uploadImage : string -> M World string :=
  uploadImage_at (env_or NEXT_PUBLIC_API_BASE_URL "http://localhost:3002")
    backend.

Definition handleCoverImageUpload : option string -> M World unit :=
  handleUpload_at (env_or NEXT_PUBLIC_API_BASE_URL "http://localhost:3002")
    backend initialForm "coverImage".

(** The [newErrors] of [validateForm]. *)
Definition newErrors (form : JsVal) : Outcome (list (string * JsVal)) :=
  and_then (required form "title" "Title is required" []) (fun e1 =>
  and_then (required form "description" "Description is required" e1)
    (fun e2 =>
  and_then (required form "location" "Location is required" e2) (fun e3 =>
  and_then (field_of form "price") (fun price =>
  let e4 :=
    if le_0 price
    then js_assign "price" (JStr "Price must be greater than 0") e3
    else e3 in
  and_then (field_of form "duration") (fun duration =>
  Returned
    (if lt_1 duration
     then js_assign "duration" (JStr "Duration must be at least 1 day") e4
     else e4)))))).

Definition validateForm : M World bool := validateForm_by newErrors initialForm.

Definition handleSubmit : M World unit :=
  valid ← validateForm;
  if negb valid then mret tt
  else
    set_cell "loading" (JBool true);;
    try_finally
      (try_catch
         (form ← gets (cell "form" initialForm);
          useAdminStore.createPackage NEXT_PUBLIC_API_BASE_URL backend form;;
          alert "Package created successfully!";;
          navigate "/packages")
         (fun error =>
            console_error "Error creating package:" error;;
            alert "Failed to create package. Please try again."))
      (with_cell "loading" (JBool false)).
End Page.
End CreatePackagePage.

(** [packages/create-enhanced/page.tsx]. The form is held by
    react-hook-form; its submit handler receives the validated data, of
    which [packageData] is the copy with the empty highlights filtered
    out. *)
Module CreatePackagePageEnhanced.
Section Page.
Variable NEXT_PUBLIC_API_BASE_URL : option string.
Variable backend : Backend.

Definition on_mount : M World unit :=
  state ← gets store;
  if negb (useAdminStore.checkAuthStatus state)
  then navigate "/admin-login"
  else mret tt.

Definition uploadImage : string -> M World string :=
  uploadImage_at (env_or NEXT_PUBLIC_API_BASE_URL "http://localhost:3000")
    backend.

Definition handleCoverImageUpload (file : option string) : M World unit :=
  match file with
  | None => mret tt
  | Some f =>
      try_finally
        (try_catch
           (set_cell "uploadingImage" (JBool true);;
            imageUrl ← uploadImage f;
            (* setValue('coverImage', imageUrl) *)
            form ← gets (cell "form" (JObj []));
            set_cell "form" (set_field "coverImage" (JStr imageUrl) form))
           (fun _ => alert "Failed to upload image"))
        (with_cell "uploadingImage" (JBool false))
  end.

Definition onSubmit (packageData : JsVal) : M World unit :=
  set_cell "loading" (JBool true);;
  try_finally
    (try_catch
       (useAdminStore.createPackage NEXT_PUBLIC_API_BASE_URL backend
          packageData;;
        alert "Package created successfully!";;
        navigate "/packages")
       (fun error =>
          console_error "Error creating package:" error;;
          alert "Failed to create package. Please try again."))
    (with_cell "loading" (JBool false)).
End Page.
End CreatePackagePageEnhanced.

(** [arr.find(x => x.id === id)]: a TypeError when [arr] is not an array
    or an element before the match is null or undefined. *)
Fixpoint find_by_id (id : string) (items : list JsVal) : M World JsVal :=
  match items with
  | [] => mret JUndefined
  | x :: rest =>
      x_id ← read_prop x "id";
      if strict_eq_str x_id id then mret x else find_by_id id rest
  end.

Definition js_find_by_id (arr : JsVal) (id : string) : M World JsVal :=
  match arr with
  | JArr items => find_by_id id items
  | _ => throw (ErrorObj "packages.find is not a function")
  end.

(** [packages/[id]/edit/page.tsx]; [packageId] is the route parameter. *)
Module EditPackagePage.
Section Page.
Variable NEXT_PUBLIC_API_BASE_URL : option string.
Variable backend : Backend.
Variable packageId : string.

Definition initialForm : JsVal := CreatePackagePage.initialForm.

(** The form [loadPackageData] fills from a package. *)
Definition form_of (packageData : JsVal) : M World JsVal :=
  title ← read_prop packageData "title";
  description ← read_prop packageData "description";
  location ← read_prop packageData "location";
  price ← read_prop packageData "price";
  duration ← read_prop packageData "duration";
  category ← read_prop packageData "category";
  difficulty ← read_prop packageData "difficulty";
  coverImage ← read_prop packageData "coverImage";
  mret (JObj [("title", title); ("description", description);
              ("location", location); ("price", price);
              ("duration", duration); ("category", category);
              ("difficulty", difficulty);
              ("coverImage", js_or coverImage (JStr ""));
              ("images", JArr []); ("highlights", JArr []);
              ("itinerary", JArr [JObj [("day", JNum 1); ("title", JStr "");
                                        ("description", JStr "")]]);
              ("included", JArr []); ("excluded", JArr [])]).

Definition loadPackageData : M World unit :=
  try_finally
    (try_catch
       (set_cell "fetchingPackage" (JBool true);;
        (* First try to find in existing packages *)
        state ← gets store;
        found ← js_find_by_id (packages state) packageId;
        (* If not found, fetch by ID *)
        packageData ←
          (if negb (truthy found) then
             fetchedPackage ← useAdminStore.fetchPackageById
                                NEXT_PUBLIC_API_BASE_URL backend packageId;
             mret (js_or fetchedPackage JUndefined)
           else mret found);
        if truthy packageData then
          form ← form_of packageData;
          set_cell "form" form
        else
          alert "Package not found";;
          navigate "/packages")
       (fun error =>
          console_error "Error loading package:" error;;
          alert "Failed to load package data";;
          navigate "/packages"))
    (with_cell "fetchingPackage" (JBool false)).

Definition on_mount : M World unit :=
  state ← gets store;
  if negb (useAdminStore.checkAuthStatus state)
  then navigate "/admin-login"
  else loadPackageData.

Definition uploadImage : string -> M World string :=
  uploadImage_at (env_or NEXT_PUBLIC_API_BASE_URL "http://localhost:3002")
    backend.

Definition handleCoverImageUpload : option string -> M World unit :=
  handleUpload_at (env_or NEXT_PUBLIC_API_BASE_URL "http://localhost:3002")
    backend initialForm "coverImage".

(** [updateData], the eight fields of the form that are sent. *)
Definition updateData (form : JsVal) : JsVal :=
  let field k := (k, default JUndefined (get_prop form k)) in
  JObj [field "title"; field "description"; field "location"; field "price";
        field "duration"; field "category"; field "difficulty";
        field "coverImage"].

(** [validateForm], written out as in the create page. *)
Definition newErrors : JsVal -> Outcome (list (string * JsVal)) :=
  CreatePackagePage.newErrors.

Definition validateForm : M World bool := validateForm_by newErrors initialForm.

Definition handleSubmit : M World unit :=
  valid ← validateForm;
  if negb valid then mret tt
  else
    set_cell "loading" (JBool true);;
    try_finally
      (try_catch
         (form ← gets (cell "form" initialForm);
          useAdminStore.updatePackage NEXT_PUBLIC_API_BASE_URL backend
            packageId (updateData form);;
          alert "Package updated successfully!";;
          navigate "/packages")
         (fun error =>
            console_error "Error updating package:" error;;
            alert "Failed to update package. Please try again."))
      (with_cell "loading" (JBool false)).
End Page.
End EditPackagePage.

(** [carousel/page.tsx] *)
Module CarouselManagementPage.
Section Page.
Variable NEXT_PUBLIC_API_BASE_URL : option string.
Variable backend : Backend.

Definition base : string :=
  env_or NEXT_PUBLIC_API_BASE_URL "http://localhost:3002".

Definition fetchCarouselItems : M World unit :=
  try_finally
    (try_catch
       (set_cell "loading" (JBool true);;
        state ← gets store;
        response ← fetch backend
          {| method := GET; url := base ++ "/carousel/admin";
             headers := [("Authorization", Bearer (accessToken state))];
             body := NoBody; timeout := None |};
        (if negb (ok response)
         then throw_Error "Failed to fetch carousel items" else mret tt);;
        data ← response_json response;
        inner ← read_prop data "data";
        set_cell "carouselItems" (js_or inner (JArr [])))
       (fun error =>
          console_error "Error fetching carousel items:" error;;
          set_cell "error" (JStr "Failed to fetch carousel items")))
    (with_cell "loading" (JBool false)).

Definition on_mount : M World unit :=
  state ← gets store;
  if negb (useAdminStore.checkAuthStatus state)
  then navigate "/admin-login"
  else fetchCarouselItems.

Definition handleDelete (confirmed : bool) (id : string) : M World unit :=
  if negb confirmed then mret tt
  else
    try_catch
      (state ← gets store;
       response ← fetch backend
         {| method := DELETE; url := base ++ "/carousel/" ++ id;
            headers := [("Authorization", Bearer (accessToken state))];
            body := NoBody; timeout := None |};
       (if negb (ok response)
        then throw_Error "Failed to delete carousel item" else mret tt);;
       alert "Carousel item deleted successfully";;
       fetchCarouselItems)
      (fun error =>
         console_error "Error deleting carousel item:" error;;
         alert "Failed to delete carousel item").

Definition handleToggleActive (id : string) (currentStatus : bool)
  : M World unit :=
  try_catch
    (state ← gets store;
     response ← fetch backend
       {| method := PATCH; url := base ++ "/carousel/" ++ id;
          headers := [("Authorization", Bearer (accessToken state));
                      ("Content-Type", "application/json")];
          body := JsonBody (JObj [("isActive", JBool (negb currentStatus))]);
          timeout := None |};
     (if negb (ok response)
      then throw_Error "Failed to update carousel item" else mret tt);;
     alert ("Carousel item "
            ++ (if negb currentStatus then "activated" else "deactivated")
            ++ " successfully");;
     fetchCarouselItems)
    (fun error =>
       console_error "Error updating carousel item:" error;;
       alert "Failed to update carousel item").
End Page.
End CarouselManagementPage.

(** [carousel/[id]/edit/page.tsx]; [carouselId] is the route parameter. *)
Module EditCarouselPage.
Section Page.
Variable NEXT_PUBLIC_API_BASE_URL : option string.
Variable backend : Backend.
Variable carouselId : string.

Definition base : string :=
  env_or NEXT_PUBLIC_API_BASE_URL "http://localhost:3002".

Definition initialForm : JsVal :=
  JObj [("title", JStr ""); ("description", JStr ""); ("imageUrl", JStr "");
        ("actionType", JStr "INTERNAL"); ("actionValue", JStr "");
        ("isActive", JBool true); ("sortOrder", JNum 0)].

(** The form [loadCarouselItem] fills from an item. *)
Definition form_of (item : JsVal) : M World JsVal :=
  title ← read_prop item "title";
  description ← read_prop item "description";
  imageUrl ← read_prop item "imageUrl";
  actionType ← read_prop item "actionType";
  actionValue ← read_prop item "actionValue";
  isActive ← read_prop item "isActive";
  sortOrder ← read_prop item "sortOrder";
  mret (JObj [("title", title);
              ("description", js_or description (JStr ""));
              ("imageUrl", imageUrl); ("actionType", actionType);
              ("actionValue", actionValue); ("isActive", isActive);
              ("sortOrder", sortOrder)]).

Definition loadCarouselItem : M World unit :=
  try_finally
    (try_catch
       (set_cell "fetchingItem" (JBool true);;
        state ← gets store;
        response ← fetch backend
          {| method := GET; url := base ++ "/carousel/" ++ carouselId;
             headers := [("Authorization", Bearer (accessToken state))];
             body := NoBody; timeout := None |};
        (if negb (ok response)
         then throw_Error "Failed to fetch carousel item" else mret tt);;
        data ← response_json response;
        item ← read_prop data "data";
        if truthy item then
          form ← form_of item;
          set_cell "form" form
        else
          alert "Carousel item not found";;
          navigate "/carousel")
       (fun error =>
          console_error "Error loading carousel item:" error;;
          alert "Failed to load carousel item data";;
          navigate "/carousel"))
    (with_cell "fetchingItem" (JBool false)).

Definition on_mount : M World unit :=
  state ← gets store;
  if negb (useAdminStore.checkAuthStatus state)
  then navigate "/admin-login"
  else loadCarouselItem.

Definition uploadImage : string -> M World string :=
  uploadImage_at base backend.

Definition handleImageUpload : option string -> M World unit :=
  handleUpload_at base backend initialForm "imageUrl".

(** The [newErrors] of [validateForm]. [URL_parses s] is whether the
    browser's [new URL(s)] returns rather than throws; the URL parser is
    the platform's and is not modelled. *)
Definition newErrors (URL_parses : string -> bool) (form : JsVal)
  : Outcome (list (string * JsVal)) :=
  and_then (required form "title" "Title is required" []) (fun e1 =>
  and_then (required form "imageUrl" "Image is required" e1) (fun e2 =>
  and_then (required form "actionValue" "Action value is required" e2)
    (fun e3 =>
  and_then (field_of form "sortOrder") (fun sortOrder =>
  let e4 :=
    if lt_0 sortOrder
    then js_assign "sortOrder" (JStr "Sort order must be 0 or greater") e3
    else e3 in
  (* Validate URL for external actions *)
  and_then (field_of form "actionType") (fun actionType =>
  if strict_eq_str actionType "EXTERNAL" then
    and_then (field_of form "actionValue") (fun actionValue =>
    Returned
      (if URL_parses (js_to_string actionValue) then e4
       else js_assign "actionValue"
              (JStr "Must be a valid URL for external actions") e4))
  else Returned e4))))).

Definition validateForm (URL_parses : string -> bool) : M World bool :=
  validateForm_by (newErrors URL_parses) initialForm.

Definition handleSubmit (URL_parses : string -> bool) : M World unit :=
  valid ← validateForm URL_parses;
  if negb valid then mret tt
  else
    set_cell "loading" (JBool true);;
    try_finally
      (try_catch
         (state ← gets store;
          form ← gets (cell "form" initialForm);
          response ← fetch backend
            {| method := PATCH; url := base ++ "/carousel/" ++ carouselId;
               headers := [("Authorization", Bearer (accessToken state));
                           ("Content-Type", "application/json")];
               body := JsonBody form; timeout := None |};
          (if negb (ok response)
           then throw_Error "Failed to update carousel item" else mret tt);;
          alert "Carousel item updated successfully!";;
          navigate "/carousel")
         (fun error =>
            console_error "Error updating carousel item:" error;;
            alert "Failed to update carousel item. Please try again."))
      (with_cell "loading" (JBool false)).
End Page.
End EditCarouselPage.

(** [health/page.tsx]: the mount effect and the refresh button both call
    [fetchHealthStatus]. *)
Module HealthPage.
Definition on_mount (NEXT_PUBLIC_API_BASE_URL : option string)
    (backend : Backend) : M World unit :=
  useAdminStore.fetchHealthStatus NEXT_PUBLIC_API_BASE_URL backend.
End HealthPage.

(** The home page, which only redirects. *)
Module HomePage.
Definition on_mount : M World unit :=
  state ← gets store;
  if useAdminStore.checkAuthStatus state && truthy (accessToken state)
  then navigate "/dashboard"
  else navigate "/admin-login".
End HomePage.

(** ** The store's wrappers as data *)

(** The mutation wrappers. *)
Inductive Mutation : Type :=
| CreatePackage (packageData : JsVal)
| UpdatePackage (id : string) (packageData : JsVal)
| DeletePackage (id : string)
| ApproveReview (reviewId : string)
| DeleteReview (reviewId : string).

(** The operations that fetch into a mirrored field. *)
Inductive ListFetch : Type :=
| FetchHealthStatus
| FetchPackages
| FetchAllReviews (page limit : Z) (verified : option bool)
| FetchPackageReviews (packageId : string) (page limit : Z).

Section Wrappers.
Variable NEXT_PUBLIC_API_BASE_URL : option string.
Variable backend : Backend.

Import useAdminStore.

Definition run_mutation (m : Mutation) : M World JsVal :=
  match m with
  | CreatePackage packageData =>
      createPackage NEXT_PUBLIC_API_BASE_URL backend packageData
  | UpdatePackage id packageData =>
      updatePackage NEXT_PUBLIC_API_BASE_URL backend id packageData
  | DeletePackage id => deletePackage NEXT_PUBLIC_API_BASE_URL backend id
  | ApproveReview reviewId =>
      approveReview NEXT_PUBLIC_API_BASE_URL backend reviewId
  | DeleteReview reviewId =>
      deleteReview NEXT_PUBLIC_API_BASE_URL backend reviewId
  end.

(** The request a mutation wrapper starts with. *)
Definition mutation_request (m : Mutation) (state : AdminState) : Request :=
  match m with
  | CreatePackage packageData =>
      createPackage_request NEXT_PUBLIC_API_BASE_URL state packageData
  | UpdatePackage id packageData =>
      updatePackage_request NEXT_PUBLIC_API_BASE_URL state id packageData
  | DeletePackage id =>
      deletePackage_request NEXT_PUBLIC_API_BASE_URL state id
  | ApproveReview reviewId =>
      approveReview_request NEXT_PUBLIC_API_BASE_URL state reviewId
  | DeleteReview reviewId =>
      deleteReview_request NEXT_PUBLIC_API_BASE_URL state reviewId
  end.

(** The list a mutation belongs to, as the fetch that mirrors it. *)
Definition list_of (m : Mutation) : ListFetch :=
  match m with
  | CreatePackage _ | UpdatePackage _ _ | DeletePackage _ => FetchPackages
  | ApproveReview _ | DeleteReview _ => FetchAllReviews 1 10 None
  end.

(** What a mutation wrapper resolves with, given its response's data. *)
Definition mutation_result (m : Mutation) (data : JsVal) : JsVal :=
  match m with
  | CreatePackage _ | UpdatePackage _ _ => data
  | DeletePackage _ | ApproveReview _ | DeleteReview _ => JUndefined
  end.

(** The message a mutation wrapper throws. *)
Definition mutation_failure (m : Mutation) : string :=
  match m with
  | CreatePackage _ => "Failed to create package"
  | UpdatePackage _ _ => "Failed to update package"
  | DeletePackage _ => "Failed to delete package"
  | ApproveReview _ => "Failed to approve review"
  | DeleteReview _ => "Failed to delete review"
  end.

Definition run_fetch (f : ListFetch) : M World unit :=
  match f with
  | FetchHealthStatus => fetchHealthStatus NEXT_PUBLIC_API_BASE_URL backend
  | FetchPackages => fetchPackages NEXT_PUBLIC_API_BASE_URL backend
  | FetchAllReviews page limit verified =>
      fetchAllReviews NEXT_PUBLIC_API_BASE_URL backend page limit verified
  | FetchPackageReviews packageId page limit =>
      fetchPackageReviews NEXT_PUBLIC_API_BASE_URL backend packageId page limit
  end.

Definition fetch_request (f : ListFetch) (state : AdminState) : Request :=
  match f with
  | FetchHealthStatus => health_request NEXT_PUBLIC_API_BASE_URL state
  | FetchPackages => packages_request NEXT_PUBLIC_API_BASE_URL state
  | FetchAllReviews page limit verified =>
      allReviews_request NEXT_PUBLIC_API_BASE_URL state page limit verified
  | FetchPackageReviews packageId page limit =>
      packageReviews_request NEXT_PUBLIC_API_BASE_URL state packageId page limit
  end.

(** The error field and the loading flag a fetch reports through. *)
Definition error_field (f : ListFetch) (state : AdminState) : option string :=
  match f with
  | FetchHealthStatus => error state
  | FetchPackages => packagesError state
  | FetchAllReviews _ _ _ | FetchPackageReviews _ _ _ => reviewsError state
  end.

Definition loading_flag (f : ListFetch) (state : AdminState) : bool :=
  match f with
  | FetchHealthStatus => loading state
  | FetchPackages => packagesLoading state
  | FetchAllReviews _ _ _ | FetchPackageReviews _ _ _ => reviewsLoading state
  end.
End Wrappers.

(** The [response.data] of a reply that did not fail. *)
Definition reply_data (r : HttpReply) : JsVal :=
  match r with
  | HttpResponse _ payload => payload_data payload
  | NetworkError _ => JUndefined
  end.

(** ** Groups of store fields *)

(** The stored authentication state. *)
Definition auth_fields (s : AdminState) : JsVal * JsVal * JsVal :=
  (user s, accessToken s, refreshToken s).

(** The data mirrored from the backend. *)
Definition mirrored_fields (s : AdminState) : JsVal * JsVal * JsVal * JsVal :=
  (healthData s, packages s, reviews s, reviewsPagination s).

(** The loading flags. *)
Definition loading_flags (s : AdminState) : bool * bool * bool * bool :=
  (loading s, isLoading s, packagesLoading s, reviewsLoading s).

(** The error messages. *)
Definition error_fields (s : AdminState)
  : option string * option string * option string * option string :=
  (error s, authError s, packagesError s, reviewsError s).

(** ** The store's operations and the states they reach *)

Inductive StoreOp : Type :=
| Fetch (f : ListFetch)
| Mutate (m : Mutation)
| Login (email password : string)
| Logout
| RefreshAccessToken
| FetchPackageById (id : string).

(** A [void] operation resolves with [undefined]. *)
Definition void {St} (m : M St unit) : M St JsVal := m;; mret JUndefined.

Definition run_store_op (env : option string) (backend : Backend)
    (op : StoreOp) : M World JsVal :=
  match op with
  | Fetch f => void (run_fetch env backend f)
  | Mutate m => run_mutation env backend m
  | Login email password => void (useAdminStore.login env backend email password)
  | Logout => void useAdminStore.logout
  | RefreshAccessToken => useAdminStore.refreshAccessToken env backend
  | FetchPackageById id => useAdminStore.fetchPackageById env backend id
  end.

(** The worlds reached from a first session on an empty localStorage by
    the store's operations, against any backend, and by reloading the
    console (a new session on the localStorage left behind). *)
Inductive reachable : World -> Prop :=
| reachable_start : reachable (new_session empty_storage)
| reachable_op env backend op w :
    reachable w -> reachable (state_of (run_store_op env backend op w))
| reachable_reload w :
    reachable w -> reachable (new_session (localStorage w)).

(** [user.role], when the user is not null. *)
Definition role_of (u : JsVal) : option JsVal := get_prop u "role".

(** ** The console's operations as data *)

(** The store's operations, and the effects and handlers of the pages that
    can issue a request. *)
Inductive ConsoleOp : Type :=
| OfStore (op : StoreOp)
| Home_mount
| Health_mount
| Packages_mount
| Packages_handleDelete (confirmed : bool) (packageId : string)
| Create_mount
| Create_handleCoverImageUpload (file : option string)
| Create_handleSubmit
| Enhanced_mount
| Enhanced_handleCoverImageUpload (file : option string)
| Enhanced_onSubmit (packageData : JsVal)
| EditPackage_mount (packageId : string)
| EditPackage_loadPackageData (packageId : string)
| EditPackage_handleCoverImageUpload (file : option string)
| EditPackage_handleSubmit (packageId : string)
| Carousel_mount
| Carousel_fetchCarouselItems
| Carousel_handleDelete (confirmed : bool) (id : string)
| Carousel_handleToggleActive (id : string) (currentStatus : bool)
| EditCarousel_mount (carouselId : string)
| EditCarousel_loadCarouselItem (carouselId : string)
| EditCarousel_handleImageUpload (file : option string)
| EditCarousel_handleSubmit (carouselId : string)
    (URL_parses : string -> bool)
| Bookings_mount
| Bookings_fetchBookings
| Bookings_updateBookingStatus (bookingId status : string)
| Bookings_deleteBooking (confirmed : bool) (bookingId : string)
| Reviews_effect (currentPage : Z) (filterVerified : option bool)
| Reviews_handleApprove (confirmed : bool) (reviewId : string)
| Reviews_handleDelete (confirmed : bool) (reviewId : string).

Definition run_op (env : option string) (backend : Backend) (op : ConsoleOp)
  : M World JsVal :=
  match op with
  | OfStore op => run_store_op env backend op
  | Home_mount => void HomePage.on_mount
  | Health_mount => void (HealthPage.on_mount env backend)
  | Packages_mount => void (PackagesPage.on_mount env backend)
  | Packages_handleDelete confirmed packageId =>
      void (PackagesPage.handleDelete env backend confirmed packageId)
  | Create_mount => void CreatePackagePage.on_mount
  | Create_handleCoverImageUpload file =>
      void (CreatePackagePage.handleCoverImageUpload env backend file)
  | Create_handleSubmit =>
      void (CreatePackagePage.handleSubmit env backend)
  | Enhanced_mount => void CreatePackagePageEnhanced.on_mount
  | Enhanced_handleCoverImageUpload file =>
      void (CreatePackagePageEnhanced.handleCoverImageUpload env backend file)
  | Enhanced_onSubmit packageData =>
      void (CreatePackagePageEnhanced.onSubmit env backend packageData)
  | EditPackage_mount packageId =>
      void (EditPackagePage.on_mount env backend packageId)
  | EditPackage_loadPackageData packageId =>
      void (EditPackagePage.loadPackageData env backend packageId)
  | EditPackage_handleCoverImageUpload file =>
      void (EditPackagePage.handleCoverImageUpload env backend file)
  | EditPackage_handleSubmit packageId =>
      void (EditPackagePage.handleSubmit env backend packageId)
  | Carousel_mount => void (CarouselManagementPage.on_mount env backend)
  | Carousel_fetchCarouselItems =>
      void (CarouselManagementPage.fetchCarouselItems env backend)
  | Carousel_handleDelete confirmed id =>
      void (CarouselManagementPage.handleDelete env backend confirmed id)
  | Carousel_handleToggleActive id currentStatus =>
      void (CarouselManagementPage.handleToggleActive env backend id
              currentStatus)
  | EditCarousel_mount carouselId =>
      void (EditCarouselPage.on_mount env backend carouselId)
  | EditCarousel_loadCarouselItem carouselId =>
      void (EditCarouselPage.loadCarouselItem env backend carouselId)
  | EditCarousel_handleImageUpload file =>
      void (EditCarouselPage.handleImageUpload env backend file)
  | EditCarousel_handleSubmit carouselId URL_parses =>
      void (EditCarouselPage.handleSubmit env backend carouselId URL_parses)
  | Bookings_mount => void (BookingsPage.on_mount env backend)
  | Bookings_fetchBookings => void (BookingsPage.fetchBookings env backend)
  | Bookings_updateBookingStatus bookingId status =>
      void (BookingsPage.updateBookingStatus env backend bookingId status)
  | Bookings_deleteBooking confirmed bookingId =>
      void (BookingsPage.deleteBooking env backend confirmed bookingId)
  | Reviews_effect currentPage filterVerified =>
      void (ReviewsPage.on_effect env backend currentPage filterVerified)
  | Reviews_handleApprove confirmed reviewId =>
      void (ReviewsPage.handleApprove env backend confirmed reviewId)
  | Reviews_handleDelete confirmed reviewId =>
      void (ReviewsPage.handleDelete env backend confirmed reviewId)
  end.

(** What an operation does about a failed request beyond reporting it. *)
Inductive Recovery : Type :=
| NoRecovery
| LogsOut                        (* clears the session *)
| LogsOutOn401                   (* clears the session and leaves, when the
                                    bookings are refused with a 401 *)
| NavigatesBack (route : string). (* leaves for the list page *)

Definition recovery (op : ConsoleOp) : Recovery :=
  match op with
  | OfStore RefreshAccessToken => LogsOut
  | Bookings_mount | Bookings_fetchBookings
  | Bookings_updateBookingStatus _ _ | Bookings_deleteBooking _ _ =>
      LogsOutOn401
  | EditPackage_mount _ | EditPackage_loadPackageData _ =>
      NavigatesBack "/packages"
  | EditCarousel_mount _ | EditCarousel_loadCarouselItem _ =>
      NavigatesBack "/carousel"
  | _ => NoRecovery
  end.

(** The cells that hold a loading flag, and those that hold error
    messages. *)
Definition loading_cells : list string :=
  ["loading"; "uploadingImage"; "fetchingItem"; "fetchingPackage"].

Definition is_status_cell (name : string) : bool :=
  existsb (String.eqb name) (loading_cells ++ ["error"; "errors"]).

(** A loading flag after a failure: cleared, or as it was. *)
Definition cleared_or_kept (before after : bool) : Prop :=
  after = false \/ after = before.

(** [quiet w w']: from [w] to [w'] nothing changed but error messages,
    loading flags (cleared or as they were), what was reported by alert or
    on the console, and the log of requests. The snapshot in localStorage
    is as it was or rewritten from the store. *)
Record quiet (w w' : World) : Prop := {
  quiet_auth : auth_fields (store w') = auth_fields (store w);
  quiet_mirrored : mirrored_fields (store w') = mirrored_fields (store w);
  quiet_navigations : navigations w' = navigations w;
  quiet_items : items (localStorage w') = items (localStorage w);
  quiet_snapshot :
    snapshot (localStorage w') = snapshot (localStorage w)
    \/ snapshot (localStorage w') = Some (partialize (store w'));
  quiet_loading :
    cleared_or_kept (loading (store w)) (loading (store w'))
    /\ cleared_or_kept (isLoading (store w)) (isLoading (store w'))
    /\ cleared_or_kept (packagesLoading (store w)) (packagesLoading (store w'))
    /\ cleared_or_kept (reviewsLoading (store w)) (reviewsLoading (store w'));
  quiet_loading_cells :
    forall name, In name loading_cells ->
      cells w' !! name = Some (JBool false) \/ cells w' !! name = cells w !! name;
  quiet_cells :
    forall name, is_status_cell name = false ->
      cells w' !! name = cells w !! name
}.

(** The status of a reply, when there is one. *)
Definition reply_status (r : HttpReply) : option Z :=
  match r with
  | HttpResponse status _ => Some status
  | NetworkError _ => None
  end.

(** ** The requests of a run and their replies *)

(** The requests issued between two worlds. *)
Definition issued (w w' : World) : list Request :=
  drop (length (sent w)) (sent w').

(** The replies the backend gave to requests issued one after the other
    from a log of earlier requests. *)
Fixpoint replies (backend : Backend) (log issued : list Request)
  : list (Request * HttpReply) :=
  match issued with
  | [] => []
  | req :: rest => (req, backend log req) :: replies backend (log ++ [req]) rest
  end.

(** Between two worlds a request failed, whichever it was. *)
Definition a_request_failed (backend : Backend) (w w' : World) : bool :=
  existsb (fun answered => failed (snd answered))
    (replies backend (sent w) (issued w w')).

(** The first request between two worlds failed: the operation's own,
    rather than the refetch of a list that follows its success. *)
Definition own_request_failed (backend : Backend) (w w' : World) : bool :=
  match replies backend (sent w) (issued w w') with
  | answered :: _ => failed (snd answered)
  | [] => false
  end.

(** A GET between two worlds was answered with status 401; on the
    bookings page the GETs are those of [fetchBookings]. *)
Definition GET_refused (backend : Backend) (w w' : World) : bool :=
  existsb
    (fun answered =>
       match method (fst answered), snd answered with
       | GET, HttpResponse status _ => (status =? 401)%Z
       | _, _ => false
       end)
    (replies backend (sent w) (issued w w')).

(** The route a submit handler leaves for once its own request has
    succeeded. *)
Definition leaves_on_success (op : ConsoleOp) : option string :=
  match op with
  | Create_handleSubmit | Enhanced_onSubmit _ | EditPackage_handleSubmit _ =>
      Some "/packages"
  | EditCarousel_handleSubmit _ _ => Some "/carousel"
  | _ => None
  end.

(** ** How a request is authorized *)

Inductive AuthScheme : Type :=
| WithAccessToken        (* Bearer, the store's accessToken *)
| WithAccessTokenIfAny   (* the same when the token is truthy, else none *)
| WithRefreshToken       (* Bearer, the store's refreshToken *)
| WithoutToken.          (* no Authorization header *)

(** The scheme of an operation's requests; the bookings page, which reads
    its token from localStorage, has none of these. *)
Definition auth_scheme (op : ConsoleOp) : option AuthScheme :=
  match op with
  | OfStore (Login _ _) => Some WithoutToken
  | OfStore RefreshAccessToken => Some WithRefreshToken
  | OfStore (Fetch FetchHealthStatus) | Health_mount =>
      Some WithAccessTokenIfAny
  | Bookings_mount | Bookings_fetchBookings
  | Bookings_updateBookingStatus _ _ | Bookings_deleteBooking _ _ => None
  | _ => Some WithAccessToken
  end.

(** A request carries what a scheme asks for, given the store's state
    when the operation started. *)
Definition carries (scheme : AuthScheme) (state : AdminState) (r : Request)
  : Prop :=
  header "Authorization" (headers r)
  = match scheme with
    | WithAccessToken => Some (Bearer (accessToken state))
    | WithAccessTokenIfAny =>
        if truthy (accessToken state)
        then Some (Bearer (accessToken state)) else None
    | WithRefreshToken => Some (Bearer (refreshToken state))
    | WithoutToken => None
    end.

(** ** Sample data for concrete runs *)

Definition admin_user : JsVal :=
  JObj [("id", JStr "u1"); ("email", JStr "admin@tourer.test");
        ("role", JStr "ADMIN")].

Definition plain_user : JsVal :=
  JObj [("id", JStr "u2"); ("email", JStr "guest@tourer.test");
        ("role", JStr "USER")].

Definition sample_package : JsVal :=
  JObj [("id", JStr "p1"); ("title", JStr "Petra by night");
        ("price", JNum 120); ("duration", JNum 2)].

Definition sample_review : JsVal :=
  JObj [("id", JStr "r1"); ("rating", JNum 4); ("isVerified", JBool false)].

Definition sample_pagination : JsVal :=
  JObj [("page", JNum 1); ("limit", JNum 10); ("total", JNum 1);
        ("pages", JNum 1)].

(** One body that answers every endpoint of a working backend: the auth
    fields, and the enveloped list with its pagination. *)
Definition sample_body (user : JsVal) (access_token : string) : JsVal :=
  JObj [("access_token", JStr access_token);
        ("refresh_token", JStr "refresh-1");
        ("user", user);
        ("data", JArr [sample_package]);
        ("pagination", sample_pagination)].

(** A backend that answers every request with 200 and [body]. *)
Definition backend_ok (body : JsVal) : Backend :=
  fun _ _ => HttpResponse 200 (Json body).

(** A backend that answers every request with [status] and no JSON. *)
Definition backend_status (status : Z) : Backend :=
  fun _ _ => HttpResponse status (Text "").

(** A backend that cannot be reached. *)
Definition backend_down : Backend :=
  fun _ _ => NetworkError "Network Error".

(** A backend that carries out what it is asked and refuses every read
    with a 401. *)
Definition backend_refusing_reads : Backend :=
  fun _ req =>
    match method req with
    | GET => HttpResponse 401 (Text "")
    | _ => HttpResponse 200 (Json (JObj []))
    end.

(** A session in which an admin has logged in. *)
Definition logged_in : World :=
  state_of (useAdminStore.login None
              (backend_ok (sample_body admin_user "access-1"))
              "admin@tourer.test" "secret" (new_session empty_storage)).

(** The same, against a backend that issues an empty access token. *)
Definition logged_in_empty_token : World :=
  state_of (useAdminStore.login None
              (backend_ok (sample_body admin_user ""))
              "admin@tourer.test" "secret" (new_session empty_storage)).

(** ** Predicates of the statements *)

(** The user is null or an admin. *)
Definition admin_only (u : JsVal) : Prop :=
  u = JNull \/ role_of u = Some (JStr "ADMIN").

(** The same of the store and of the snapshot in localStorage. *)
Definition admin_only_world (w : World) : Prop :=
  admin_only (user (store w))
  /\ match snapshot (localStorage w) with
     | Some p => admin_only (p_user p)
     | None => True
     end.

(** [wp m Q w]: running [m] from [w] ends in an outcome and a state that
    satisfy [Q]. *)
Definition wp {St A} (m : M St A) (Q : Outcome A -> St -> Prop) (s : St)
  : Prop :=
  Q (outcome_of (m s)) (state_of (m s)).

(** ** Vocabulary of the further properties *)

(** The auth fields as a reload finds them: an [undefined] field is not
    kept by the JSON text and comes back as the initial null. *)
Definition stored_auth (a : JsVal * JsVal * JsVal) : JsVal * JsVal * JsVal :=
  let '(u, t, r) := a in
  (read_back u JNull, read_back t JNull, read_back r JNull).

(** The session a reload of the console starts from. *)
Definition reload (w : World) : World := new_session (localStorage w).

(** [s'] with the fields a fetch writes put back to their values in [s]. *)
Definition without_own_fields (f : ListFetch) (s s' : AdminState) : AdminState :=
  merge s'
    match f with
    | FetchHealthStatus =>
        [healthData_ (healthData s); loading_ (loading s); error_ (error s)]
    | FetchPackages =>
        [packages_ (packages s); packagesLoading_ (packagesLoading s);
         packagesError_ (packagesError s)]
    | FetchAllReviews _ _ _ | FetchPackageReviews _ _ _ =>
        [reviews_ (reviews s); reviewsPagination_ (reviewsPagination s);
         reviewsLoading_ (reviewsLoading s); reviewsError_ (reviewsError s)]
    end.

(** The handlers that ask for confirmation before a mutation: the answer,
    the mutation, and the two alerts. *)
Definition confirmed_mutation (op : ConsoleOp)
  : option (bool * Mutation * string * string) :=
  match op with
  | Reviews_handleApprove confirmed reviewId =>
      Some (confirmed, ApproveReview reviewId,
            "Review approved successfully", "Failed to approve review")
  | Reviews_handleDelete confirmed reviewId =>
      Some (confirmed, DeleteReview reviewId,
            "Review deleted successfully", "Failed to delete review")
  | Packages_handleDelete confirmed packageId =>
      Some (confirmed, DeletePackage packageId,
            "Package deleted successfully", "Failed to delete package")
  | _ => None
  end.

(** The mount effects that start with the [checkAuthStatus] guard. *)
Definition guarded_mount (op : ConsoleOp) : bool :=
  match op with
  | Packages_mount | Create_mount | Enhanced_mount | EditPackage_mount _
  | Carousel_mount | EditCarousel_mount _ | Bookings_mount
  | Reviews_effect _ _ => true
  | _ => false
  end.

(** [booking.status === selectedStatus], false for a booking without
    status. *)
Definition has_status (selectedStatus : string) (booking : JsVal) : bool :=
  match get_prop booking "status" with
  | Some status => strict_eq_str status selectedStatus
  | None => false
  end.

(** The submit handlers of the form pages: what their validation makes
    of the form at hand (the enhanced page's form library validates
    before its handler runs), the route they leave for, and their two
    alerts. *)
Definition submit_handler (op : ConsoleOp) (w : World)
  : option (Outcome (list (string * JsVal)) * string * string * string) :=
  match op with
  | Create_handleSubmit =>
      Some (CreatePackagePage.newErrors
              (cell "form" CreatePackagePage.initialForm w),
            "/packages", "Package created successfully!",
            "Failed to create package. Please try again.")
  | Enhanced_onSubmit _ =>
      Some (Returned [], "/packages", "Package created successfully!",
            "Failed to create package. Please try again.")
  | EditPackage_handleSubmit _ =>
      Some (EditPackagePage.newErrors
              (cell "form" EditPackagePage.initialForm w),
            "/packages", "Package updated successfully!",
            "Failed to update package. Please try again.")
  | EditCarousel_handleSubmit _ URL_parses =>
      Some (EditCarouselPage.newErrors URL_parses
              (cell "form" EditCarouselPage.initialForm w),
            "/carousel", "Carousel item updated successfully!",
            "Failed to update carousel item. Please try again.")
  | _ => None
  end.

(** A world in which the stored refresh token is the empty string. *)
Definition empty_refresh_token : World :=
  with_store (fun s => merge s [refreshToken_ (JStr "")]) logged_in.

(** A backend that answers a read of one package and of the carousel with
    bare values, without an envelope. *)
Definition backend_bare : Backend :=
  fun _ _ => HttpResponse 200 (Json (JArr [sample_package])).

(** Two bookings of different status. *)
Definition sample_bookings : list JsVal :=
  [JObj [("id", JStr "b1"); ("status", JStr "PENDING")];
   JObj [("id", JStr "b2"); ("status", JStr "CONFIRMED")];
   JObj [("id", JStr "b3"); ("status", JStr "PENDING")]].

(** A session whose store holds the sample package. *)
Definition with_packages : World :=
  state_of (useAdminStore.fetchPackages None
              (backend_ok (sample_body admin_user "access-1")) logged_in).

(** A backend that serves an uploaded image's path. *)
Definition backend_upload : Backend :=
  fun _ _ =>
    HttpResponse 201 (Json (JObj [("data", JObj [("url", JStr "/img/1.png")])])).

(** The form [loadPackageData] makes of a package with these fields. *)
Definition loaded_form (fields : list (string * JsVal)) : JsVal :=
  JObj [("title", lookup_field "title" fields);
        ("description", lookup_field "description" fields);
        ("location", lookup_field "location" fields);
        ("price", lookup_field "price" fields);
        ("duration", lookup_field "duration" fields);
        ("category", lookup_field "category" fields);
        ("difficulty", lookup_field "difficulty" fields);
        ("coverImage", js_or (lookup_field "coverImage" fields) (JStr ""));
        ("images", JArr []); ("highlights", JArr []);
        ("itinerary",
         JArr [JObj [("day", JNum 1); ("title", JStr "");
                     ("description", JStr "")]]);
        ("included", JArr []); ("excluded", JArr [])].

(** The fields of a package that has all the edit form asks for, and a
    session whose store holds it. *)
Definition complete_package : list (string * JsVal) :=
  [("id", JStr "p2"); ("title", JStr "Wadi Rum");
   ("description", JStr "Two days in the desert");
   ("location", JStr "Aqaba"); ("price", JNum 250); ("duration", JNum 2);
   ("category", JStr "ADVENTURE"); ("difficulty", JStr "EASY")].

Definition with_complete_package : World :=
  state_of (useAdminStore.fetchPackages None
              (backend_ok (JObj [("data", JArr [JObj complete_package])]))
              logged_in).

(** What localStorage holds reads back as the store's auth fields. *)
Definition reload_agrees (w : World) : Prop :=
  auth_fields (store (reload w)) = stored_auth (auth_fields (store w)).

(** * Properties *)

(** ** Running the clients *)

Lemma axios_ok backend req w :
  failed (backend (sent w) req) = false ->
  axios backend req w
  = (Returned (reply_data (backend (sent w) req)), record_request req w).
Proof.
  unfold axios, failed. destruct (backend (sent w) req) as [msg|st p]; [done|].
  intros H. apply negb_false_iff in H. by rewrite H.
Qed.

Lemma axios_failed backend req w :
  failed (backend (sent w) req) = true ->
  exists msg, axios backend req w = (Threw (ErrorObj msg), record_request req w).
Proof.
  unfold axios, failed. destruct (backend (sent w) req) as [msg|st p].
  - eauto.
  - intros H. apply negb_true_iff in H. rewrite H. eauto.
Qed.

(** Unfolding the monad's plumbing. *)
Ltac unfold_M :=
  unfold useAdminStore.get, useAdminStore.set, alert, navigate,
    console_error, set_cell, read_prop, destructure, throw_Error in *;
  unfold mbind, M_bind, mret, M_ret, try_catch, try_finally, throw, gets,
    modify, outcome_of, state_of in *.

Ltac unfold_requests :=
  unfold useAdminStore.health_request, useAdminStore.login_request,
    useAdminStore.refresh_request, useAdminStore.packages_request,
    useAdminStore.package_request, useAdminStore.createPackage_request,
    useAdminStore.updatePackage_request, useAdminStore.deletePackage_request,
    useAdminStore.allReviews_request, useAdminStore.packageReviews_request,
    useAdminStore.approveReview_request, useAdminStore.deleteReview_request,
    useAdminStore.auth_headers, useAdminStore.auth_json_headers in *.

Ltac unfold_store :=
  unfold useAdminStore.fetchHealthStatus, useAdminStore.login,
    useAdminStore.logout, useAdminStore.refreshAccessToken,
    useAdminStore.fetchPackages, useAdminStore.fetchPackageById,
    useAdminStore.createPackage, useAdminStore.updatePackage,
    useAdminStore.deletePackage, useAdminStore.fetchAllReviews_default,
    useAdminStore.fetchAllReviews, useAdminStore.fetchPackageReviews,
    useAdminStore.approveReview, useAdminStore.deleteReview in *.

Ltac unfold_pages :=
  unfold HomePage.on_mount, HealthPage.on_mount,
    PackagesPage.on_mount, PackagesPage.handleDelete,
    CreatePackagePage.on_mount, CreatePackagePage.handleCoverImageUpload,
    CreatePackagePage.handleSubmit,
    CreatePackagePageEnhanced.on_mount,
    CreatePackagePageEnhanced.handleCoverImageUpload,
    CreatePackagePageEnhanced.uploadImage,
    CreatePackagePageEnhanced.onSubmit,
    EditPackagePage.on_mount, EditPackagePage.loadPackageData,
    EditPackagePage.handleCoverImageUpload, EditPackagePage.handleSubmit,
    CarouselManagementPage.on_mount,
    CarouselManagementPage.fetchCarouselItems,
    CarouselManagementPage.handleDelete,
    CarouselManagementPage.handleToggleActive,
    EditCarouselPage.on_mount, EditCarouselPage.loadCarouselItem,
    EditCarouselPage.handleImageUpload, EditCarouselPage.handleSubmit,
    BookingsPage.on_mount, BookingsPage.fetchBookings,
    BookingsPage.updateBookingStatus, BookingsPage.deleteBooking,
    ReviewsPage.on_effect, ReviewsPage.handleApprove,
    ReviewsPage.handleDelete,
    EditPackagePage.form_of, EditCarouselPage.form_of,
    handleUpload_at, uploadImage_at, updateForm,
    CreatePackagePage.validateForm, EditPackagePage.validateForm,
    EditCarouselPage.validateForm, validateForm_by in *.

(** ** Weakest preconditions of the monad's operations *)

Section WP.
Context {St : Type}.

Lemma wp_ret {A} (a : A) (Q : Outcome A -> St -> Prop) s :
  Q (Returned a) s -> wp (mret a) Q s.
Proof. done. Qed.

Lemma wp_throw {A} e (Q : Outcome A -> St -> Prop) s :
  Q (Threw e) s -> wp (throw e) Q s.
Proof. done. Qed.

Lemma wp_bind {A B} (m : M St A) (f : A -> M St B) Q s :
  wp m (fun o s' => match o with
                    | Returned a => wp (f a) Q s'
                    | Threw e => Q (Threw e) s'
                    end) s ->
  wp (m ≫= f) Q s.
Proof.
  unfold wp, mbind, M_bind, outcome_of, state_of.
  by destruct (m s) as [[a|e] s'].
Qed.

Lemma wp_try_catch {A} (body : M St A) handler Q s :
  wp body (fun o s' => match o with
                       | Returned a => Q (Returned a) s'
                       | Threw e => wp (handler e) Q s'
                       end) s ->
  wp (try_catch body handler) Q s.
Proof.
  unfold wp, try_catch, outcome_of, state_of.
  by destruct (body s) as [[a|e] s'].
Qed.

Lemma wp_try_finally {A} (body : M St A) cleanup Q s :
  wp body (fun o s' => Q o (cleanup s')) s ->
  wp (try_finally body cleanup) Q s.
Proof.
  unfold wp, try_finally, outcome_of, state_of. by destruct (body s).
Qed.

Lemma wp_gets {A} (f : St -> A) Q s :
  Q (Returned (f s)) s -> wp (gets f) Q s.
Proof. done. Qed.

Lemma wp_modify (f : St -> St) Q s :
  Q (Returned tt) (f s) -> wp (modify f) Q s.
Proof. done. Qed.
End WP.

(** A request goes out whatever comes back. *)
Lemma wp_axios backend req Q w :
  (forall o, Q o (record_request req w)) -> wp (axios backend req) Q w.
Proof.
  unfold wp, axios, outcome_of, state_of. intros H.
  destruct (backend (sent w) req) as [msg|st p]; [apply H|].
  destruct (status_ok st); apply H.
Qed.

Lemma wp_fetch backend req Q w :
  (forall o, Q o (record_request req w)) -> wp (fetch backend req) Q w.
Proof.
  unfold wp, fetch, outcome_of, state_of. intros H.
  destruct (backend (sent w) req) as [msg|st p]; apply H.
Qed.

(** The same when the request is known to fail. *)
Lemma wp_axios_failed backend req Q w :
  failed (backend (sent w) req) = true ->
  (forall msg, Q (Threw (ErrorObj msg)) (record_request req w)) ->
  wp (axios backend req) Q w.
Proof.
  intros Hf H. unfold wp. destruct (axios_failed _ _ _ Hf) as [msg ->]. apply H.
Qed.

(** Searching the packages at hand changes nothing. *)
Lemma find_by_id_state (id : string) (items : list JsVal) (w : World) :
  state_of (find_by_id id items w) = w.
Proof.
  induction items as [|x rest IH]; [done|].
  simpl. unfold read_prop; unfold_M.
  destruct (get_prop x "id") as [x_id|]; [|done]. simpl.
  destruct (strict_eq_str x_id id); [done|]. apply IH.
Qed.

Lemma wp_find (arr : JsVal) (id : string) Q (w : World) :
  (forall o, Q o w) -> wp (js_find_by_id arr id) Q w.
Proof.
  intros H. unfold wp. destruct arr; try apply H.
  simpl. rewrite find_by_id_state. apply H.
Qed.

(** One step of a weakest-precondition computation. *)
Ltac wp_step :=
  lazymatch goal with
  | |- wp (mbind _ _) _ _ => apply wp_bind
  | |- wp (mret _) _ _ => apply wp_ret
  | |- wp (try_catch _ _) _ _ => apply wp_try_catch
  | |- wp (try_finally _ _) _ _ => apply wp_try_finally
  | |- wp (throw _) _ _ => apply wp_throw
  | |- wp (throw_Error _) _ _ => apply wp_throw
  | |- wp (modify _) _ _ => apply wp_modify
  | |- wp (gets _) _ _ => apply wp_gets
  | |- wp (axios _ _) _ _ => apply wp_axios; intros [?|?]
  | |- wp (fetch _ _) _ _ => apply wp_fetch; intros [?|?]
  | |- wp (read_prop _ _) _ _ => unfold read_prop
  | |- wp (destructure _ _ _) _ _ => unfold destructure
  | |- wp (response_json _) _ _ => unfold response_json
  | |- wp (useAdminStore.set _) _ _ => unfold useAdminStore.set
  | |- wp useAdminStore.get _ _ => unfold useAdminStore.get
  | |- wp (alert _) _ _ => unfold alert
  | |- wp (navigate _) _ _ => unfold navigate
  | |- wp (console_error _ _) _ _ => unfold console_error
  | |- wp (set_cell _ _) _ _ => unfold set_cell
  | |- wp (void _) _ _ => unfold void
  | |- wp (js_find_by_id _ _) _ _ => apply wp_find; intros [?|?]
  | |- wp (if ?b then _ else _) _ _ => destruct b eqn:?
  | |- wp (match ?x with _ => _ end) _ _ => destruct x eqn:?
  end; cbv beta iota.

Ltac wp_run := repeat (wp_step || unfold_store).

(** ** The store's fetches and mutations *)

Section StoreFacts.
Variable env : option string.
Variable backend : Backend.

Import useAdminStore.

(** The fetching operations catch whatever goes wrong. *)
Lemma run_fetch_returns (f : ListFetch) (w : World) :
  exists w', run_fetch env backend f w = (Returned tt, w').
Proof.
  destruct f; simpl;
    unfold fetchHealthStatus, fetchPackages, fetchAllReviews,
      fetchPackageReviews; unfold_M; simpl;
    repeat case_match; simplify_eq; eauto.
Qed.

(** A fetching operation issues exactly one request, its own, with the
    token the store holds when it starts. *)
Lemma run_fetch_sent (f : ListFetch) (w : World) :
  sent (state_of (run_fetch env backend f w))
  = (sent w ++ [fetch_request env f (store w)])%list.
Proof.
  destruct w as [s ls sn al nv co ce], s.
  destruct f; simpl;
    unfold fetchHealthStatus, fetchPackages, fetchAllReviews,
      fetchPackageReviews, axios; unfold_M; simpl;
    repeat case_match; simplify_eq; done.
Qed.
End StoreFacts.

(** C1. A mutation wrapper whose request succeeds runs the fetch of its
    list to the end before it returns: createPackage, updatePackage and
    deletePackage run fetchPackages, approveReview and deleteReview run
    fetchAllReviews with page 1, limit 10 and no filter. The wrapper's
    final state is the one that fetch leaves, the fetch itself returns
    normally, and the requests issued are the mutation's followed by the
    fetch's. *)
Theorem mutation_then_refetch (env : option string) (backend : Backend)
    (m : Mutation) (w : World) :
  let req := mutation_request env m (store w) in
  failed (backend (sent w) req) = false ->
  let refetched := run_fetch env backend (list_of m) (record_request req w) in
  run_mutation env backend m w
  = (Returned (mutation_result m (reply_data (backend (sent w) req))),
     state_of refetched)
  /\ outcome_of refetched = Returned tt
  /\ sent (state_of refetched)
     = (sent w ++ [req; fetch_request env (list_of m) (store w)])%list.
Proof.
  intros req Hok refetched.
  destruct (run_fetch_returns env backend (list_of m) (record_request req w))
    as [w2 Hw2].
  assert (Hsent := run_fetch_sent env backend (list_of m) (record_request req w)).
  subst refetched. rewrite Hw2 in *. split; [|split; [done|]].
  - subst req. destruct m; simpl in *;
      unfold useAdminStore.createPackage, useAdminStore.updatePackage,
        useAdminStore.deletePackage, useAdminStore.approveReview,
        useAdminStore.deleteReview, useAdminStore.fetchAllReviews_default;
      unfold_M; rewrite (axios_ok _ _ _ Hok), Hw2; done.
  - rewrite Hsent. simpl. by rewrite <- app_assoc.
Qed.

(** Creating a package against a working backend, then approving a
    review. *)
Lemma mutation_then_refetch_witness :
  (outcome_of (run_fetch None (backend_ok (sample_body admin_user "access-1"))
                 FetchPackages
                 (record_request
                    (mutation_request None (CreatePackage sample_package)
                       (store logged_in)) logged_in))
   = Returned tt)
  /\ sent (state_of (run_fetch None
                       (backend_ok (sample_body admin_user "access-1"))
                       (FetchAllReviews 1 10 None)
                       (record_request
                          (mutation_request None (ApproveReview "r1")
                             (store logged_in)) logged_in)))
     = (sent logged_in
        ++ [mutation_request None (ApproveReview "r1") (store logged_in);
            fetch_request None (FetchAllReviews 1 10 None) (store logged_in)])%list.
Proof.
  split.
  - apply (mutation_then_refetch None
             (backend_ok (sample_body admin_user "access-1"))
             (CreatePackage sample_package) logged_in).
    vm_compute. reflexivity.
  - apply (mutation_then_refetch None
             (backend_ok (sample_body admin_user "access-1"))
             (ApproveReview "r1") logged_in).
    vm_compute. reflexivity.
Defined.

Section ErrorFacts.
Variable env : option string.
Variable backend : Backend.

(** A fetching operation whose request fails records a message and
    clears its loading flag. *)
Lemma run_fetch_failed (f : ListFetch) (w : World) :
  failed (backend (sent w) (fetch_request env f (store w))) = true ->
  let s' := store (state_of (run_fetch env backend f w)) in
  (exists msg, error_field f s' = Some msg) /\ loading_flag f s' = false.
Proof.
  destruct w as [s ls sn al nv co ce], s.
  destruct f; simpl; unfold_store; unfold axios, failed; unfold_M;
    unfold_requests; simpl;
    repeat case_match; simplify_eq; simpl; try done; eauto.
Qed.

(** A mutation wrapper whose request fails throws its own message. *)
Lemma run_mutation_failed (m : Mutation) (w : World) :
  failed (backend (sent w) (mutation_request env m (store w))) = true ->
  exists w',
    run_mutation env backend m w = (Threw (ErrorObj (mutation_failure m)), w')
    /\ store w' = store w.
Proof.
  intros H. destruct (axios_failed _ _ _ H) as [msg Hmsg].
  destruct m; simpl in *; unfold_store; unfold_M; rewrite Hmsg;
    eexists; (split; [reflexivity|done]).
Qed.
End ErrorFacts.

(** C6. The store reports errors in two ways. The fetching operations
    (fetchHealthStatus, fetchPackages, fetchAllReviews,
    fetchPackageReviews) always return normally, and when their request
    fails they leave a message in their error field and their loading flag
    cleared. The mutation wrappers (createPackage, updatePackage,
    deletePackage, approveReview, deleteReview) throw, when their request
    fails, an Error whose message is fixed per wrapper and starts with
    'Failed to ', and record nothing in the store. *)
Theorem error_taxonomy (env : option string) (backend : Backend) :
  (forall (f : ListFetch) (w : World),
      outcome_of (run_fetch env backend f w) = Returned tt
      /\ (failed (backend (sent w) (fetch_request env f (store w))) = true ->
          let s' := store (state_of (run_fetch env backend f w)) in
          (exists msg, error_field f s' = Some msg)
          /\ loading_flag f s' = false))
  /\ (forall (m : Mutation) (w : World),
         failed (backend (sent w) (mutation_request env m (store w))) = true ->
         outcome_of (run_mutation env backend m w)
         = Threw (ErrorObj (mutation_failure m))
         /\ String.prefix "Failed to " (mutation_failure m) = true
         /\ store (state_of (run_mutation env backend m w)) = store w).
Proof.
  split.
  - intros f w. split.
    + destruct (run_fetch_returns env backend f w) as [w' ->]. done.
    + apply run_fetch_failed.
  - intros m w H.
    destruct (run_mutation_failed env backend m w H) as (w' & -> & Hstore).
    split; [done|]. split; [by destruct m|done].
Qed.

(** A fetch and a mutation against a backend that is down. *)
Lemma error_taxonomy_witness :
  ((exists msg,
       packagesError (store (state_of (run_fetch None backend_down FetchPackages
                                         logged_in))) = Some msg)
   /\ packagesLoading (store (state_of (run_fetch None backend_down
                                          FetchPackages logged_in))) = false)
  /\ outcome_of (run_mutation None backend_down (DeletePackage "p1") logged_in)
     = Threw (ErrorObj "Failed to delete package").
Proof.
  split.
  - apply (proj1 (error_taxonomy None backend_down) FetchPackages logged_in).
    vm_compute. reflexivity.
  - apply (proj2 (error_taxonomy None backend_down) (DeletePackage "p1")
             logged_in).
    vm_compute. reflexivity.
Defined.

Section MirrorFacts.
Variable env : option string.
Variable backend : Backend.

Import useAdminStore.

(** fetchPackages on a response whose data can be read: the list kept is
    [response.data.data || response.data], and only the three package
    fields change. *)
Lemma fetchPackages_ok (w : World) (inner : JsVal) :
  let req := packages_request env (store w) in
  let data := reply_data (backend (sent w) req) in
  failed (backend (sent w) req) = false ->
  get_prop data "data" = Some inner ->
  fetchPackages env backend w
  = (Returned tt,
     with_store (fun s => merge s [packages_ (js_or inner data);
                                   packagesLoading_ false])
       (record_request req
          (with_store (fun s => merge s [packagesLoading_ true;
                                         packagesError_ None]) w))).
Proof.
  intros req data Hok Hdata. subst req data.
  destruct w as [s ls sn al nv co ce], s.
  unfold fetchPackages, axios, failed in *; unfold_M; unfold_requests.
  simpl in *. destruct (backend sn _) as [msg|st p]; [done|].
  apply negb_false_iff in Hok. rewrite Hok. simpl in *. by rewrite Hdata.
Qed.

Lemma fetchAllReviews_ok (w : World) (page limit : Z) (verified : option bool)
    (list pagination : JsVal) :
  let req := allReviews_request env (store w) page limit verified in
  let data := reply_data (backend (sent w) req) in
  failed (backend (sent w) req) = false ->
  get_prop data "data" = Some list ->
  get_prop data "pagination" = Some pagination ->
  fetchAllReviews env backend page limit verified w
  = (Returned tt,
     with_store (fun s => merge s [reviews_ list;
                                   reviewsPagination_ pagination;
                                   reviewsLoading_ false])
       (record_request req
          (with_store (fun s => merge s [reviewsLoading_ true;
                                         reviewsError_ None]) w))).
Proof.
  intros req data Hok Hlist Hpag. subst req data.
  destruct w as [s ls sn al nv co ce], s.
  unfold fetchAllReviews, axios, failed in *; unfold_M; unfold_requests.
  simpl in *. destruct (backend sn _) as [msg|st p]; [done|].
  apply negb_false_iff in Hok. rewrite Hok. simpl in *.
  by rewrite Hlist, Hpag.
Qed.
End MirrorFacts.

(** C7. After a successful fetchPackages the store's packages are the
    package list of the response: [response.data.data] when the response
    has that field, [response.data] itself otherwise, with packagesLoading
    false and packagesError null. After a successful fetchAllReviews the
    store's reviews and reviewsPagination are the response's [data] and
    [pagination]. The list under [data], when there is one, is an array,
    as a package list is; for any response whose data can be read, the
    value kept is [response.data.data || response.data]. *)
Theorem store_mirrors_server (env : option string) (backend : Backend)
    (w : World) :
  (forall inner : JsVal,
      let req := useAdminStore.packages_request env (store w) in
      let data := reply_data (backend (sent w) req) in
      failed (backend (sent w) req) = false ->
      get_prop data "data" = Some inner ->
      (inner = JUndefined \/ exists items, inner = JArr items) ->
      let s' := store (state_of (useAdminStore.fetchPackages env backend w)) in
      packages s' = match inner with JUndefined => data | _ => inner end
      /\ packagesLoading s' = false
      /\ packagesError s' = None)
  /\ (forall inner : JsVal,
         let req := useAdminStore.packages_request env (store w) in
         let data := reply_data (backend (sent w) req) in
         failed (backend (sent w) req) = false ->
         get_prop data "data" = Some inner ->
         packages (store (state_of (useAdminStore.fetchPackages env backend w)))
         = js_or inner data)
  /\ (forall (page limit : Z) (verified : option bool) (list pagination : JsVal),
         let req := useAdminStore.allReviews_request env (store w)
                      page limit verified in
         let data := reply_data (backend (sent w) req) in
         failed (backend (sent w) req) = false ->
         get_prop data "data" = Some list ->
         get_prop data "pagination" = Some pagination ->
         let s' := store (state_of (useAdminStore.fetchAllReviews env backend
                                      page limit verified w)) in
         reviews s' = list
         /\ reviewsPagination s' = pagination
         /\ reviewsLoading s' = false).
Proof.
  split; [|split].
  - intros inner req data Hok Hdata Hlist s'. subst s'.
    rewrite (fetchPackages_ok env backend w inner Hok Hdata).
    destruct w as [s ls sn al nv co ce], s; simpl.
    split; [|done].
    destruct Hlist as [->|[items ->]]; done.
  - intros inner req data Hok Hdata.
    rewrite (fetchPackages_ok env backend w inner Hok Hdata).
    by destruct w as [s ls sn al nv co ce], s.
  - intros page limit verified list pagination req data Hok Hl Hp s'. subst s'.
    rewrite (fetchAllReviews_ok env backend w page limit verified _ _ Hok Hl Hp).
    by destruct w as [s ls sn al nv co ce], s.
Qed.

(** Fetching from a backend that envelopes its lists. *)
Lemma store_mirrors_server_witness :
  (packages (store (state_of (useAdminStore.fetchPackages None
                                (backend_ok (sample_body admin_user "access-1"))
                                logged_in)))
   = JArr [sample_package])
  /\ reviewsPagination
       (store (state_of (useAdminStore.fetchAllReviews None
                           (backend_ok (sample_body admin_user "access-1"))
                           1 10 None logged_in)))
     = sample_pagination.
Proof.
  split.
  - apply (proj1 (store_mirrors_server None
                    (backend_ok (sample_body admin_user "access-1")) logged_in)
             (JArr [sample_package])).
    + vm_compute. reflexivity.
    + vm_compute. reflexivity.
    + right. exists [sample_package]. reflexivity.
  - apply (proj2 (proj2 (store_mirrors_server None
                           (backend_ok (sample_body admin_user "access-1"))
                           logged_in))
             1%Z 10%Z None (JArr [sample_package]) sample_pagination).
    + vm_compute. reflexivity.
    + vm_compute. reflexivity.
    + vm_compute. reflexivity.
Defined.

Section RefreshFacts.
Variable env : option string.
Variable backend : Backend.

Import useAdminStore.

Lemma refreshAccessToken_failed (w : World) :
  let req := refresh_request env (refreshToken (store w)) in
  truthy (refreshToken (store w)) = true ->
  failed (backend (sent w) req) = true ->
  refreshAccessToken env backend w
  = (Threw (ErrorObj "Session expired. Please login again."),
     state_of (logout (record_request req w))).
Proof.
  intros req Htok Hfail. subst req. unfold refreshAccessToken; unfold_M.
  rewrite Htok. simpl. by destruct (axios_failed _ _ _ Hfail) as [msg ->].
Qed.

Lemma refreshAccessToken_ok (w : World) (token : JsVal) :
  let req := refresh_request env (refreshToken (store w)) in
  truthy (refreshToken (store w)) = true ->
  failed (backend (sent w) req) = false ->
  get_prop (reply_data (backend (sent w) req)) "access_token" = Some token ->
  refreshAccessToken env backend w
  = (Returned token,
     with_store (fun s => merge s [accessToken_ token]) (record_request req w)).
Proof.
  intros req Htok Hok Hdata. subst req.
  unfold refreshAccessToken; unfold_M.
  rewrite Htok. simpl. by rewrite (axios_ok _ _ _ Hok), Hdata.
Qed.
End RefreshFacts.

(** C9. refreshAccessToken has three cases. With a null refreshToken it
    throws 'No refresh token available' and nothing changes, no request
    being sent. When its request fails, user, accessToken, refreshToken and
    authError are cleared, as logout does, and it throws 'Session expired.
    Please login again.'. When its request succeeds and the response's
    access_token can be read, the accessToken becomes it, which is also
    the result, and no other field of the store changes. *)
Theorem refreshAccessToken_cases (env : option string) (backend : Backend)
    (w : World) :
  let req := useAdminStore.refresh_request env (refreshToken (store w)) in
  let run := useAdminStore.refreshAccessToken env backend w in
  (refreshToken (store w) = JNull ->
   run = (Threw (ErrorObj "No refresh token available"), w))
  /\ (truthy (refreshToken (store w)) = true ->
      failed (backend (sent w) req) = true ->
      outcome_of run = Threw (ErrorObj "Session expired. Please login again.")
      /\ state_of run
         = state_of (useAdminStore.logout (record_request req w))
      /\ auth_fields (store (state_of run)) = (JNull, JNull, JNull)
      /\ authError (store (state_of run)) = None)
  /\ (forall token : JsVal,
         truthy (refreshToken (store w)) = true ->
         failed (backend (sent w) req) = false ->
         get_prop (reply_data (backend (sent w) req)) "access_token"
         = Some token ->
         outcome_of run = Returned token
         /\ accessToken (store (state_of run)) = token
         /\ user (store (state_of run)) = user (store w)
         /\ refreshToken (store (state_of run)) = refreshToken (store w)
         /\ mirrored_fields (store (state_of run)) = mirrored_fields (store w)
         /\ loading_flags (store (state_of run)) = loading_flags (store w)
         /\ error_fields (store (state_of run)) = error_fields (store w)).
Proof.
  intros req run. subst req run. split; [|split].
  - intros Hnull. unfold useAdminStore.refreshAccessToken; unfold_M.
    by rewrite Hnull.
  - intros Htok Hfail.
    rewrite (refreshAccessToken_failed env backend w Htok Hfail).
    by destruct w as [s ls sn al nv co ce], s.
  - intros token Htok Hok Hdata.
    rewrite (refreshAccessToken_ok env backend w token Htok Hok Hdata).
    by destruct w as [s ls sn al nv co ce], s.
Qed.

(** The three cases of refreshAccessToken: before any login, against a
    backend that is down, and against one that issues a new token. *)
Lemma refreshAccessToken_cases_witness :
  (useAdminStore.refreshAccessToken None backend_down
     (new_session empty_storage)
   = (Threw (ErrorObj "No refresh token available"),
      new_session empty_storage))
  /\ auth_fields (store (state_of (useAdminStore.refreshAccessToken None
                                     backend_down logged_in)))
     = (JNull, JNull, JNull)
  /\ accessToken
       (store (state_of (useAdminStore.refreshAccessToken None
                           (backend_ok (sample_body admin_user "access-2"))
                           logged_in)))
     = JStr "access-2".
Proof.
  split; [|split].
  - apply (proj1 (refreshAccessToken_cases None backend_down
                    (new_session empty_storage))).
    reflexivity.
  - apply (proj1 (proj2 (refreshAccessToken_cases None backend_down logged_in))).
    + vm_compute. reflexivity.
    + vm_compute. reflexivity.
  - apply (proj2 (proj2 (refreshAccessToken_cases None
                           (backend_ok (sample_body admin_user "access-2"))
                           logged_in))
             (JStr "access-2")).
    + vm_compute. reflexivity.
    + vm_compute. reflexivity.
    + vm_compute. reflexivity.
Defined.

(** ** The admin-only invariant *)

Lemma strict_eq_str_true (v : JsVal) (lit : string) :
  strict_eq_str v lit = true <-> v = JStr lit.
Proof.
  destruct v; simpl; try (split; [done | congruence]).
  rewrite String.eqb_eq. split; congruence.
Qed.

(** Every operation of the store keeps the user null or an admin. *)
Lemma run_store_op_admin_only env backend op w :
  admin_only_world w ->
  admin_only_world (state_of (run_store_op env backend op w)).
Proof.
  intros Hw.
  change (wp (run_store_op env backend op) (fun _ w' => admin_only_world w') w).
  destruct w as [s ls sn al nv co ce], s.
  destruct op as [f|m| | | |]; [destruct f|destruct m| | | |];
    cbn [run_store_op run_fetch run_mutation]; wp_run;
    destruct Hw as [Hu Hs]; unfold admin_only_world, admin_only, role_of in *;
    simpl in *; auto;
    match goal with
    | H : strict_eq_str _ _ = true |- _ =>
        apply strict_eq_str_true in H; subst; auto
    end.
Qed.

Lemma reachable_admin_only w : reachable w -> admin_only_world w.
Proof.
  induction 1 as [|env backend op w _ IH|w _ IH].
  - split; [by left | done].
  - by apply run_store_op_admin_only.
  - destruct IH as [_ Hs]. unfold admin_only_world, new_session, hydrate.
    simpl. destruct (snapshot (localStorage w)) as [p|]; [|split; [by left|done]].
    split; [|done]. simpl.
    destruct Hs as [Hp|Hp]; [left; by rewrite Hp|].
    right. by destruct (p_user p).
Qed.

Section LoginFacts.
Variable env : option string.
Variable backend : Backend.

Import useAdminStore.

(** login on a response that carries a user with a role. *)
Lemma login_answered (w : World) (email password : string)
    (fields : list (string * JsVal)) (role : JsVal) :
  let req := login_request env email password in
  failed (backend (sent w) req) = false ->
  reply_data (backend (sent w) req) = JObj fields ->
  role_of (lookup_field "user" fields) = Some role ->
  login env backend email password w
  = let w1 := record_request req
                (with_store (fun s => merge s [isLoading_ true;
                                               authError_ None]) w) in
    if strict_eq_str role "ADMIN" then
      (Returned tt,
       with_store
         (fun s => merge s [user_ (lookup_field "user" fields);
                            accessToken_ (lookup_field "access_token" fields);
                            refreshToken_ (lookup_field "refresh_token" fields);
                            isLoading_ false; authError_ None]) w1)
    else
      (Threw (ErrorObj "Access denied. Admin privileges required."),
       with_store
         (fun s => merge s
            [authError_ (Some "Access denied. Admin privileges required.");
             isLoading_ false]) w1).
Proof.
  intros req Hok Hdata Hrole. subst req. unfold login; unfold_M.
  change (sent w) with
    (sent (with_store (fun s => merge s [isLoading_ true; authError_ None]) w))
    in Hok, Hdata.
  rewrite (axios_ok _ _ _ Hok), Hdata. simpl.
  unfold role_of in Hrole. rewrite Hrole.
  by destruct (strict_eq_str role "ADMIN").
Qed.

(** Whenever login throws, the stored authentication state is as it
    was. *)
Lemma login_threw_keeps_auth (w : World) (email password : string) e :
  outcome_of (login env backend email password w) = Threw e ->
  auth_fields (store (state_of (login env backend email password w)))
  = auth_fields (store w).
Proof.
  change (wp (login env backend email password)
            (fun o w' => o = Threw e ->
                         auth_fields (store w') = auth_fields (store w)) w).
  destruct w as [s ls sn al nv co ce], s. wp_run; done.
Qed.
End LoginFacts.

Lemma checkAuthStatus_true (s : AdminState) :
  useAdminStore.checkAuthStatus s = true
  <-> user s <> JNull /\ truthy (accessToken s) = true
      /\ role_of (user s) = Some (JStr "ADMIN").
Proof.
  unfold useAdminStore.checkAuthStatus, role_of.
  rewrite !andb_true_iff. split.
  - intros [[Hu Ht] Hr]. destruct (get_prop (user s) "role") as [r|] eqn:E;
      [|done]. apply strict_eq_str_true in Hr. subst r.
    split; [|by split]. intros Hn. by rewrite Hn in Hu.
  - intros (Hu & Ht & Hr). rewrite Hr. split; [split|done]; [|done].
    by destruct (user s).
Qed.

(** C4, amended. In every state reached from a first session by the
    store's operations and by reloads, a user that is not null has role
    'ADMIN'. login, on a response that carries a user with a role, commits
    user, accessToken and refreshToken when the role is 'ADMIN' and
    otherwise throws 'Access denied. Admin privileges required.' with the
    three fields as they were; whenever login throws, they are as they
    were. checkAuthStatus, for an accessToken that is null or a string,
    returns true iff the user is not null, the accessToken is neither null
    nor the empty string, and user.role is 'ADMIN'. *)
Theorem admin_only_invariant :
  (forall w : World,
      reachable w ->
      user (store w) <> JNull -> role_of (user (store w)) = Some (JStr "ADMIN"))
  /\ (forall env backend (w : World) (email password : string)
             (fields : list (string * JsVal)) (role : JsVal),
         let req := useAdminStore.login_request env email password in
         let run := useAdminStore.login env backend email password w in
         failed (backend (sent w) req) = false ->
         reply_data (backend (sent w) req) = JObj fields ->
         role_of (lookup_field "user" fields) = Some role ->
         (role = JStr "ADMIN" ->
          outcome_of run = Returned tt
          /\ auth_fields (store (state_of run))
             = (lookup_field "user" fields, lookup_field "access_token" fields,
                lookup_field "refresh_token" fields))
         /\ (role <> JStr "ADMIN" ->
             outcome_of run
             = Threw (ErrorObj "Access denied. Admin privileges required.")
             /\ auth_fields (store (state_of run)) = auth_fields (store w)))
  /\ (forall env backend (w : World) (email password : string) (e : Thrown),
         let run := useAdminStore.login env backend email password w in
         outcome_of run = Threw e ->
         auth_fields (store (state_of run)) = auth_fields (store w))
  /\ (forall s : AdminState,
         (accessToken s = JNull \/ exists t, accessToken s = JStr t) ->
         useAdminStore.checkAuthStatus s = true
         <-> user s <> JNull /\ accessToken s <> JNull
             /\ accessToken s <> JStr "" /\ role_of (user s) = Some (JStr "ADMIN")).
Proof.
  split; [|split; [|split]].
  - intros w Hw Hu. destruct (reachable_admin_only w Hw) as [[Hn|Hr] _]; done.
  - intros env backend w email password fields role req run Hok Hdata Hrole.
    subst req run.
    rewrite (login_answered env backend w email password fields role
               Hok Hdata Hrole).
    split.
    + intros ->. simpl. by destruct w as [s ls sn al nv co ce], s.
    + intros Hne. destruct (strict_eq_str role "ADMIN") eqn:E.
      * by apply strict_eq_str_true in E.
      * by destruct w as [s ls sn al nv co ce], s.
  - intros env backend w email password e run. apply login_threw_keeps_auth.
  - intros s Htyped. rewrite checkAuthStatus_true.
    destruct Htyped as [Hn|[t Ht]].
    + rewrite Hn. simpl. split; [by intros (_ & ? & _)|by intros (_ & ? & _)].
    + rewrite Ht. simpl. rewrite negb_true_iff, String.eqb_neq.
      split.
      * intros (Hu & Hne & Hr). split; [done|]. split; [done|].
        split; [congruence|done].
      * intros (Hu & _ & Hne & Hr). split; [done|]. split; [congruence|done].
Qed.

Lemma reachable_logged_in : reachable logged_in.
Proof.
  exact (reachable_op None (backend_ok (sample_body admin_user "access-1"))
           (Login "admin@tourer.test" "secret") _ reachable_start).
Qed.

Lemma reachable_logged_in_empty_token : reachable logged_in_empty_token.
Proof.
  exact (reachable_op None (backend_ok (sample_body admin_user ""))
           (Login "admin@tourer.test" "secret") _ reachable_start).
Qed.

(** The invariant and the token test at a logged-in session. *)
Lemma admin_only_invariant_witness :
  (user (store logged_in) <> JNull
   /\ role_of (user (store logged_in)) = Some (JStr "ADMIN"))
  /\ (accessToken (store logged_in) = JStr "access-1"
      /\ useAdminStore.checkAuthStatus (store logged_in) = true).
Proof.
  assert (Hu : user (store logged_in) <> JNull) by (vm_compute; discriminate).
  split; [split; [exact Hu|]|split; [reflexivity|]].
  - exact (proj1 admin_only_invariant logged_in reachable_logged_in Hu).
  - apply (proj2 (proj2 (proj2 admin_only_invariant)) (store logged_in)).
    + right. exists "access-1". reflexivity.
    + split; [exact Hu|]. split; [vm_compute; discriminate|].
      split; [vm_compute; discriminate|reflexivity].
Defined.

(** C4 as stated fails on the last sentence: after a login that was
    answered with an empty access token, user and accessToken are both not
    null and the role is 'ADMIN', yet checkAuthStatus returns false. *)
Lemma checkAuthStatus_empty_token :
  reachable logged_in_empty_token
  /\ accessToken (store logged_in_empty_token) = JStr ""
  /\ ~ (useAdminStore.checkAuthStatus (store logged_in_empty_token) = true
        <-> user (store logged_in_empty_token) <> JNull
            /\ accessToken (store logged_in_empty_token) <> JNull
            /\ role_of (user (store logged_in_empty_token))
               = Some (JStr "ADMIN")).
Proof.
  split; [exact reachable_logged_in_empty_token|]. split; [reflexivity|].
  intros [_ Hback].
  assert (Hc : useAdminStore.checkAuthStatus (store logged_in_empty_token)
               = true).
  { apply Hback. split; [vm_compute; discriminate|].
    split; [vm_compute; discriminate|reflexivity]. }
  vm_compute in Hc. discriminate.
Qed.

(** ** What the persist middleware keeps *)

Lemma run_store_op_items env backend op w :
  items (localStorage (state_of (run_store_op env backend op w)))
  = items (localStorage w).
Proof.
  change (wp (run_store_op env backend op)
            (fun _ w' => items (localStorage w') = items (localStorage w)) w).
  destruct w as [s ls sn al nv co ce].
  destruct op as [f|m| | | |]; [destruct f|destruct m| | | |];
    cbn [run_store_op run_fetch run_mutation]; wp_run; done.
Qed.

Lemma run_store_op_snapshot env backend op w :
  let w' := state_of (run_store_op env backend op w) in
  snapshot (localStorage w') = snapshot (localStorage w)
  \/ snapshot (localStorage w') = Some (partialize (store w')).
Proof.
  change (wp (run_store_op env backend op)
            (fun _ w' =>
               snapshot (localStorage w') = snapshot (localStorage w)
               \/ snapshot (localStorage w') = Some (partialize (store w'))) w).
  destruct w as [s ls sn al nv co ce].
  destruct op as [f|m| | | |]; [destruct f|destruct m| | | |];
    cbn [run_store_op run_fetch run_mutation]; wp_run; auto.
Qed.

(** C5. Only user, accessToken and refreshToken are persisted. What a
    [set] writes to localStorage is the partialized state, which is made
    of these three fields and is the same for two states that agree on
    them; a store operation writes nothing else to localStorage. A new
    session, whatever localStorage holds, starts with healthData null,
    packages [], reviews [], reviewsPagination null, every loading flag
    false and every error null. *)
Theorem persist_keeps_auth_only :
  (forall state : AdminState,
      partialize state
      = {| p_user := user state; p_accessToken := accessToken state;
           p_refreshToken := refreshToken state |})
  /\ (forall (s1 s2 : AdminState) (ls : Storage),
         auth_fields s1 = auth_fields s2 ->
         persist_write s1 ls = persist_write s2 ls)
  /\ (forall (f : AdminState -> AdminState) (w : World),
         localStorage (with_store f w)
         = {| snapshot := Some (partialize (f (store w)));
              items := items (localStorage w) |})
  /\ (forall env backend (op : StoreOp) (w : World),
         let w' := state_of (run_store_op env backend op w) in
         items (localStorage w') = items (localStorage w)
         /\ (snapshot (localStorage w') = snapshot (localStorage w)
             \/ snapshot (localStorage w') = Some (partialize (store w'))))
  /\ (forall ls : Storage,
         let s := store (new_session ls) in
         mirrored_fields s = (JNull, JArr [], JArr [], JNull)
         /\ loading_flags s = (false, false, false, false)
         /\ error_fields s = (None, None, None, None)).
Proof.
  split; [done|]. split; [|split; [done|split]].
  - intros s1 s2 ls H. unfold persist_write, partialize, auth_fields in *.
    injection H as H1 H2 H3. by rewrite H1, H2, H3.
  - intros env backend op w w'. split.
    + apply run_store_op_items.
    + apply run_store_op_snapshot.
  - intros ls. simpl. unfold hydrate. by destruct (snapshot ls).
Qed.

(** Two sessions that differ in everything but the auth fields persist the
    same. *)
Lemma persist_keeps_auth_only_witness :
  persist_write (store logged_in) empty_storage
  = persist_write
      (merge (store logged_in) [packages_ (JArr [sample_package]);
                                reviewsLoading_ true])
      empty_storage.
Proof.
  apply (proj1 (proj2 persist_keeps_auth_only)). reflexivity.
Defined.

(** ** The stars of a review *)

Lemma append_empty_r (s : string) : s ++ "" = s.
Proof.
  induction s as [|a s IH]; [done|].
  change (String a (s ++ "") = String a s). by rewrite IH.
Qed.

Lemma append_assoc (s1 s2 s3 : string) : (s1 ++ s2) ++ s3 = s1 ++ (s2 ++ s3).
Proof.
  induction s1 as [|a s1 IH]; [done|].
  change (String a ((s1 ++ s2) ++ s3) = String a (s1 ++ (s2 ++ s3))).
  by rewrite IH.
Qed.

Lemma concat_empty_app (l1 l2 : list string) :
  String.concat "" (l1 ++ l2) = String.concat "" l1 ++ String.concat "" l2.
Proof.
  induction l1 as [|x [|y l1] IH]; simpl in *.
  - done.
  - destruct l2; simpl; [|done]. by rewrite append_empty_r.
  - by rewrite IH, append_assoc.
Qed.

(** C10. For an integer rating r with 0 <= r <= 5, renderStars returns the
    r filled stars followed by the 5 - r empty ones, five star literals in
    all. It returns a string only for such a rating: for r > 5 the second
    repeat count 5 - r is negative and the call throws (and so does the
    first repeat for r < 0). *)
Theorem renderStars_five_stars :
  (forall r : Z,
      (0 <= r <= 5)%Z ->
      let stars := (replicate (Z.to_nat r) ReviewsPage.filled_star
                    ++ replicate (Z.to_nat (5 - r)) ReviewsPage.empty_star)%list in
      ReviewsPage.renderStars r = Returned (String.concat "" stars)
      /\ length stars = 5%nat)
  /\ (forall r : Z,
         (5 < r)%Z ->
         ReviewsPage.renderStars r
         = Threw (ErrorObj ("Invalid count value: " ++ pretty (5 - r)%Z)))
  /\ (forall r : Z,
         (exists s, ReviewsPage.renderStars r = Returned s) <-> (0 <= r <= 5)%Z).
Proof.
  split; [|split].
  - intros r Hr stars. subst stars.
    unfold ReviewsPage.renderStars, ReviewsPage.js_repeat.
    destruct (Z.ltb_spec r 0); [lia|].
    destruct (Z.ltb_spec (5 - r) 0); [lia|].
    split; [by rewrite concat_empty_app|].
    rewrite length_app, !length_replicate. lia.
  - intros r Hr. unfold ReviewsPage.renderStars, ReviewsPage.js_repeat.
    destruct (Z.ltb_spec r 0); [lia|].
    destruct (Z.ltb_spec (5 - r) 0); [done|lia].
  - intros r. unfold ReviewsPage.renderStars, ReviewsPage.js_repeat. split.
    + intros [s Hs].
      destruct (Z.ltb_spec r 0); [done|].
      destruct (Z.ltb_spec (5 - r) 0); [done|lia].
    + intros Hr.
      destruct (Z.ltb_spec r 0); [lia|].
      destruct (Z.ltb_spec (5 - r) 0); [lia|]. eauto.
Qed.

(** A review rated 4. *)
Lemma renderStars_five_stars_witness :
  (0 <= 4 <= 5)%Z
  /\ ReviewsPage.renderStars 4
     = Returned (String.concat ""
                   [ReviewsPage.filled_star; ReviewsPage.filled_star;
                    ReviewsPage.filled_star; ReviewsPage.filled_star;
                    ReviewsPage.empty_star]).
Proof.
  assert (H : (0 <= 4 <= 5)%Z) by lia.
  split; [exact H|].
  exact (proj1 (proj1 renderStars_five_stars 4%Z H)).
Defined.

(** ** The bookings page *)

Section BookingFacts.
Variable env : option string.
Variable backend : Backend.

Import BookingsPage.

(** The PATCH request of [updateBookingStatus]. *)
Lemma endpoint_of_cases (bookingId status : string) :
  endpoint_of env bookingId status
  = if String.eqb status "CONFIRMED" then
      Some (baseUrl env ++ "/bookings/" ++ bookingId ++ "/confirm")
    else if String.eqb status "COMPLETED" then
      Some (baseUrl env ++ "/bookings/" ++ bookingId ++ "/complete")
    else if String.eqb status "CANCELLED" then
      Some (baseUrl env ++ "/bookings/" ++ bookingId ++ "/cancel")
    else None.
Proof. done. Qed.

(** fetchBookings issues one GET and catches whatever goes wrong. *)
Lemma fetchBookings_run (w : World) :
  exists w',
    fetchBookings env backend w = (Returned tt, w')
    /\ sent w' = (sent w ++ [{| method := GET;
                                url := baseUrl env ++ "/bookings";
                                headers := json_headers (adminToken w);
                                body := NoBody; timeout := None |}])%list.
Proof.
  unfold fetchBookings, fetch, useAdminStore.logout; unfold_M.
  unfold response_json; unfold_M. simpl.
  destruct (backend (sent w) _) as [msg|st p]; simpl; [eauto|].
  destruct (status_ok st); simpl.
  - destruct p; simpl; eauto.
  - destruct (st =? 401)%Z; simpl; eauto.
Qed.

(** A status with an endpoint: the PATCH goes out first, and a GET of
    the bookings follows when it succeeds. *)
Lemma updateBookingStatus_patch (w : World) (bookingId status endpoint : string) :
  endpoint_of env bookingId status = Some endpoint ->
  let patch := {| method := PATCH; url := endpoint;
                  headers := json_headers (adminToken w);
                  body := NoBody; timeout := None |} in
  let w' := state_of (updateBookingStatus env backend bookingId status w) in
  outcome_of (updateBookingStatus env backend bookingId status w)
  = Returned tt
  /\ exists rest,
      sent w' = (sent w ++ patch :: rest)%list
      /\ Forall (fun r => method r = GET) rest.
Proof.
  intros He patch w'. subst patch w'.
  unfold updateBookingStatus, fetch; unfold_M. rewrite He. simpl.
  destruct (backend (sent w) _) as [msg|st p]; simpl.
  - split; [done|]. by exists [].
  - destruct (status_ok st); simpl.
    + match goal with
      | |- context [fetchBookings env backend ?w1] =>
          destruct (fetchBookings_run w1) as (w2 & -> & Hs)
      end.
      split; [done|]. simpl in *. rewrite Hs. simpl.
      rewrite <- app_assoc. eexists. split; [done|]. by repeat constructor.
    + split; [done|]. by exists [].
Qed.

(** A status without an endpoint: nothing is sent, the Error raised by
    the switch is caught, and the handler alerts and returns. *)
Lemma updateBookingStatus_invalid (w : World) (bookingId status : string) :
  endpoint_of env bookingId status = None ->
  updateBookingStatus env backend bookingId status w
  = (Returned tt, record_alert "Failed to update booking status" w).
Proof.
  intros He. unfold updateBookingStatus; unfold_M. by rewrite He.
Qed.
End BookingFacts.

Section BookingEndpoints.
Variable env : option string.
Variable backend : Backend.

Import BookingsPage.

Lemma endpoint_suffix_inj (bookingId suffix1 suffix2 : string) :
  baseUrl env ++ "/bookings/" ++ bookingId ++ suffix1
  = baseUrl env ++ "/bookings/" ++ bookingId ++ suffix2 ->
  suffix1 = suffix2.
Proof.
  intros H. apply (inj (String.app _)) in H.
  apply (inj (String.app _)) in H. by apply (inj (String.app _)) in H.
Qed.

(** The PATCH to an endpoint goes out exactly for the status of that
    endpoint. *)
Lemma updateBookingStatus_patch_iff (w : World)
    (bookingId status name suffix : string) :
  In (name, suffix) [("CONFIRMED", "/confirm"); ("COMPLETED", "/complete");
                     ("CANCELLED", "/cancel")] ->
  (exists rest,
      sent (state_of (updateBookingStatus env backend bookingId status w))
      = (sent w
         ++ {| method := PATCH;
               url := baseUrl env ++ "/bookings/" ++ bookingId ++ suffix;
               headers := json_headers (adminToken w);
               body := NoBody; timeout := None |} :: rest)%list)
  <-> status = name.
Proof.
  intros Hin. split.
  - intros [rest Hsent].
    destruct (endpoint_of env bookingId status) as [e|] eqn:He.
    + destruct (updateBookingStatus_patch env backend w _ _ _ He)
        as (_ & rest' & Hsent' & _).
      rewrite Hsent' in Hsent. apply app_inv_head in Hsent.
      injection Hsent as Hurl _. rewrite endpoint_of_cases in He.
      destruct (String.eqb_spec status "CONFIRMED") as [->|_];
        [|destruct (String.eqb_spec status "COMPLETED") as [->|_];
          [|destruct (String.eqb_spec status "CANCELLED") as [->|_];
            [|done]]];
        injection He as <-; apply endpoint_suffix_inj in Hurl; subst suffix;
        simpl in Hin; intuition congruence.
    + rewrite (updateBookingStatus_invalid env backend w _ _ He) in Hsent.
      simpl in Hsent. rewrite <- (app_nil_r (sent w)) in Hsent at 1.
      by apply app_inv_head in Hsent.
  - intros ->.
    assert (He : endpoint_of env bookingId name
                 = Some (baseUrl env ++ "/bookings/" ++ bookingId ++ suffix)).
    { simpl in Hin. destruct Hin as [H|[H|[H|[]]]]; by injection H as <- <-. }
    destruct (updateBookingStatus_patch env backend w _ _ _ He)
      as (_ & rest & Hsent & _).
    by exists rest.
Qed.
End BookingEndpoints.

(** C8, amended. A booking's status is one of PENDING, CONFIRMED, COMPLETED
    and CANCELLED. updateBookingStatus issues a PATCH to
    /bookings/<id>/confirm, /bookings/<id>/complete or /bookings/<id>/cancel
    exactly when the requested status is CONFIRMED, COMPLETED or CANCELLED
    respectively. For any other requested status, PENDING included, it
    issues no request: the Error 'Invalid status' raised by its switch is
    caught by its own catch block, which alerts 'Failed to update booking
    status', and the call returns normally, as it does in every case. *)
Theorem updateBookingStatus_by_status (env : option string) (backend : Backend)
    (bookingId status : string) (w : World) :
  let run := BookingsPage.updateBookingStatus env backend bookingId status w in
  let patch suffix :=
    {| method := PATCH;
       url := BookingsPage.baseUrl env ++ "/bookings/" ++ bookingId ++ suffix;
       headers := BookingsPage.json_headers (BookingsPage.adminToken w);
       body := NoBody; timeout := None |} in
  (forall s : BookingsPage.BookingStatus,
      In (BookingsPage.status_name s)
        ["PENDING"; "CONFIRMED"; "COMPLETED"; "CANCELLED"])
  /\ ((exists rest, sent (state_of run) = (sent w ++ patch "/confirm" :: rest)%list)
      <-> status = "CONFIRMED")
  /\ ((exists rest, sent (state_of run) = (sent w ++ patch "/complete" :: rest)%list)
      <-> status = "COMPLETED")
  /\ ((exists rest, sent (state_of run) = (sent w ++ patch "/cancel" :: rest)%list)
      <-> status = "CANCELLED")
  /\ (status <> "CONFIRMED" -> status <> "COMPLETED" -> status <> "CANCELLED" ->
      run = (Returned tt, record_alert "Failed to update booking status" w)
      /\ sent (state_of run) = sent w)
  /\ outcome_of run = Returned tt.
Proof.
  intros run patch. subst run patch.
  split; [intros []; simpl; tauto|].
  split; [apply updateBookingStatus_patch_iff; simpl; tauto|].
  split; [apply updateBookingStatus_patch_iff; simpl; tauto|].
  split; [apply updateBookingStatus_patch_iff; simpl; tauto|].
  split.
  - intros H1 H2 H3.
    assert (He : BookingsPage.endpoint_of env bookingId status = None).
    { rewrite endpoint_of_cases.
      apply String.eqb_neq in H1, H2, H3. by rewrite H1, H2, H3. }
    by rewrite (updateBookingStatus_invalid env backend w _ _ He).
  - destruct (BookingsPage.endpoint_of env bookingId status) as [e|] eqn:He.
    + by destruct (updateBookingStatus_patch env backend w _ _ _ He) as [-> _].
    + by rewrite (updateBookingStatus_invalid env backend w _ _ He).
Qed.

(** Confirming a booking, and asking for PENDING. *)
Lemma updateBookingStatus_by_status_witness :
  (exists rest,
      sent (state_of (BookingsPage.updateBookingStatus None backend_down
                        "b1" "CONFIRMED" logged_in))
      = (sent logged_in
         ++ {| method := PATCH;
               url := BookingsPage.baseUrl None ++ "/bookings/" ++ "b1"
                      ++ "/confirm";
               headers := BookingsPage.json_headers
                            (BookingsPage.adminToken logged_in);
               body := NoBody; timeout := None |} :: rest)%list)
  /\ sent (state_of (BookingsPage.updateBookingStatus None backend_down
                       "b1" "PENDING" logged_in))
     = sent logged_in.
Proof.
  split.
  - apply (proj1 (proj2 (updateBookingStatus_by_status None backend_down
                           "b1" "CONFIRMED" logged_in))).
    reflexivity.
  - apply (proj1 (proj2 (proj2 (proj2 (proj2
             (updateBookingStatus_by_status None backend_down
                "b1" "PENDING" logged_in)))))); discriminate.
Defined.

(** C8 as stated fails on its last part: asked for PENDING,
    updateBookingStatus does not throw 'Invalid status'; it alerts and
    returns. *)
Lemma updateBookingStatus_pending_returns :
  outcome_of (BookingsPage.updateBookingStatus None backend_down
                "b1" "PENDING" logged_in)
  <> Threw (ErrorObj "Invalid status").
Proof. vm_compute. discriminate. Qed.

(** ** Failed requests *)

Lemma wp_fetch_failed backend req Q w :
  failed (backend (sent w) req) = true ->
  (forall msg,
      backend (sent w) req = NetworkError msg ->
      Q (Threw (ErrorObj msg)) (record_request req w)) ->
  (forall st p,
      status_ok st = false ->
      backend (sent w) req = HttpResponse st p ->
      Q (Returned {| ok := false; status := st; payload := p |})
        (record_request req w)) ->
  wp (fetch backend req) Q w.
Proof.
  intros Hf He Hr. unfold wp, fetch, outcome_of, state_of.
  destruct (backend (sent w) req) as [msg|st p] eqn:E; [by apply He|].
  simpl in Hf. apply negb_true_iff in Hf. rewrite Hf. by apply Hr.
Qed.

(** A step when every request from the starting log fails. *)
Ltac wp_fail_step Hfail :=
  lazymatch goal with
  | |- wp (axios _ _) _ _ =>
      first [ apply wp_axios_failed; [exact (Hfail _)|intros ?]
            | apply wp_axios; intros [?|?] ]
  | |- wp (fetch _ _) _ _ =>
      first [ apply wp_fetch_failed; [exact (Hfail _)|intros ? ?|intros ? ? ? ?]
            | apply wp_fetch; intros [?|?] ]
  | |- wp (js_find_by_id _ _) _ _ => apply wp_find; intros [?|?]
  | |- wp (if negb (ok _) then _ else _) _ _ => cbn [ok negb]
  | |- wp (if (status _ =? _)%Z then _ else _) _ _ => cbn [status]
  | _ => first [wp_step | progress unfold_store | progress unfold_pages]
  end; cbv beta iota.

Ltac solve_loading_cells :=
  let name := fresh "name" in
  let H := fresh "Hname" in
  intros name H; simpl in H;
  repeat (destruct H as [H|H]; [subst name|]); [..|destruct H];
  repeat (rewrite lookup_insert_eq || (rewrite lookup_insert_ne by done));
  auto.

Ltac solve_other_cells :=
  let name := fresh "name" in
  let H := fresh "Hname" in
  intros name H;
  repeat (rewrite lookup_insert_ne;
          [|intros <-; vm_compute in H; discriminate H]);
  reflexivity.

Ltac finish_quiet :=
  constructor; simpl; unfold cleared_or_kept; auto;
  first [solve [solve_loading_cells] | solve [solve_other_cells]].

Ltac solve_quiet :=
  let Hs := fresh "Hsent" in
  intros Hs; simpl in Hs; try congruence; finish_quiet.

(** Uses the reply on record against what is assumed of every reply. *)
Ltac reply_is H :=
  match goal with
  | E : _ _ ?r = ?v |- _ =>
      let H' := fresh in
      pose proof (eq_trans (eq_sym (f_equal reply_status E)) (H r)) as H';
      simpl in H'; clear H
  end.

Ltac reply_is_not H :=
  match goal with
  | E : _ _ ?r = ?v |- _ =>
      let H' := fresh in
      assert (H' : reply_status v <> Some 401%Z)
        by (let X := fresh in
            intros X; apply (H r);
            exact (eq_trans (f_equal reply_status E) X));
      simpl in H'; clear H
  end.

Lemma issued_none (l : list Request) : drop (length l) l = [].
Proof. by rewrite drop_all. Qed.

Lemma issued_some (l k : list Request) : drop (length l) (l ++ k) = k.
Proof. by rewrite drop_app_length. Qed.

(** The first request of an operation, by whether it fails. *)
Lemma wp_axios_cases backend req Q w :
  (failed (backend (sent w) req) = false ->
   Q (Returned (reply_data (backend (sent w) req))) (record_request req w)) ->
  (failed (backend (sent w) req) = true ->
   forall msg, Q (Threw (ErrorObj msg)) (record_request req w)) ->
  wp (axios backend req) Q w.
Proof.
  intros Hok Hfail. unfold wp.
  destruct (failed (backend (sent w) req)) eqn:Hf.
  - destruct (axios_failed _ _ _ Hf) as [msg ->]. by apply Hfail.
  - rewrite (axios_ok _ _ _ Hf). by apply Hok.
Qed.

Lemma wp_fetch_cases backend req Q w :
  (forall st p,
      backend (sent w) req = HttpResponse st p ->
      Q (Returned {| ok := status_ok st; status := st; payload := p |})
        (record_request req w)) ->
  (forall msg,
      backend (sent w) req = NetworkError msg ->
      Q (Threw (ErrorObj msg)) (record_request req w)) ->
  wp (fetch backend req) Q w.
Proof.
  intros Hr He. unfold wp, fetch, outcome_of, state_of.
  destruct (backend (sent w) req) as [msg|st p] eqn:E; [by apply He|].
  by apply Hr.
Qed.

(** A step that keeps on record what the backend answered. *)
Ltac wp_reply_step :=
  lazymatch goal with
  | |- wp (axios _ _) _ _ =>
      apply wp_axios_cases; [intros ?|intros ? ?]
  | |- wp (fetch _ _) _ _ =>
      apply wp_fetch_cases; [intros ? ? ?|intros ? ?]
  | |- wp (js_find_by_id _ _) _ _ => apply wp_find; intros [?|?]
  | _ => first [wp_step | progress unfold_store | progress unfold_pages]
  end; cbv beta iota.

(** The world's fields after the steps of a run. *)
Ltac world_fields :=
  cbn [store localStorage sent alerts navigations console cells with_cell
       with_store record_request record_navigation record_alert
       record_console ok status payload] in *.

(** Reads the replies of a run off the record of its steps. *)
Ltac replies_on_record H :=
  unfold a_request_failed, own_request_failed, GET_refused, issued in *;
  world_fields; rewrite <- ?app_assoc in *;
  rewrite ?issued_none, ?issued_some in *;
  cbn [replies existsb app fst snd method] in *;
  repeat match goal with
    | E : failed (_ _ _) = _ |- _ => rewrite E in *; clear E
    | E : _ _ _ = HttpResponse _ _ |- _ => rewrite E in *; clear E
    | E : _ _ _ = NetworkError _ |- _ => rewrite E in *; clear E
    end;
  cbn [failed orb andb negb] in *;
  repeat match goal with
    | E : negb _ = true |- _ => apply negb_true_iff in E
    | E : negb _ = false |- _ => apply negb_false_iff in E
    | E : status_ok _ = _ |- _ => rewrite E in *; clear E
    | E : (_ =? 401)%Z = _ |- _ => rewrite E in *; clear E
    end;
  cbn [failed orb andb negb] in *;
  try discriminate H.

Section FailedRequests.
Variable env : option string.
Variable backend : Backend.

(** The operations without recovery only report. *)
Lemma failed_no_recovery (op : ConsoleOp) (w : World) :
  recovery op = NoRecovery ->
  let w' := state_of (run_op env backend op w) in
  a_request_failed backend w w' = true ->
  if own_request_failed backend w w' then quiet w w'
  else
    match leaves_on_success op with
    | Some route => quiet (record_navigation route w) w'
    | None => quiet w w'
    end.
Proof.
  intros Hrec.
  change (wp (run_op env backend op)
            (fun _ w' =>
               a_request_failed backend w w' = true ->
               if own_request_failed backend w w' then quiet w w'
               else
                 match leaves_on_success op with
                 | Some route => quiet (record_navigation route w) w'
                 | None => quiet w w'
                 end) w).
  destruct w as [s ls sn al nv co ce], s.
  destruct op as [[f|m| | | |]| | | | | | | | | | | | | | | | | | | | | | | | | | | | |];
    try discriminate Hrec; clear Hrec; [destruct f|destruct m|..];
    cbn [run_op run_store_op run_fetch run_mutation leaves_on_success];
    repeat wp_reply_step;
    intros Hany; replies_on_record Hany; finish_quiet.
Qed.

(** refreshAccessToken logs out. *)
Lemma failed_refresh_logs_out (w : World) :
  let run := run_op env backend (OfStore RefreshAccessToken) w in
  a_request_failed backend w (state_of run) = true ->
  outcome_of run = Threw (ErrorObj "Session expired. Please login again.")
  /\ auth_fields (store (state_of run)) = (JNull, JNull, JNull)
  /\ authError (store (state_of run)) = None
  /\ mirrored_fields (store (state_of run)) = mirrored_fields (store w)
  /\ navigations (state_of run) = navigations w.
Proof.
  change (wp (run_op env backend (OfStore RefreshAccessToken))
            (fun o w' =>
               a_request_failed backend w w' = true ->
               o = Threw (ErrorObj "Session expired. Please login again.")
               /\ auth_fields (store w') = (JNull, JNull, JNull)
               /\ authError (store w') = None
               /\ mirrored_fields (store w') = mirrored_fields (store w)
               /\ navigations w' = navigations w) w).
  destruct w as [s ls sn al nv co ce], s.
  cbn [run_op run_store_op]. repeat wp_reply_step;
    intros Hany; replies_on_record Hany; done.
Qed.

(** The bookings page logs out and leaves when its GET of the bookings
    is answered with a 401, and only reports otherwise. *)
Lemma failed_bookings (op : ConsoleOp) (w : World) :
  recovery op = LogsOutOn401 ->
  let w' := state_of (run_op env backend op w) in
  a_request_failed backend w w' = true ->
  if GET_refused backend w w'
  then auth_fields (store w') = (JNull, JNull, JNull)
       /\ navigations w' = (navigations w ++ ["/admin-login"])%list
  else quiet w w'.
Proof.
  intros Hrec.
  change (wp (run_op env backend op)
            (fun _ w' =>
               a_request_failed backend w w' = true ->
               if GET_refused backend w w'
               then auth_fields (store w') = (JNull, JNull, JNull)
                    /\ navigations w'
                       = (navigations w ++ ["/admin-login"])%list
               else quiet w w') w).
  destruct w as [s ls sn al nv co ce], s.
  destruct op;
    try (match goal with o : StoreOp |- _ => destruct o end);
    try discriminate Hrec; clear Hrec; cbn [run_op];
    repeat wp_reply_step;
    intros Hany; replies_on_record Hany;
    first [done | finish_quiet].
Qed.

(** The loaders of the edit pages alert and go back to their list. *)
Lemma failed_loader (op : ConsoleOp) (route : string) (w : World) :
  recovery op = NavigatesBack route ->
  let w' := state_of (run_op env backend op w) in
  a_request_failed backend w w' = true ->
  auth_fields (store w') = auth_fields (store w)
  /\ mirrored_fields (store w') = mirrored_fields (store w)
  /\ navigations w' = (navigations w ++ [route])%list
  /\ exists msg, alerts w' = (alerts w ++ [msg])%list.
Proof.
  intros Hrec.
  change (wp (run_op env backend op)
            (fun _ w' =>
               a_request_failed backend w w' = true ->
               auth_fields (store w') = auth_fields (store w)
               /\ mirrored_fields (store w') = mirrored_fields (store w)
               /\ navigations w' = (navigations w ++ [route])%list
               /\ exists msg, alerts w' = (alerts w ++ [msg])%list) w).
  destruct w as [s ls sn al nv co ce], s.
  destruct op;
    try (match goal with o : StoreOp |- _ => destruct o end);
    try discriminate Hrec; injection Hrec as <-; cbn [run_op];
    repeat wp_reply_step;
    intros Hany; replies_on_record Hany;
    try match goal with
        | H : truthy (js_or JNull JUndefined) = true |- _ => discriminate H
        end;
    simpl; eauto 10.
Qed.
End FailedRequests.

(** C2, amended. When a request an operation of the console issues
    fails, be it the operation's own request or the refetch of a list
    that follows its success, the operation only reports: the store's
    auth and mirrored fields, the navigation history, the localStorage
    items and the page's data cells are as they were, every loading flag
    is cleared or as it was, and what changes is error messages, alerts
    and the console; a submit handler whose own request succeeded and
    whose refetch failed has, besides, left for its list page as after
    any success. Four kinds of operation do more: refreshAccessToken logs
    out (user, accessToken, refreshToken and authError cleared) and throws
    'Session expired. Please login again.'; the bookings page, in its
    fetch and in the fetch that follows a successful updateBookingStatus
    or deleteBooking, logs out and goes to /admin-login when the GET of
    the bookings is answered with a 401 (and only reports on any other
    failure); the loaders of the two edit pages alert and go back to
    /packages or /carousel. *)
Theorem failed_request_effects (env : option string) (backend : Backend)
    (op : ConsoleOp) (w : World) :
  let run := run_op env backend op w in
  let w' := state_of run in
  a_request_failed backend w w' = true ->
  match recovery op with
  | NoRecovery =>
      if own_request_failed backend w w' then quiet w w'
      else
        match leaves_on_success op with
        | Some route => quiet (record_navigation route w) w'
        | None => quiet w w'
        end
  | LogsOut =>
      outcome_of run = Threw (ErrorObj "Session expired. Please login again.")
      /\ auth_fields (store w') = (JNull, JNull, JNull)
      /\ authError (store w') = None
      /\ mirrored_fields (store w') = mirrored_fields (store w)
      /\ navigations w' = navigations w
  | LogsOutOn401 =>
      if GET_refused backend w w'
      then auth_fields (store w') = (JNull, JNull, JNull)
           /\ navigations w' = (navigations w ++ ["/admin-login"])%list
      else quiet w w'
  | NavigatesBack route =>
      auth_fields (store w') = auth_fields (store w)
      /\ mirrored_fields (store w') = mirrored_fields (store w)
      /\ navigations w' = (navigations w ++ [route])%list
      /\ exists msg, alerts w' = (alerts w ++ [msg])%list
  end.
Proof.
  intros run w' Hany. subst run w'.
  destruct (recovery op) as [| | |route] eqn:Hrec.
  - by apply failed_no_recovery.
  - assert (op = OfStore RefreshAccessToken) as ->.
    { destruct op; try discriminate Hrec.
      match goal with o : StoreOp |- _ => destruct o end;
        by try discriminate Hrec. }
    by apply failed_refresh_logs_out.
  - by apply failed_bookings.
  - by apply failed_loader.
Qed.

(** Deleting a package while the backend is down, and deleting a booking
    when the backend carries the deletion out and then refuses the
    bookings with a 401. *)
Lemma failed_request_effects_witness :
  quiet logged_in
    (state_of (run_op None backend_down (OfStore (Mutate (DeletePackage "p1")))
                 logged_in))
  /\ (auth_fields
        (store (state_of (run_op None backend_refusing_reads
                            (Bookings_deleteBooking true "b1") logged_in)))
      = (JNull, JNull, JNull)
      /\ navigations
           (state_of (run_op None backend_refusing_reads
                        (Bookings_deleteBooking true "b1") logged_in))
         = (navigations logged_in ++ ["/admin-login"])%list).
Proof.
  split.
  - exact (failed_request_effects None backend_down
             (OfStore (Mutate (DeletePackage "p1"))) logged_in eq_refl).
  - exact (failed_request_effects None backend_refusing_reads
             (Bookings_deleteBooking true "b1") logged_in eq_refl).
Defined.

(** C2 as stated fails: a refresh that fails against a backend that is
    down clears the session the admin had. *)
Lemma refresh_failure_clears_session :
  failed (backend_down (sent logged_in)
            (useAdminStore.refresh_request None
               (refreshToken (store logged_in)))) = true
  /\ auth_fields (store logged_in)
     = (admin_user, JStr "access-1", JStr "refresh-1")
  /\ auth_fields
       (store (state_of (run_op None backend_down (OfStore RefreshAccessToken)
                           logged_in)))
     = (JNull, JNull, JNull)
  /\ ~ quiet logged_in
         (state_of (run_op None backend_down (OfStore RefreshAccessToken)
                      logged_in)).
Proof.
  split; [reflexivity|]. split; [reflexivity|]. split; [reflexivity|].
  intros [Hauth _ _ _ _ _ _ _]. vm_compute in Hauth. discriminate.
Qed.


(** ** The Authorization header *)

Ltac solve_issued :=
  unfold issued; simpl;
  rewrite <- ?app_assoc; simpl;
  first [rewrite issued_none | rewrite issued_some];
  repeat constructor.

(** C3, amended. Every request issued by an operation of the store or by
    a handler of a page other than the bookings page carries the header
    Authorization: 'Bearer ' followed by the accessToken the store holds,
    with three exceptions by design: login sends no Authorization header,
    the health check sends it only when the token is truthy, and
    refreshAccessToken sends the store's refreshToken as the bearer. *)
Theorem requests_carry_store_token (env : option string) (backend : Backend)
    (op : ConsoleOp) (scheme : AuthScheme) (w : World) :
  auth_scheme op = Some scheme ->
  Forall (carries scheme (store w))
    (issued w (state_of (run_op env backend op w))).
Proof.
  intros Hs.
  change (wp (run_op env backend op)
            (fun _ w' => Forall (carries scheme (store w)) (issued w w')) w).
  destruct w as [s ls sn al nv co ce], s.
  destruct op as [[f|m| | | |]| | | | | | | | | | | | | | | | | | | | | | | | | | | | |];
    try discriminate Hs; [destruct f|destruct m|..];
    injection Hs as <-;
    cbn [run_op run_store_op run_fetch run_mutation];
    repeat first [wp_step | progress unfold_store | progress unfold_pages];
    solve_issued;
    unfold carries; simpl; by destruct (truthy _).
Qed.

(** The requests of creating a package, and of a health check. *)
Lemma requests_carry_store_token_witness :
  Forall (carries WithAccessToken (store logged_in))
    (issued logged_in
       (state_of (run_op None (backend_ok (sample_body admin_user "access-1"))
                    (OfStore (Mutate (CreatePackage sample_package)))
                    logged_in)))
  /\ Forall (carries WithAccessTokenIfAny (store logged_in))
       (issued logged_in
          (state_of (run_op None backend_down Health_mount logged_in))).
Proof.
  split.
  - apply (requests_carry_store_token None
             (backend_ok (sample_body admin_user "access-1"))
             (OfStore (Mutate (CreatePackage sample_package)))
             WithAccessToken logged_in).
    reflexivity.
  - apply (requests_carry_store_token None backend_down Health_mount
             WithAccessTokenIfAny logged_in).
    reflexivity.
Defined.

(** C3 as stated fails: the request of refreshAccessToken carries the
    refresh token, not the accessToken of the store. *)
Lemma refresh_request_carries_refresh_token :
  issued logged_in
    (state_of (run_op None backend_down (OfStore RefreshAccessToken) logged_in))
  = [useAdminStore.refresh_request None (JStr "refresh-1")]
  /\ header "Authorization"
       (headers (useAdminStore.refresh_request None (JStr "refresh-1")))
     = Some "Bearer refresh-1"
  /\ Bearer (accessToken (store logged_in)) = "Bearer access-1"
  /\ ~ Forall (carries WithAccessToken (store logged_in))
         (issued logged_in
            (state_of (run_op None backend_down (OfStore RefreshAccessToken)
                         logged_in))).
Proof.
  split; [reflexivity|]. split; [reflexivity|]. split; [reflexivity|].
  intros H. vm_compute in H. inversion H as [|r l Hr _]. discriminate Hr.
Qed.

(** The bookings page takes its token from the localStorage item
    'adminToken', whatever the store holds. *)
Lemma fetchBookings_token (env : option string) (backend : Backend) (w : World) :
  Forall (fun r => header "Authorization" (headers r)
                   = Some (Bearer (BookingsPage.adminToken w)))
    (issued w (state_of (BookingsPage.fetchBookings env backend w))).
Proof.
  destruct (fetchBookings_run env backend w) as (w' & -> & Hsent).
  unfold issued. simpl. rewrite Hsent, issued_some. by repeat constructor.
Qed.

(** The store never writes that item: in a reachable world it is absent
    and the header is 'Bearer null'. *)
Lemma reachable_no_adminToken (w : World) :
  reachable w -> BookingsPage.adminToken w = JNull.
Proof.
  intros Hw. unfold BookingsPage.adminToken, getItem.
  assert (Hitems : items (localStorage w) = ∅).
  { induction Hw as [|env backend op w _ IH|w _ IH]; [done| |done].
    by rewrite run_store_op_items. }
  by rewrite Hitems.
Qed.

(** * Further properties of the store *)

(** ** Sessions across reloads *)

Lemma checkAuthStatus_auth (s1 s2 : AdminState) :
  stored_auth (auth_fields s1) = stored_auth (auth_fields s2) ->
  useAdminStore.checkAuthStatus s1 = useAdminStore.checkAuthStatus s2.
Proof.
  unfold stored_auth, auth_fields, useAdminStore.checkAuthStatus.
  intros [= Hu Ht _].
  destruct (user s1), (user s2); simplify_eq/=; try done;
    destruct (accessToken s1), (accessToken s2); simplify_eq/=; done.
Qed.

Lemma stored_auth_idemp a : stored_auth (stored_auth a) = stored_auth a.
Proof. destruct a as [[u t] r]. by destruct u, t, r. Qed.

Lemma reload_agrees_with_store f w : reload_agrees (with_store f w).
Proof. done. Qed.

Lemma run_store_op_reload_agrees env backend op w :
  reload_agrees w -> reload_agrees (state_of (run_store_op env backend op w)).
Proof.
  intros Hw.
  change (wp (run_store_op env backend op) (fun _ w' => reload_agrees w') w).
  destruct w as [s ls sn al nv co ce].
  destruct op as [f|m| | | |]; [destruct f|destruct m| | | |];
    cbn [run_store_op run_fetch run_mutation]; wp_run;
    first [exact Hw | apply reload_agrees_with_store | done].
Qed.

Lemma reachable_reload_agrees w : reachable w -> reload_agrees w.
Proof.
  induction 1 as [|env backend op w _ IH|w _ IH].
  - done.
  - by apply run_store_op_reload_agrees.
  - change (auth_fields (hydrate (localStorage w))
            = stored_auth (auth_fields (hydrate (localStorage w)))).
    change (auth_fields (hydrate (localStorage w))
            = stored_auth (auth_fields (store w))) in IH.
    rewrite IH. symmetry. apply stored_auth_idemp.
Qed.

(** X1. A reload keeps the session: in every world the store's operations
    and reloads reach, the store a new session starts with has the user,
    accessToken and refreshToken of the store left behind (an undefined
    one comes back as null), and checkAuthStatus answers the same before
    and after the reload. *)
Theorem reload_keeps_session (w : World) :
  reachable w ->
  auth_fields (store (reload w)) = stored_auth (auth_fields (store w))
  /\ useAdminStore.checkAuthStatus (store (reload w))
     = useAdminStore.checkAuthStatus (store w).
Proof.
  intros Hw. pose proof (reachable_reload_agrees w Hw) as H.
  split; [exact H|].
  apply checkAuthStatus_auth. unfold reload_agrees in H. rewrite H.
  apply stored_auth_idemp.
Qed.

Lemma reload_keeps_session_witness :
  auth_fields (store (reload logged_in))
  = (admin_user, JStr "access-1", JStr "refresh-1")
  /\ useAdminStore.checkAuthStatus (store (reload logged_in)) = true.
Proof.
  destruct (reload_keeps_session logged_in reachable_logged_in) as [Ha Hc].
  split; [exact Ha | exact Hc].
Defined.

(** ** Logging out and in *)

(** X2. logout ends the session and nothing else: it returns normally,
    checkAuthStatus is false afterwards and still false after a reload,
    user, accessToken, refreshToken and authError are null, the mirrored
    data, the loading flags and the other error messages are as they
    were, no request, alert or navigation happens, and logging out again
    changes nothing. *)
Theorem logout_ends_session (w : World) :
  let run := useAdminStore.logout w in
  let w' := state_of run in
  outcome_of run = Returned tt
  /\ useAdminStore.checkAuthStatus (store w') = false
  /\ useAdminStore.checkAuthStatus (store (reload w')) = false
  /\ auth_fields (store w') = (JNull, JNull, JNull)
  /\ authError (store w') = None
  /\ mirrored_fields (store w') = mirrored_fields (store w)
  /\ loading_flags (store w') = loading_flags (store w)
  /\ (error (store w'), packagesError (store w'), reviewsError (store w'))
     = (error (store w), packagesError (store w), reviewsError (store w))
  /\ (sent w', alerts w', navigations w', cells w')
     = (sent w, alerts w, navigations w, cells w)
  /\ state_of (useAdminStore.logout w') = w'.
Proof.
  destruct w as [s ls sn al nv co ce], s. by repeat split.
Qed.

(** X3. A login answered with an admin and a non-empty access token opens
    a session: login returns normally, the store holds the body's user,
    access_token and refresh_token, checkAuthStatus is true afterwards
    and still true after a reload, isLoading is false and authError
    null. *)
Theorem login_opens_session (env : option string) (backend : Backend)
    (w : World) (email password : string) (fields : list (string * JsVal))
    (token : string) :
  let req := useAdminStore.login_request env email password in
  let run := useAdminStore.login env backend email password w in
  failed (backend (sent w) req) = false ->
  reply_data (backend (sent w) req) = JObj fields ->
  role_of (lookup_field "user" fields) = Some (JStr "ADMIN") ->
  lookup_field "access_token" fields = JStr token ->
  token <> "" ->
  outcome_of run = Returned tt
  /\ auth_fields (store (state_of run))
     = (lookup_field "user" fields, JStr token,
        lookup_field "refresh_token" fields)
  /\ useAdminStore.checkAuthStatus (store (state_of run)) = true
  /\ useAdminStore.checkAuthStatus (store (reload (state_of run))) = true
  /\ isLoading (store (state_of run)) = false
  /\ authError (store (state_of run)) = None.
Proof.
  intros req run Hok Hdata Hrole Htok Hne. subst req run.
  rewrite (login_answered env backend w email password fields _
             Hok Hdata Hrole).
  simpl.
  assert (Hc : useAdminStore.checkAuthStatus
                 (merge (store w)
                    [isLoading_ true; authError_ None;
                     user_ (lookup_field "user" fields);
                     accessToken_ (lookup_field "access_token" fields);
                     refreshToken_ (lookup_field "refresh_token" fields);
                     isLoading_ false; authError_ None]) = true).
  { apply checkAuthStatus_true. destruct (store w). simpl.
    rewrite Htok. simpl. split; [|split; [|done]].
    - intros Hn. unfold role_of in Hrole. by rewrite Hn in Hrole.
    - apply negb_true_iff. by apply String.eqb_neq. }
  destruct w as [s ls sn al nv co ce], s. simpl in *.
  split; [done|]. split; [by rewrite Htok|]. split; [exact Hc|].
  split; [|done].
  etrans; [|exact Hc]. apply checkAuthStatus_auth. simpl.
  by destruct (lookup_field "user" fields), (lookup_field "access_token" fields),
       (lookup_field "refresh_token" fields).
Qed.

Lemma login_opens_session_witness :
  useAdminStore.checkAuthStatus (store logged_in) = true
  /\ useAdminStore.checkAuthStatus (store (reload logged_in)) = true.
Proof.
  assert (Hne : "access-1" <> "") by discriminate.
  pose proof (login_opens_session None
                (backend_ok (sample_body admin_user "access-1"))
                (new_session empty_storage) "admin@tourer.test" "secret"
                [("access_token", JStr "access-1");
                 ("refresh_token", JStr "refresh-1");
                 ("user", admin_user);
                 ("data", JArr [sample_package]);
                 ("pagination", sample_pagination)]
                "access-1" eq_refl eq_refl eq_refl eq_refl Hne)
    as (_ & _ & H1 & H2 & _).
  split; [exact H1 | exact H2].
Defined.

(** X4. login reports through authError what it throws: it sends exactly
    its own request; when it throws, what it throws is an Error whose
    message is the one left in authError; when it returns, authError is
    null; either way isLoading ends false. *)
Theorem login_reports (env : option string) (backend : Backend) (w : World)
    (email password : string) :
  let run := useAdminStore.login env backend email password w in
  sent (state_of run)
  = (sent w ++ [useAdminStore.login_request env email password])%list
  /\ isLoading (store (state_of run)) = false
  /\ match outcome_of run with
     | Returned _ => authError (store (state_of run)) = None
     | Threw e =>
         exists msg, e = ErrorObj msg
                     /\ authError (store (state_of run)) = Some msg
     end.
Proof.
  change (wp (useAdminStore.login env backend email password)
            (fun o w' =>
               sent w'
               = (sent w ++ [useAdminStore.login_request env email password])%list
               /\ isLoading (store w') = false
               /\ match o with
                  | Returned _ => authError (store w') = None
                  | Threw e =>
                      exists msg, e = ErrorObj msg
                                  /\ authError (store w') = Some msg
                  end) w).
  destruct w as [s ls sn al nv co ce], s.
  wp_run; simpl; eauto.
Qed.

(** ** Reading one package *)

(** X5. fetchPackageById never throws and never touches the store or
    localStorage, and it neither alerts nor navigates nor writes a page's
    state: it sends its one request; when the request fails it
    returns null and logs the error on the console; when the request
    succeeds and the response's data can be read it returns
    [response.data.data || response.data] and logs nothing. *)
Theorem fetchPackageById_reads_only (env : option string) (backend : Backend)
    (w : World) (id : string) :
  let req := useAdminStore.package_request env (store w) id in
  let run := useAdminStore.fetchPackageById env backend id w in
  (exists v, outcome_of run = Returned v)
  /\ store (state_of run) = store w
  /\ localStorage (state_of run) = localStorage w
  /\ (alerts (state_of run), navigations (state_of run), cells (state_of run))
     = (alerts w, navigations w, cells w)
  /\ sent (state_of run) = (sent w ++ [req])%list
  /\ (failed (backend (sent w) req) = true ->
      outcome_of run = Returned JNull
      /\ exists e, console (state_of run)
                   = (console w ++ [("Error fetching package by ID:", e)])%list)
  /\ (forall inner,
         failed (backend (sent w) req) = false ->
         get_prop (reply_data (backend (sent w) req)) "data" = Some inner ->
         outcome_of run
         = Returned (js_or inner (reply_data (backend (sent w) req)))
         /\ console (state_of run) = console w).
Proof.
  intros req run. subst req run.
  unfold useAdminStore.fetchPackageById; unfold_M.
  split; [|split; [|split; [|split; [|split; [|split]]]]].
  - unfold axios. simpl. repeat case_match; simplify_eq/=; eauto.
  - unfold axios. simpl. repeat case_match; simplify_eq/=; done.
  - unfold axios. simpl. repeat case_match; simplify_eq/=; done.
  - unfold axios. simpl. repeat case_match; simplify_eq/=; done.
  - unfold axios. simpl. repeat case_match; simplify_eq/=; done.
  - intros Hf. destruct (axios_failed _ _ _ Hf) as [msg ->]. simpl. eauto.
  - intros inner Hok Hdata. rewrite (axios_ok _ _ _ Hok). simpl.
    by rewrite Hdata.
Qed.

Lemma fetchPackageById_reads_only_witness :
  outcome_of (useAdminStore.fetchPackageById None backend_down "p1" logged_in)
  = Returned JNull
  /\ outcome_of (useAdminStore.fetchPackageById None backend_bare "p1"
                   logged_in)
     = Returned (JArr [sample_package]).
Proof.
  split.
  - pose proof (fetchPackageById_reads_only None backend_down logged_in "p1")
      as (_ & _ & _ & _ & _ & H & _).
    by destruct (H eq_refl) as [Hnull _].
  - pose proof (fetchPackageById_reads_only None backend_bare logged_in "p1")
      as (_ & _ & _ & _ & _ & _ & H).
    apply (H JUndefined); reflexivity.
Defined.

(** ** What the store's operations leave alone *)

(** X6. No operation of the store navigates, alerts or touches a page's
    cells, and none writes a localStorage item other than its own
    snapshot. *)
Theorem store_ops_stay_in_store (env : option string) (backend : Backend)
    (op : StoreOp) (w : World) :
  let w' := state_of (run_store_op env backend op w) in
  navigations w' = navigations w
  /\ alerts w' = alerts w
  /\ cells w' = cells w
  /\ items (localStorage w') = items (localStorage w).
Proof.
  change (wp (run_store_op env backend op)
            (fun _ w' =>
               navigations w' = navigations w
               /\ alerts w' = alerts w
               /\ cells w' = cells w
               /\ items (localStorage w') = items (localStorage w)) w).
  destruct w as [s ls sn al nv co ce].
  destruct op as [f|m| | | |]; [destruct f|destruct m| | | |];
    cbn [run_store_op run_fetch run_mutation]; wp_run; done.
Qed.

Lemma run_fetch_own_fields env backend f w :
  without_own_fields f (store w) (store (state_of (run_fetch env backend f w)))
  = store w.
Proof.
  change (wp (run_fetch env backend f)
            (fun _ w' => without_own_fields f (store w) (store w') = store w) w).
  destruct w as [s ls sn al nv co ce], s.
  destruct f; cbn [run_fetch]; wp_run; done.
Qed.

(** X7. A fetch writes its own fields only: fetchHealthStatus writes
    healthData, loading and error, fetchPackages writes packages,
    packagesLoading and packagesError, the two review fetches write
    reviews, reviewsPagination, reviewsLoading and reviewsError, and every
    other field of the store is as it was, whatever the backend answers.
    A mutation wrapper writes no more than the fetch of its list. *)
Theorem fetch_writes_own_fields (env : option string) (backend : Backend)
    (w : World) :
  (forall f : ListFetch,
      without_own_fields f (store w)
        (store (state_of (run_fetch env backend f w)))
      = store w)
  /\ (forall m : Mutation,
         without_own_fields (list_of m) (store w)
           (store (state_of (run_mutation env backend m w)))
         = store w).
Proof.
  split; [intros f; apply run_fetch_own_fields|].
  intros m.
  change (wp (run_mutation env backend m)
            (fun _ w' =>
               without_own_fields (list_of m) (store w) (store w') = store w) w).
  destruct w as [s ls sn al nv co ce], s.
  destruct m; cbn [run_mutation list_of]; wp_run; done.
Qed.

(** ** Refreshing the access token *)

(** X8. refreshAccessToken sends its request exactly when the stored
    refresh token is truthy: with a null, undefined or empty refresh token
    it throws 'No refresh token available' and leaves the world as it
    was, and otherwise it sends the one refresh request. *)
Theorem refreshAccessToken_guard (env : option string) (backend : Backend)
    (w : World) :
  let run := useAdminStore.refreshAccessToken env backend w in
  (truthy (refreshToken (store w)) = false ->
   run = (Threw (ErrorObj "No refresh token available"), w))
  /\ (truthy (refreshToken (store w)) = true ->
      sent (state_of run)
      = (sent w ++ [useAdminStore.refresh_request env
                      (refreshToken (store w))])%list).
Proof.
  intros run. subst run. unfold useAdminStore.refreshAccessToken; unfold_M.
  split; intros ->; [done|]. simpl. unfold axios, useAdminStore.logout.
  unfold_M. repeat case_match; simplify_eq/=; done.
Qed.

Lemma refreshAccessToken_guard_witness :
  useAdminStore.refreshAccessToken None backend_down empty_refresh_token
  = (Threw (ErrorObj "No refresh token available"), empty_refresh_token)
  /\ sent (state_of (useAdminStore.refreshAccessToken None backend_down
                       logged_in))
     = (sent logged_in
        ++ [useAdminStore.refresh_request None
              (refreshToken (store logged_in))])%list.
Proof.
  split.
  - apply (refreshAccessToken_guard None backend_down empty_refresh_token).
    reflexivity.
  - apply (refreshAccessToken_guard None backend_down logged_in).
    reflexivity.
Defined.

(** X9. A refresh that fails ends the session for good: it throws
    'Session expired. Please login again.', user, accessToken and
    refreshToken are null, and checkAuthStatus is false afterwards and
    still false after a reload. *)
Theorem failed_refresh_ends_session (env : option string) (backend : Backend)
    (w : World) :
  let req := useAdminStore.refresh_request env (refreshToken (store w)) in
  let run := useAdminStore.refreshAccessToken env backend w in
  let w' := state_of run in
  truthy (refreshToken (store w)) = true ->
  failed (backend (sent w) req) = true ->
  outcome_of run = Threw (ErrorObj "Session expired. Please login again.")
  /\ auth_fields (store w') = (JNull, JNull, JNull)
  /\ useAdminStore.checkAuthStatus (store w') = false
  /\ useAdminStore.checkAuthStatus (store (reload w')) = false.
Proof.
  intros req run w' Htok Hfail. subst req run w'.
  rewrite (refreshAccessToken_failed env backend w Htok Hfail).
  by destruct w as [s ls sn al nv co ce], s.
Qed.

Lemma failed_refresh_ends_session_witness :
  useAdminStore.checkAuthStatus (store logged_in) = true
  /\ useAdminStore.checkAuthStatus
       (store (reload (state_of (useAdminStore.refreshAccessToken None
                                   backend_down logged_in))))
     = false.
Proof.
  split; [reflexivity|].
  pose proof (failed_refresh_ends_session None backend_down logged_in
                eq_refl eq_refl) as (_ & _ & _ & H).
  exact H.
Defined.

(** * Further properties of the pages *)

(** ** The reviews page's filter and pagination *)

Lemma on_effect_request env backend page filter w :
  useAdminStore.checkAuthStatus (store w) = true ->
  sent (state_of (ReviewsPage.on_effect env backend page filter w))
  = (sent w ++ [useAdminStore.allReviews_request env (store w) page 10
                  filter])%list.
Proof.
  intros Hc. unfold ReviewsPage.on_effect; unfold_M. rewrite Hc. simpl.
  apply (run_fetch_sent env backend (FetchAllReviews page 10 filter) w).
Qed.

(** X10. The filter's select and handleFilterChange agree: choosing the
    value the select shows for a filter sets that filter; an unknown value
    leaves the filter as it was; in every case the page goes back to 1.
    For a logged-in admin the effect that follows then asks for page 1,
    limit 10 of the list so filtered, 'unverified' being sent as
    verified=false. *)
Theorem handleFilterChange_select (env : option string) (backend : Backend) :
  (forall v v0 : ReviewsPage.View,
      ReviewsPage.handleFilterChange (ReviewsPage.select_value v) v0
      = {| ReviewsPage.filterVerified := ReviewsPage.filterVerified v;
           ReviewsPage.currentPage := 1 |})
  /\ (forall (value : string) (v0 : ReviewsPage.View),
         value <> "all" -> value <> "verified" -> value <> "unverified" ->
         ReviewsPage.handleFilterChange value v0
         = {| ReviewsPage.filterVerified := ReviewsPage.filterVerified v0;
              ReviewsPage.currentPage := 1 |})
  /\ (forall (v v0 : ReviewsPage.View) (w : World),
         useAdminStore.checkAuthStatus (store w) = true ->
         sent (state_of (ReviewsPage.effect_of env backend
                           (ReviewsPage.handleFilterChange
                              (ReviewsPage.select_value v) v0) w))
         = (sent w
            ++ [useAdminStore.allReviews_request env (store w) 1 10
                  (ReviewsPage.filterVerified v)])%list)
  /\ url (useAdminStore.allReviews_request env initial_state 1 10 (Some false))
     = useAdminStore.API_BASE_URL env
       ++ "/admin/reviews?page=1&limit=10&verified=false".
Proof.
  split; [|split; [|split]].
  - intros [[[]|] p] v0; reflexivity.
  - intros value v0 H1 H2 H3. unfold ReviewsPage.handleFilterChange.
    apply String.eqb_neq in H1, H2, H3. by rewrite H1, H2, H3.
  - intros v v0 w Hc. unfold ReviewsPage.effect_of.
    rewrite (on_effect_request env backend _ _ w Hc).
    by destruct v as [[[]|] p].
  - vm_compute (pretty 1%Z). vm_compute (pretty 10%Z). reflexivity.
Qed.

Lemma handleFilterChange_select_witness :
  ReviewsPage.handleFilterChange "something else"
    {| ReviewsPage.filterVerified := Some true; ReviewsPage.currentPage := 4 |}
  = {| ReviewsPage.filterVerified := Some true; ReviewsPage.currentPage := 1 |}
  /\ sent (state_of (ReviewsPage.effect_of None backend_down
                       (ReviewsPage.handleFilterChange "unverified"
                          ReviewsPage.initial_view) logged_in))
     = (sent logged_in
        ++ [useAdminStore.allReviews_request None (store logged_in) 1 10
              (Some false)])%list.
Proof.
  split.
  - apply (proj1 (proj2 (handleFilterChange_select None backend_down)));
      discriminate.
  - apply (proj1 (proj2 (proj2 (handleFilterChange_select None backend_down)))
             {| ReviewsPage.filterVerified := Some false;
                ReviewsPage.currentPage := 7 |}
             ReviewsPage.initial_view logged_in).
    reflexivity.
Defined.

(** X11. The pagination buttons keep the page in range: from a page
    between 1 and [pages], Previous and Next ask for a page between 1 and
    [pages] and leave the filter alone; a button is disabled exactly when
    its click would ask for the page already shown, and a button that is
    not disabled moves the page by exactly one, Previous down and Next
    up. *)
Theorem pagination_in_range (pages : Z) (v : ReviewsPage.View) :
  (1 <= ReviewsPage.currentPage v <= pages)%Z ->
  (1 <= ReviewsPage.currentPage (ReviewsPage.previous_click v) <= pages)%Z
  /\ (1 <= ReviewsPage.currentPage (ReviewsPage.next_click pages v) <= pages)%Z
  /\ ReviewsPage.filterVerified (ReviewsPage.previous_click v)
     = ReviewsPage.filterVerified v
  /\ ReviewsPage.filterVerified (ReviewsPage.next_click pages v)
     = ReviewsPage.filterVerified v
  /\ (ReviewsPage.previous_disabled v = true
      <-> ReviewsPage.previous_click v = v)
  /\ (ReviewsPage.next_disabled pages v = true
      <-> ReviewsPage.next_click pages v = v)
  /\ (ReviewsPage.previous_disabled v = false ->
      ReviewsPage.currentPage (ReviewsPage.previous_click v)
      = (ReviewsPage.currentPage v - 1)%Z)
  /\ (ReviewsPage.next_disabled pages v = false ->
      ReviewsPage.currentPage (ReviewsPage.next_click pages v)
      = (ReviewsPage.currentPage v + 1)%Z).
Proof.
  destruct v as [f p]. unfold ReviewsPage.previous_click,
    ReviewsPage.next_click, ReviewsPage.previous_disabled,
    ReviewsPage.next_disabled, ReviewsPage.handlePageChange. simpl.
  intros Hp. repeat split; try lia.
  - intros H%Z.eqb_eq. subst p. reflexivity.
  - intros [= H]. apply Z.eqb_eq. lia.
  - intros H%Z.eqb_eq. subst p. f_equal. lia.
  - intros [= H]. apply Z.eqb_eq. lia.
Qed.

Lemma pagination_in_range_witness :
  ReviewsPage.currentPage
    (ReviewsPage.next_click 3
       {| ReviewsPage.filterVerified := None; ReviewsPage.currentPage := 3 |})
  = 3%Z
  /\ (1 <= ReviewsPage.currentPage
             (ReviewsPage.previous_click
                {| ReviewsPage.filterVerified := None;
                   ReviewsPage.currentPage := 3 |}) <= 3)%Z.
Proof.
  assert (H : (1 <= 3 <= 3)%Z) by lia.
  pose proof (pagination_in_range 3
                {| ReviewsPage.filterVerified := None;
                   ReviewsPage.currentPage := 3 |} H)
    as (Hprev & _ & _ & _ & _ & Hnext & _).
  split; [|exact Hprev].
  apply (f_equal ReviewsPage.currentPage (proj1 Hnext eq_refl)).
Defined.

(** ** Handlers that ask first *)

(** Runs an operation, keeping at its first request whether it failed. *)
Ltac wp_to_request :=
  repeat lazymatch goal with
    | |- wp (axios _ _) _ _ => fail
    | |- wp (fetch _ _) _ _ => fail
    | _ => first [wp_step | progress unfold_store | progress unfold_pages]
    end.

(** Runs an operation of a page to its end. *)
Ltac wp_run_pages :=
  repeat first [wp_step | progress unfold_store | progress unfold_pages].

(** X12. The handlers that ask for confirmation (approving and deleting a
    review, deleting a package) do nothing at all when the answer is no.
    When it is yes they never throw and alert exactly once: the success
    message when the mutation's request succeeded, the failure message
    when it failed. *)
Theorem confirmed_handlers_alert_once (env : option string)
    (backend : Backend) (op : ConsoleOp) (confirmed : bool) (m : Mutation)
    (success failure : string) (w : World) :
  confirmed_mutation op = Some (confirmed, m, success, failure) ->
  let run := run_op env backend op w in
  let req := mutation_request env m (store w) in
  (confirmed = false -> run = (Returned JUndefined, w))
  /\ (confirmed = true ->
      outcome_of run = Returned JUndefined
      /\ alerts (state_of run)
         = (alerts w
            ++ [if failed (backend (sent w) req) then failure else success])%list).
Proof.
  intros Hop run req. subst run req.
  destruct op; try discriminate Hop; injection Hop as <- <- <- <-;
    (split; intros ->; [reflexivity|]);
    cbn [run_op mutation_request];
    match goal with
    | |- outcome_of (?m w) = _ /\ alerts (state_of (?m w)) = ?l =>
        change (wp m (fun o w' => o = Returned JUndefined /\ alerts w' = l) w)
    end;
    destruct w as [s ls sn al nv co ce], s;
    wp_to_request;
    (apply wp_axios_cases;
     [intros Hf; wp_run; simpl in *; by rewrite Hf
     |intros Hf msg; wp_run; simpl in *; by rewrite Hf]).
Qed.

Lemma confirmed_handlers_alert_once_witness :
  run_op None backend_down (Reviews_handleDelete false "r1") logged_in
  = (Returned JUndefined, logged_in)
  /\ alerts (state_of (run_op None backend_down
                         (Packages_handleDelete true "p1") logged_in))
     = (alerts logged_in ++ ["Failed to delete package"])%list.
Proof.
  split.
  - apply (confirmed_handlers_alert_once None backend_down
             (Reviews_handleDelete false "r1") false (DeleteReview "r1")
             "Review deleted successfully" "Failed to delete review"
             logged_in eq_refl).
    reflexivity.
  - apply (confirmed_handlers_alert_once None backend_down
             (Packages_handleDelete true "p1") true (DeletePackage "p1")
             "Package deleted successfully" "Failed to delete package"
             logged_in eq_refl).
    reflexivity.
Defined.

(** ** Mounting a page *)

(** X13. A guarded page that is mounted without a valid session (the
    packages, create, edit, carousel, bookings and reviews pages) does one
    thing: it goes to /admin-login. It sends no request and changes
    nothing else. *)
Theorem guarded_mount_redirects (env : option string) (backend : Backend)
    (op : ConsoleOp) (w : World) :
  guarded_mount op = true ->
  useAdminStore.checkAuthStatus (store w) = false ->
  run_op env backend op w
  = (Returned JUndefined, record_navigation "/admin-login" w).
Proof.
  intros Hg Hc.
  destruct op; try discriminate Hg; cbn [run_op]; unfold void;
    unfold_pages; unfold_M; by rewrite Hc.
Qed.

Lemma guarded_mount_redirects_witness :
  run_op None backend_down Bookings_mount (new_session empty_storage)
  = (Returned JUndefined,
     record_navigation "/admin-login" (new_session empty_storage)).
Proof.
  apply (guarded_mount_redirects None backend_down Bookings_mount
           (new_session empty_storage)); reflexivity.
Defined.

(** X14. The home page redirects once and only redirects: to /dashboard
    when checkAuthStatus holds and to /admin-login otherwise; its second
    test, of the accessToken, never decides. *)
Theorem home_redirects (w : World) :
  HomePage.on_mount w
  = (Returned tt,
     record_navigation
       (if useAdminStore.checkAuthStatus (store w)
        then "/dashboard" else "/admin-login") w).
Proof.
  unfold HomePage.on_mount; unfold_M.
  destruct (useAdminStore.checkAuthStatus (store w)) eqn:Hc; [|done].
  apply checkAuthStatus_true in Hc as (_ & -> & _). done.
Qed.

(** ** The bookings page *)

(** X15. deleteBooking does nothing when the confirmation is refused.
    Confirmed, it never throws and sends the DELETE of the booking first:
    when that fails it alerts 'Failed to delete booking' and sends nothing
    more; when it succeeds it alerts nothing and fetches the bookings
    again. *)
Theorem deleteBooking_cases (env : option string) (backend : Backend)
    (bookingId : string) (w : World) :
  let delete :=
    {| method := DELETE;
       url := BookingsPage.baseUrl env ++ "/bookings/" ++ bookingId;
       headers := BookingsPage.json_headers (BookingsPage.adminToken w);
       body := NoBody; timeout := None |} in
  let refetch :=
    {| method := GET; url := BookingsPage.baseUrl env ++ "/bookings";
       headers := BookingsPage.json_headers (BookingsPage.adminToken w);
       body := NoBody; timeout := None |} in
  let run := BookingsPage.deleteBooking env backend true bookingId w in
  BookingsPage.deleteBooking env backend false bookingId w = (Returned tt, w)
  /\ outcome_of run = Returned tt
  /\ (failed (backend (sent w) delete) = true ->
      sent (state_of run) = (sent w ++ [delete])%list
      /\ alerts (state_of run)
         = (alerts w ++ ["Failed to delete booking"])%list)
  /\ (failed (backend (sent w) delete) = false ->
      sent (state_of run) = (sent w ++ [delete; refetch])%list
      /\ alerts (state_of run) = alerts w).
Proof.
  intros delete refetch run. split; [done|]. subst run.
  change (wp (BookingsPage.deleteBooking env backend true bookingId)
            (fun o w' =>
               o = Returned tt
               /\ (failed (backend (sent w) delete) = true ->
                   sent w' = (sent w ++ [delete])%list
                   /\ alerts w'
                      = (alerts w ++ ["Failed to delete booking"])%list)
               /\ (failed (backend (sent w) delete) = false ->
                   sent w' = (sent w ++ [delete; refetch])%list
                   /\ alerts w' = alerts w)) w).
  subst delete refetch.
  destruct w as [s ls sn al nv co ce].
  unfold BookingsPage.deleteBooking; cbn [negb]. wp_to_request.
  apply wp_fetch_cases.
  - intros st p E. wp_run_pages; simpl in *; rewrite ?E; simpl;
      (split; [done|]); split; intros Hf; try congruence;
      rewrite <- ?app_assoc; done.
  - intros msg E. wp_run_pages; simpl in *; rewrite ?E; simpl.
    split; [done|]. split; [done|]. intros Hf; discriminate Hf.
Qed.

Lemma deleteBooking_cases_witness :
  alerts (state_of (BookingsPage.deleteBooking None backend_down true "b1"
                      logged_in))
  = (alerts logged_in ++ ["Failed to delete booking"])%list
  /\ length (sent (state_of (BookingsPage.deleteBooking None
                               (backend_ok (JArr [])) true "b1" logged_in)))
     = (length (sent logged_in) + 2)%nat.
Proof.
  split.
  - apply (deleteBooking_cases None backend_down "b1" logged_in).
    reflexivity.
  - pose proof (deleteBooking_cases None (backend_ok (JArr [])) "b1" logged_in)
      as (_ & _ & _ & H).
    destruct (H eq_refl) as [-> _]. apply length_app.
Defined.

(** Closes the cases of a page's run against the reply on record. *)
Ltac world_cbn :=
  unfold BookingsPage.adminToken in *;
  cbn [store localStorage sent alerts navigations console cells with_cell
       with_store record_request record_navigation record_alert
       record_console ok status payload] in *.

Ltac by_reply E :=
  world_cbn; intros;
  repeat match goal with
    | H : negb _ = true |- _ => apply negb_true_iff in H
    | H : negb _ = false |- _ => apply negb_false_iff in H
    | H : (_ =? _)%Z = true |- _ => apply Z.eqb_eq in H; subst
    | H : (_ =? _)%Z = false |- _ => apply Z.eqb_neq in H
    | H : _ = HttpResponse _ _ |- _ =>
        lazymatch H with
        | E => fail
        | _ => rewrite E in H; simplify_eq
        end
    | H : _ = NetworkError _ |- _ =>
        lazymatch H with
        | E => fail
        | _ => rewrite E in H; simplify_eq
        end
    | H : failed (_ _ _) = _ |- _ => rewrite E in H; cbn [failed] in H
    end;
  try match goal with
    | H1 : ?x = true, H2 : ?x = false |- _ =>
        rewrite H1 in H2; discriminate H2
    | H : ?a <> ?a |- _ => destruct H; reflexivity
    | H : status_ok _ = true |- _ => by vm_compute in H
    end.

Ltac by_cells :=
  repeat split;
  repeat (rewrite lookup_insert_eq || (rewrite lookup_insert_ne by done));
  reflexivity.

(** X16. fetchBookings, when the server answers 2xx with JSON, holds that
    body as the bookings and stops loading, and touches neither the
    session nor the error it showed before: an earlier error stays. On a
    401 it ends the session and goes to /admin-login, again leaving the
    error and the bookings as they were. It alerts in neither case. *)
Theorem fetchBookings_answered (env : option string) (backend : Backend)
    (w : World) :
  let req :=
    {| method := GET; url := BookingsPage.baseUrl env ++ "/bookings";
       headers := BookingsPage.json_headers (BookingsPage.adminToken w);
       body := NoBody; timeout := None |} in
  let w' := state_of (BookingsPage.fetchBookings env backend w) in
  (forall st body,
      backend (sent w) req = HttpResponse st (Json body) ->
      status_ok st = true ->
      cells w' !! "bookings" = Some body
      /\ cells w' !! "loading" = Some (JBool false)
      /\ cells w' !! "error" = cells w !! "error"
      /\ store w' = store w
      /\ navigations w' = navigations w
      /\ alerts w' = alerts w)
  /\ (forall p,
      backend (sent w) req = HttpResponse 401 p ->
      useAdminStore.checkAuthStatus (store w') = false
      /\ navigations w' = (navigations w ++ ["/admin-login"])%list
      /\ cells w' !! "loading" = Some (JBool false)
      /\ cells w' !! "error" = cells w !! "error"
      /\ cells w' !! "bookings" = cells w !! "bookings"
      /\ alerts w' = alerts w).
Proof.
  intros req w'. subst w'.
  change (wp (BookingsPage.fetchBookings env backend)
            (fun _ w' =>
               (forall st body,
                   backend (sent w) req = HttpResponse st (Json body) ->
                   status_ok st = true ->
                   cells w' !! "bookings" = Some body
                   /\ cells w' !! "loading" = Some (JBool false)
                   /\ cells w' !! "error" = cells w !! "error"
                   /\ store w' = store w
                   /\ navigations w' = navigations w
                   /\ alerts w' = alerts w)
               /\ (forall p,
                   backend (sent w) req = HttpResponse 401 p ->
                   useAdminStore.checkAuthStatus (store w') = false
                   /\ navigations w' = (navigations w ++ ["/admin-login"])%list
                   /\ cells w' !! "loading" = Some (JBool false)
                   /\ cells w' !! "error" = cells w !! "error"
                   /\ cells w' !! "bookings" = cells w !! "bookings"
                   /\ alerts w' = alerts w)) w).
  subst req. destruct w as [s ls sn al nv co ce], s.
  unfold BookingsPage.fetchBookings. wp_to_request.
  apply wp_fetch_cases.
  - intros st p E. wp_run_pages; (split; by_reply E); by_cells.
  - intros msg E. wp_run_pages; (split; by_reply E).
Qed.

Lemma fetchBookings_answered_witness :
  cells (state_of (BookingsPage.fetchBookings None
                     (backend_ok (JArr sample_bookings))
                     (with_cell "error" (JStr "Failed to fetch bookings")
                        logged_in)))
  !! "error"
  = Some (JStr "Failed to fetch bookings")
  /\ navigations (state_of (BookingsPage.fetchBookings None
                              (backend_status 401) logged_in))
     = (navigations logged_in ++ ["/admin-login"])%list.
Proof.
  split.
  - pose proof (fetchBookings_answered None (backend_ok (JArr sample_bookings))
                  (with_cell "error" (JStr "Failed to fetch bookings")
                     logged_in)) as [H _].
    destruct (H 200 (JArr sample_bookings) eq_refl eq_refl)
      as (_ & _ & -> & _).
    reflexivity.
  - pose proof (fetchBookings_answered None (backend_status 401) logged_in)
      as [_ H].
    destruct (H (Text "") eq_refl) as (_ & -> & _). reflexivity.
Defined.

(** The filter of the bookings page on a list without null elements. *)
Lemma filter_by_status_filter (selectedStatus : string)
    (bookings : list JsVal) :
  Forall (fun booking => nullish booking = false) bookings ->
  BookingsPage.filter_by_status selectedStatus bookings
  = Returned (List.filter (has_status selectedStatus) bookings).
Proof.
  induction 1 as [|booking rest Hb _ IH]; [done|].
  cbn [BookingsPage.filter_by_status List.filter]. rewrite IH.
  unfold has_status. by destruct booking.
Qed.

(** X17. With a status selected, the bookings shown are exactly the
    bookings held whose status is that string, in their order, provided no
    element of the list is null or undefined; when one is, the render
    throws a TypeError. Only the filter 'all' shows every booking. *)
Theorem filteredBookings_shown (selectedStatus : string)
    (bookings : list JsVal) :
  selectedStatus <> "all" ->
  (Forall (fun booking => nullish booking = false) bookings ->
   BookingsPage.filteredBookings selectedStatus bookings
   = Returned (List.filter (has_status selectedStatus) bookings))
  /\ (forall booking,
        In booking bookings -> nullish booking = true ->
        exists v, BookingsPage.filteredBookings selectedStatus bookings
                  = Threw (TypeError_read v "status")
                  /\ nullish v = true).
Proof.
  intros Hsel. unfold BookingsPage.filteredBookings.
  apply String.eqb_neq in Hsel. rewrite Hsel. clear Hsel. split.
  - apply filter_by_status_filter.
  - induction bookings as [|b rest IH]; intros booking Hin Hn; [destruct Hin|].
    cbn [BookingsPage.filter_by_status].
    destruct (get_prop b "status") as [status|] eqn:Hb.
    + destruct Hin as [->|Hin]; [by destruct booking|].
      destruct (IH _ Hin Hn) as (v & -> & Hv). eauto.
    + exists b. split; [done|]. by destruct b.
Qed.

Lemma filteredBookings_shown_witness :
  BookingsPage.filteredBookings "PENDING" sample_bookings
  = Returned [JObj [("id", JStr "b1"); ("status", JStr "PENDING")];
              JObj [("id", JStr "b3"); ("status", JStr "PENDING")]].
Proof.
  assert (H : "PENDING" <> "all") by discriminate.
  pose proof (filteredBookings_shown "PENDING" sample_bookings H) as [Hf _].
  etrans; [apply Hf; by repeat constructor|reflexivity].
Defined.

(** X18. Under the four status filters every booking with one of the four
    statuses is shown exactly once: under the filter of its own status
    and under no other. *)
Theorem filteredBookings_partition (bookings : list JsVal)
    (s : BookingsPage.BookingStatus) (booking : JsVal) :
  Forall (fun b => nullish b = false) bookings ->
  In booking bookings ->
  get_prop booking "status" = Some (JStr (BookingsPage.status_name s)) ->
  forall s' : BookingsPage.BookingStatus,
    (exists shown,
        BookingsPage.filteredBookings (BookingsPage.status_name s') bookings
        = Returned shown
        /\ In booking shown)
    <-> s' = s.
Proof.
  intros Hall Hin Hs s'.
  assert (Hf : BookingsPage.filteredBookings (BookingsPage.status_name s')
                 bookings
               = Returned (List.filter
                             (has_status (BookingsPage.status_name s'))
                             bookings)).
  { unfold BookingsPage.filteredBookings.
    rewrite <- (filter_by_status_filter _ _ Hall). by destruct s'. }
  rewrite Hf. split.
  - intros (shown & [= <-] & Hshown).
    apply filter_In in Hshown as [_ Hshown].
    unfold has_status in Hshown. rewrite Hs in Hshown.
    by destruct s, s'.
  - intros ->. eexists. split; [done|].
    apply filter_In. split; [done|].
    unfold has_status. rewrite Hs. by destruct s.
Qed.

Lemma filteredBookings_partition_witness :
  (exists shown,
      BookingsPage.filteredBookings "CONFIRMED" sample_bookings
      = Returned shown
      /\ In (JObj [("id", JStr "b2"); ("status", JStr "CONFIRMED")]) shown)
  <-> BookingsPage.CONFIRMED = BookingsPage.CONFIRMED.
Proof.
  refine (filteredBookings_partition sample_bookings BookingsPage.CONFIRMED
            (JObj [("id", JStr "b2"); ("status", JStr "CONFIRMED")])
            _ _ _ BookingsPage.CONFIRMED).
  - by repeat constructor.
  - simpl. tauto.
  - reflexivity.
Defined.

(** X19. The badge classes tell the four statuses apart, and a status
    that is none of CONFIRMED, COMPLETED and CANCELLED is shown as
    PENDING is. *)
Theorem getStatusColor_distinct :
  (forall s1 s2 : BookingsPage.BookingStatus,
      BookingsPage.getStatusColor (BookingsPage.status_name s1)
      = BookingsPage.getStatusColor (BookingsPage.status_name s2) ->
      s1 = s2)
  /\ (forall status : string,
        (forall s, s <> BookingsPage.PENDING ->
                   status <> BookingsPage.status_name s) ->
        BookingsPage.getStatusColor status
        = BookingsPage.getStatusColor "PENDING").
Proof.
  split.
  - by intros [] [].
  - intros status H. unfold BookingsPage.getStatusColor.
    pose proof (H BookingsPage.CONFIRMED) as H1.
    pose proof (H BookingsPage.COMPLETED) as H2.
    pose proof (H BookingsPage.CANCELLED) as H3.
    destruct (String.eqb_spec status "CONFIRMED") as [E|_];
      [by destruct H1|].
    destruct (String.eqb_spec status "COMPLETED") as [E|_];
      [by destruct H2|].
    destruct (String.eqb_spec status "CANCELLED") as [E|_];
      [by destruct H3|].
    reflexivity.
Qed.

Lemma getStatusColor_distinct_witness :
  BookingsPage.getStatusColor "confirmed"
  = BookingsPage.getStatusColor "PENDING".
Proof.
  apply (proj2 getStatusColor_distinct "confirmed").
  by intros [] ?.
Defined.

(** ** The forms *)

Lemma lookup_field_set (k field : string) (v : JsVal)
    (fields : list (string * JsVal)) :
  lookup_field k ((field, v) :: fields)
  = if String.eqb k field then v else lookup_field k fields.
Proof. reflexivity. Qed.

(** X20. updateForm sets the field of the form to the value and leaves
    the other fields as they were; after it the field has no validation
    error, and the errors of the other fields are as they were. It sends
    nothing and reports nothing. *)
Theorem updateForm_sets_field (initialForm : JsVal) (field : string)
    (value : JsVal) (w : World) (fields : list (string * JsVal)) :
  cell "form" initialForm w = JObj fields ->
  let form w := cell "form" initialForm w in
  let errors w := cell "errors" (JObj []) w in
  let w' := state_of (updateForm initialForm field value w) in
  outcome_of (updateForm initialForm field value w) = Returned tt
  /\ get_prop (form w') field = Some value
  /\ (forall k, k <> field -> get_prop (form w') k = get_prop (form w) k)
  /\ truthy (default JUndefined (get_prop (errors w') field)) = false
  /\ (forall k, k <> field -> get_prop (errors w') k = get_prop (errors w) k)
  /\ (store w', sent w', alerts w', navigations w')
     = (store w, sent w, alerts w, navigations w).
Proof.
  intros Hform form errors w'. subst form errors w'.
  unfold updateForm, cell in *; unfold_M.
  cbn [cells with_cell]. rewrite lookup_insert_ne by done.
  destruct (truthy _) eqn:Ht;
    cbn [fst snd cells with_cell store sent alerts navigations];
    repeat (rewrite lookup_insert_eq || (rewrite lookup_insert_ne by done));
    cbn [default]; rewrite Hform; cbn [set_field get_prop id].
  - split; [done|]. rewrite !lookup_field_set, String.eqb_refl.
    split; [done|]. split.
    { intros k Hk. apply String.eqb_neq in Hk.
      by rewrite lookup_field_set, Hk. }
    destruct (default (JObj []) (cells w !! "errors")) eqn:He;
      cbn [set_field get_prop default id] in *; try done.
    rewrite lookup_field_set, String.eqb_refl. split; [done|].
    split; [|done].
    intros k Hk. apply String.eqb_neq in Hk. by rewrite lookup_field_set, Hk.
  - split; [done|]. rewrite !lookup_field_set, String.eqb_refl.
    split; [done|]. split.
    { intros k Hk. apply String.eqb_neq in Hk.
      by rewrite lookup_field_set, Hk. }
    done.
Qed.

Lemma updateForm_sets_field_witness :
  get_prop (cell "form" CreatePackagePage.initialForm
              (state_of (updateForm CreatePackagePage.initialForm "title"
                           (JStr "Petra") logged_in)))
    "title"
  = Some (JStr "Petra").
Proof.
  pose proof (updateForm_sets_field CreatePackagePage.initialForm "title"
                (JStr "Petra") logged_in _ eq_refl) as (_ & H & _).
  exact H.
Defined.

Lemma get_prop_set_field (k : string) (v obj : JsVal) :
  get_prop (set_field k v obj) k = Some v.
Proof. destruct obj; cbn [set_field get_prop lookup_field]; by rewrite String.eqb_refl. Qed.

(** Closes what is left of a case, cell by cell. *)
Ltac by_form E :=
  unfold cell in *; repeat split; by_reply E; simplify_eq; repeat split;
  repeat (rewrite lookup_insert_eq || (rewrite lookup_insert_ne by done));
  cbn [default from_option id js_to_string];
  rewrite ?get_prop_set_field; try done.

(** X21. The image handlers of the form pages do nothing without a file.
    With one they never throw, send exactly one request, the POST of the
    file to /upload/image with the store's access token, and leave
    uploadingImage false. When the server answers 2xx with a JSON body
    whose data.url is a string, the form's image field becomes the base
    URL followed by that path and nothing is alerted; when the request
    fails, 'Failed to upload image' is alerted once and the form is left
    as it was. *)
Theorem handleUpload_cases (base : string) (backend : Backend)
    (initialForm : JsVal) (field file : string) (w : World) :
  let req :=
    {| method := POST; url := base ++ "/upload/image";
       headers := [("Authorization", Bearer (accessToken (store w)))];
       body := FormDataBody file; timeout := None |} in
  let run := handleUpload_at base backend initialForm field (Some file) w in
  handleUpload_at base backend initialForm field None w = (Returned tt, w)
  /\ outcome_of run = Returned tt
  /\ sent (state_of run) = (sent w ++ [req])%list
  /\ cells (state_of run) !! "uploadingImage" = Some (JBool false)
  /\ (forall st data inner path,
        backend (sent w) req = HttpResponse st (Json data) ->
        status_ok st = true ->
        get_prop data "data" = Some inner ->
        get_prop inner "url" = Some (JStr path) ->
        get_prop (cell "form" initialForm (state_of run)) field
        = Some (JStr (base ++ path))
        /\ alerts (state_of run) = alerts w)
  /\ (failed (backend (sent w) req) = true ->
      alerts (state_of run) = (alerts w ++ ["Failed to upload image"])%list
      /\ cells (state_of run) !! "form" = cells w !! "form").
Proof.
  intros req run. split; [done|]. subst run.
  change (wp (handleUpload_at base backend initialForm field (Some file))
            (fun o w' =>
               o = Returned tt
               /\ sent w' = (sent w ++ [req])%list
               /\ cells w' !! "uploadingImage" = Some (JBool false)
               /\ (forall st data inner path,
                     backend (sent w) req = HttpResponse st (Json data) ->
                     status_ok st = true ->
                     get_prop data "data" = Some inner ->
                     get_prop inner "url" = Some (JStr path) ->
                     get_prop (cell "form" initialForm w') field
                     = Some (JStr (base ++ path))
                     /\ alerts w' = alerts w)
               /\ (failed (backend (sent w) req) = true ->
                   alerts w' = (alerts w ++ ["Failed to upload image"])%list
                   /\ cells w' !! "form" = cells w !! "form")) w).
  subst req. destruct w as [s ls sn al nv co ce], s.
  unfold handleUpload_at, uploadImage_at, updateForm. wp_to_request.
  apply wp_fetch_cases.
  - intros st p E. wp_run_pages; by_form E.
  - intros msg E. wp_run_pages; by_form E.
Qed.

Lemma handleUpload_cases_witness :
  get_prop (cell "form" CreatePackagePage.initialForm
              (state_of (CreatePackagePage.handleCoverImageUpload None
                           backend_upload (Some "cover.png") logged_in)))
    "coverImage"
  = Some (JStr "http://localhost:3002/img/1.png")
  /\ alerts (state_of (EditCarouselPage.handleImageUpload None backend_down
                         (Some "slide.png") logged_in))
     = (alerts logged_in ++ ["Failed to upload image"])%list.
Proof.
  split.
  - pose proof (handleUpload_cases "http://localhost:3002" backend_upload
                  CreatePackagePage.initialForm "coverImage" "cover.png"
                  logged_in) as (_ & _ & _ & _ & H & _).
    destruct (H 201 _ _ "/img/1.png" eq_refl eq_refl eq_refl eq_refl)
      as [Hform _].
    exact Hform.
  - pose proof (handleUpload_cases "http://localhost:3002" backend_down
                  EditCarouselPage.initialForm "imageUrl" "slide.png"
                  logged_in) as (_ & _ & _ & _ & _ & H).
    destruct (H eq_refl) as [Halerts _]. exact Halerts.
Defined.

(** Two records of whether the same request failed that disagree. *)
Ltac contradict_failed :=
  match goal with
  | Hf : failed _ = _, Hf' : failed _ = _ |- _ =>
      let X := fresh in
      pose proof (eq_trans (eq_sym Hf) Hf') as X; discriminate X
  | E : _ = HttpResponse ?st _, Hf' : failed _ = _,
    Hb : negb (status_ok ?st) = _ |- _ =>
      let X := fresh in
      pose proof (eq_trans (eq_sym (f_equal failed E)) Hf') as X;
      cbn [failed] in X; rewrite Hb in X; discriminate X
  | E : _ = NetworkError _, Hf' : failed _ = false |- _ =>
      let X := fresh in
      pose proof (eq_trans (eq_sym (f_equal failed E)) Hf') as X;
      discriminate X
  end.

(** The end of a submit handler that sent its request. *)
Ltac by_submit :=
  split; [done|];
  split;
  [world_cbn;
   repeat (rewrite lookup_insert_eq || (rewrite lookup_insert_ne by done));
   done|];
  eexists _, _; split;
  [world_cbn; rewrite <- ?app_assoc; reflexivity|];
  split; intros Hf';
  cbn [ok status] in *; first [contradict_failed | done].

(** Runs a submit handler up to its request, on a form whose validation
    is known. *)
Ltac wp_to_request_valid H :=
  repeat (try (rewrite H; cbv beta iota); cbn [length Nat.eqb negb];
          lazymatch goal with
          | |- wp (axios _ _) _ _ => fail
          | |- wp (fetch _ _) _ _ => fail
          | _ => first [wp_step | progress unfold_store | progress unfold_pages]
          end).

(** X22. A submit handler of the form pages throws exactly when its
    validation throws, the same error, and then nothing has been sent or
    changed. When validation finds errors the handler records them and does
    nothing else: no request, no alert, no navigation. When it finds none
    the handler never throws and sends its request, and either that
    succeeds, the success message is alerted and the page leaves for its
    list, or it fails, the failure message is alerted, nothing further is
    sent and the page stays. In both cases exactly one alert is raised
    and loading ends false. *)
Theorem submit_handlers_cases (env : option string) (backend : Backend)
    (op : ConsoleOp) (validation : Outcome (list (string * JsVal)))
    (route success failure : string) (w : World) :
  submit_handler op w = Some (validation, route, success, failure) ->
  let run := run_op env backend op w in
  (forall e, validation = Threw e -> run = (Threw e, w))
  /\ (forall newErrors,
        validation = Returned newErrors -> newErrors <> [] ->
        run = (Returned JUndefined, with_cell "errors" (JObj newErrors) w))
  /\ (validation = Returned [] ->
      outcome_of run = Returned JUndefined
      /\ cells (state_of run) !! "loading" = Some (JBool false)
      /\ exists req rest,
          sent (state_of run) = (sent w ++ req :: rest)%list
          /\ (failed (backend (sent w) req) = false ->
              alerts (state_of run) = (alerts w ++ [success])%list
              /\ navigations (state_of run) = (navigations w ++ [route])%list)
          /\ (failed (backend (sent w) req) = true ->
              rest = []
              /\ alerts (state_of run) = (alerts w ++ [failure])%list
              /\ navigations (state_of run) = navigations w)).
Proof.
  intros Hop run. subst run. split; [|split].
  - intros e ->.
    destruct op; try discriminate Hop; cbn [submit_handler] in Hop;
      simplify_eq; cbn [run_op]; unfold void; unfold_pages; unfold_M;
      match goal with Hval : _ = Threw _ |- _ => by rewrite Hval end.
  - intros newErrors -> Hne.
    destruct op; try discriminate Hop; cbn [submit_handler] in Hop;
      simplify_eq; cbn [run_op]; unfold void; unfold_pages; unfold_M;
      match goal with
      | Hval : _ = Returned _ |- _ => rewrite Hval; by destruct newErrors
      end.
  - intros ->.
    change (wp (run_op env backend op)
              (fun o w' =>
                 o = Returned JUndefined
                 /\ cells w' !! "loading" = Some (JBool false)
                 /\ exists req rest,
                     sent w' = (sent w ++ req :: rest)%list
                     /\ (failed (backend (sent w) req) = false ->
                         alerts w' = (alerts w ++ [success])%list
                         /\ navigations w'
                            = (navigations w ++ [route])%list)
                     /\ (failed (backend (sent w) req) = true ->
                         rest = []
                         /\ alerts w' = (alerts w ++ [failure])%list
                         /\ navigations w' = navigations w)) w).
    destruct w as [s ls sn al nv co ce], s.
    destruct op; try discriminate Hop; cbn [submit_handler] in Hop;
      simplify_eq; cbn [run_op];
      try match goal with
          | Hval : _ = Returned [] |- _ =>
              wp_to_request_valid Hval
          end;
      wp_to_request;
      (first [ apply wp_axios_cases; [intros Hf|intros Hf msg]
             | apply wp_fetch_cases; [intros st p E|intros msg E] ]);
      wp_run_pages; by_submit.
Qed.

(** Submitting the create page's empty form, and a complete one while
    the backend is down. *)
Lemma submit_handlers_cases_witness :
  run_op None backend_down Create_handleSubmit logged_in
  = (Returned JUndefined,
     with_cell "errors"
       (JObj [("title", JStr "Title is required");
              ("description", JStr "Description is required");
              ("location", JStr "Location is required");
              ("price", JStr "Price must be greater than 0")])
       logged_in)
  /\ alerts (state_of (run_op None backend_down Create_handleSubmit
                         (with_cell "form" (loaded_form complete_package)
                            logged_in)))
     = (alerts logged_in
        ++ ["Failed to create package. Please try again."])%list.
Proof.
  split.
  - pose proof (submit_handlers_cases None backend_down Create_handleSubmit
                  _ _ _ _ logged_in eq_refl) as (_ & H & _).
    by apply H.
  - pose proof (submit_handlers_cases None backend_down Create_handleSubmit
                  _ _ _ _
                  (with_cell "form" (loaded_form complete_package) logged_in)
                  eq_refl) as (_ & _ & H).
    destruct (H eq_refl) as (_ & _ & req & rest & Hsent & _ & Hfail).
    assert (Hreq : req = useAdminStore.createPackage_request None
                           (store logged_in)
                           (loaded_form complete_package)).
    { apply (f_equal (fun l => drop (length (sent logged_in)) l)) in Hsent.
      by injection Hsent as <-. }
    subst req. by destruct (Hfail eq_refl) as (_ & Halerts & _).
Defined.

(** ** The edit page of a package *)

(** [find] reads the list only. *)
Lemma find_by_id_outcome (id : string) (items : list JsVal) (w w0 : World) :
  outcome_of (find_by_id id items w) = outcome_of (find_by_id id items w0).
Proof.
  induction items as [|x rest IH]; [done|].
  simpl. unfold read_prop; unfold_M.
  destruct (get_prop x "id") as [x_id|]; [|done]. simpl.
  destruct (strict_eq_str x_id id); [done|]. apply IH.
Qed.

Lemma wp_find_at (arr : JsVal) (id : string) Q (w w0 : World) :
  Q (outcome_of (js_find_by_id arr id w0)) w -> wp (js_find_by_id arr id) Q w.
Proof.
  unfold wp. destruct arr; try done.
  simpl. rewrite find_by_id_state. by rewrite (find_by_id_outcome _ _ w w0).
Qed.

(** Runs an operation up to its search of the store's packages. *)
Ltac wp_to_find :=
  repeat lazymatch goal with
    | |- wp (js_find_by_id _ _) _ _ => fail
    | _ => first [wp_step | progress unfold_store | progress unfold_pages]
    end.

(** X23. When the store already holds the package being edited,
    loadPackageData sends no request: it fills the form from the stored
    package, title, description, location, price, duration, category and
    difficulty as they are, the cover image or the empty string, and
    empty highlights whatever the package has. It alerts nothing, stays
    on the page and ends with fetchingPackage false. *)
Theorem loadPackageData_cached (env : option string) (backend : Backend)
    (packageId : string) (w : World) (pkg : JsVal) :
  outcome_of (js_find_by_id (packages (store w)) packageId w) = Returned pkg ->
  truthy pkg = true ->
  let run := EditPackagePage.loadPackageData env backend packageId w in
  outcome_of run = Returned tt
  /\ (store (state_of run), sent (state_of run), alerts (state_of run),
      navigations (state_of run))
     = (store w, sent w, alerts w, navigations w)
  /\ cells (state_of run) !! "fetchingPackage" = Some (JBool false)
  /\ exists form,
      cells (state_of run) !! "form" = Some form
      /\ (forall k,
            In k ["title"; "description"; "location"; "price"; "duration";
                  "category"; "difficulty"] ->
            get_prop form k = get_prop pkg k)
      /\ get_prop form "coverImage"
         = Some (js_or (default JUndefined (get_prop pkg "coverImage"))
                   (JStr ""))
      /\ get_prop form "highlights" = Some (JArr []).
Proof.
  intros Hfind Ht run. subst run.
  change (wp (EditPackagePage.loadPackageData env backend packageId)
            (fun o w' =>
               o = Returned tt
               /\ (store w', sent w', alerts w', navigations w')
                  = (store w, sent w, alerts w, navigations w)
               /\ cells w' !! "fetchingPackage" = Some (JBool false)
               /\ exists form,
                   cells w' !! "form" = Some form
                   /\ (forall k,
                         In k ["title"; "description"; "location"; "price";
                               "duration"; "category"; "difficulty"] ->
                         get_prop form k = get_prop pkg k)
                   /\ get_prop form "coverImage"
                      = Some (js_or (default JUndefined
                                       (get_prop pkg "coverImage"))
                                (JStr ""))
                   /\ get_prop form "highlights" = Some (JArr [])) w).
  wp_to_find. apply (wp_find_at _ _ _ _ w). cbn [store with_cell].
  rewrite Hfind. cbv beta iota.
  rewrite Ht. cbn [negb]. wp_step. wp_step. rewrite Ht.
  unfold EditPackagePage.form_of.
  destruct pkg; try discriminate Ht; wp_run_pages; try discriminate;
    cbn [get_prop] in *; simplify_eq; (split; [done|]); (split; [done|]);
    (split;
     [world_cbn;
      repeat (rewrite lookup_insert_eq || (rewrite lookup_insert_ne by done));
      done|]);
    eexists; (split;
     [world_cbn;
      repeat (rewrite lookup_insert_eq || (rewrite lookup_insert_ne by done));
      reflexivity|]);
    (split; [|done]);
    intros k Hk; cbn [In] in Hk;
    repeat (destruct Hk as [<-|Hk]; [reflexivity|]); destruct Hk.
Qed.

Lemma loadPackageData_cached_witness :
  let run := EditPackagePage.loadPackageData None backend_down "p1"
               with_packages in
  (store (state_of run), sent (state_of run), alerts (state_of run),
   navigations (state_of run))
  = (store with_packages, sent with_packages, alerts with_packages,
     navigations with_packages).
Proof.
  pose proof (loadPackageData_cached None backend_down "p1" with_packages
                sample_package eq_refl eq_refl) as (_ & H & _).
  exact H.
Defined.

(** The form a stored package is loaded into. *)
Lemma loadPackageData_cached_form (env : option string) (backend : Backend)
    (packageId : string) (w : World) (fields : list (string * JsVal)) :
  outcome_of (js_find_by_id (packages (store w)) packageId w)
  = Returned (JObj fields) ->
  let w' := state_of (EditPackagePage.loadPackageData env backend packageId w) in
  (store w', sent w') = (store w, sent w)
  /\ cells w' !! "form" = Some (loaded_form fields).
Proof.
  intros Hfind w'. subst w'.
  change (wp (EditPackagePage.loadPackageData env backend packageId)
            (fun _ w' =>
               (store w', sent w') = (store w, sent w)
               /\ cells w' !! "form" = Some (loaded_form fields)) w).
  wp_to_find. apply (wp_find_at _ _ _ _ w). cbn [store with_cell].
  rewrite Hfind. cbv beta iota.
  cbn [truthy negb]. wp_step. wp_step. cbn [truthy].
  unfold EditPackagePage.form_of.
  wp_run_pages; cbn [get_prop] in *; simplify_eq.
  split; [done|]. world_cbn.
  repeat (rewrite lookup_insert_eq || (rewrite lookup_insert_ne by done)).
  done.
Qed.

(** A form that passes validation is submitted: the request. *)
Lemma EditPackage_handleSubmit_sends (env : option string) (backend : Backend)
    (packageId : string) (w : World) :
  EditPackagePage.newErrors (cell "form" EditPackagePage.initialForm w)
  = Returned [] ->
  exists rest,
    sent (state_of (EditPackagePage.handleSubmit env backend packageId w))
    = (sent w
       ++ useAdminStore.updatePackage_request env (store w) packageId
            (EditPackagePage.updateData
               (cell "form" EditPackagePage.initialForm w))
          :: rest)%list.
Proof.
  intros Hval.
  change (wp (EditPackagePage.handleSubmit env backend packageId)
            (fun _ w' =>
               exists rest,
                 sent w'
                 = (sent w
                    ++ useAdminStore.updatePackage_request env (store w)
                         packageId
                         (EditPackagePage.updateData
                            (cell "form" EditPackagePage.initialForm w))
                       :: rest)%list) w).
  destruct w as [s ls sn al nv co ce], s.
  unfold EditPackagePage.handleSubmit. wp_to_request_valid Hval.
  unfold cell. world_cbn.
  repeat (rewrite lookup_insert_eq || (rewrite lookup_insert_ne by done)).
  apply wp_axios_cases; [intros Hf|intros Hf msg]; wp_run_pages;
    eexists; world_cbn; rewrite <- ?app_assoc; reflexivity.
Qed.

(** A form that validation cannot read stops the submission. *)
Lemma EditPackage_handleSubmit_throws (env : option string)
    (backend : Backend) (packageId : string) (w : World) (e : Thrown) :
  EditPackagePage.newErrors (cell "form" EditPackagePage.initialForm w)
  = Threw e ->
  EditPackagePage.handleSubmit env backend packageId w = (Threw e, w).
Proof.
  intros Hval. unfold EditPackagePage.handleSubmit,
    EditPackagePage.validateForm, validateForm_by; unfold_M.
  by rewrite Hval.
Qed.

(** X24. Opening the edit page on a package the store holds and saving
    without a change sends, when the form so loaded passes validation, a
    PATCH of that package whose body is the package's own title,
    description, location, price, duration, category and difficulty, and
    its cover image or the empty string: eight fields and no others.
    When validation throws, saving throws the same and sends nothing; it
    does so for a package that has a title and a description but no
    location, the field the store's own package type names
    locationName: the TypeError of reading trim of undefined. *)
Theorem edit_unchanged_sends_package (env : option string) (backend : Backend)
    (packageId : string) (w : World) (fields : list (string * JsVal)) :
  outcome_of (js_find_by_id (packages (store w)) packageId w)
  = Returned (JObj fields) ->
  let loaded :=
    state_of (EditPackagePage.loadPackageData env backend packageId w) in
  let save := EditPackagePage.handleSubmit env backend packageId loaded in
  (EditPackagePage.newErrors (loaded_form fields) = Returned [] ->
   exists rest,
     sent (state_of save)
     = (sent w
        ++ useAdminStore.updatePackage_request env (store w) packageId
             (JObj [("title", lookup_field "title" fields);
                    ("description", lookup_field "description" fields);
                    ("location", lookup_field "location" fields);
                    ("price", lookup_field "price" fields);
                    ("duration", lookup_field "duration" fields);
                    ("category", lookup_field "category" fields);
                    ("difficulty", lookup_field "difficulty" fields);
                    ("coverImage",
                     js_or (lookup_field "coverImage" fields) (JStr ""))])
           :: rest)%list)
  /\ (forall e,
        EditPackagePage.newErrors (loaded_form fields) = Threw e ->
        save = (Threw e, loaded) /\ sent loaded = sent w)
  /\ (forall title description,
        lookup_field "title" fields = JStr title ->
        lookup_field "description" fields = JStr description ->
        lookup_field "location" fields = JUndefined ->
        EditPackagePage.newErrors (loaded_form fields)
        = Threw (TypeError_read JUndefined "trim")).
Proof.
  intros Hfind loaded save. subst save.
  destruct (loadPackageData_cached_form env backend packageId w fields Hfind)
    as [Hsame Hform].
  fold loaded in Hsame, Hform. injection Hsame as Hstore Hsent.
  assert (Hcell : cell "form" EditPackagePage.initialForm loaded
                  = loaded_form fields)
    by (unfold cell; by rewrite Hform).
  split; [|split].
  - intros Hval. rewrite <- Hcell in Hval.
    destruct (EditPackage_handleSubmit_sends env backend packageId loaded Hval)
      as [rest Hrest].
    exists rest. by rewrite Hrest, Hstore, Hsent, Hcell.
  - intros e Hval. rewrite <- Hcell in Hval.
    by rewrite (EditPackage_handleSubmit_throws env backend packageId loaded
                  e Hval).
  - intros title description Ht Hd Hl.
    unfold EditPackagePage.newErrors, CreatePackagePage.newErrors,
      required, field_of, loaded_form.
    cbn [get_prop lookup_field String.eqb Ascii.eqb Bool.eqb and_then].
    rewrite Ht. cbn [and_then]. rewrite Hd. cbn [and_then]. by rewrite Hl.
Qed.

(** Saving the complete package unchanged, and the sample package, which
    has neither description nor location. *)
Lemma edit_unchanged_sends_package_witness :
  (exists rest,
      sent (state_of (EditPackagePage.handleSubmit None backend_down "p2"
                        (state_of (EditPackagePage.loadPackageData None
                                     backend_down "p2"
                                     with_complete_package))))
      = (sent with_complete_package
         ++ useAdminStore.updatePackage_request None
              (store with_complete_package) "p2"
              (JObj [("title", JStr "Wadi Rum");
                     ("description", JStr "Two days in the desert");
                     ("location", JStr "Aqaba");
                     ("price", JNum 250); ("duration", JNum 2);
                     ("category", JStr "ADVENTURE");
                     ("difficulty", JStr "EASY");
                     ("coverImage", JStr "")])
            :: rest)%list)
  /\ outcome_of (EditPackagePage.handleSubmit None backend_down "p1"
                   (state_of (EditPackagePage.loadPackageData None
                                backend_down "p1" with_packages)))
     = Threw (ErrorObj "Cannot read properties of undefined (reading 'trim')").
Proof.
  split.
  - pose proof (edit_unchanged_sends_package None backend_down "p2"
                  with_complete_package complete_package eq_refl)
      as [H _].
    exact (H eq_refl).
  - pose proof (edit_unchanged_sends_package None backend_down "p1"
                  with_packages _ eq_refl) as (_ & H & _).
    destruct (H _ eq_refl) as [Hsave _].
    exact (f_equal fst Hsave).
Defined.

(** ** The carousel pages *)

(** X25. fetchCarouselItems never throws, sends one GET of
    /carousel/admin with the store's access token and ends with loading
    false. From a 2xx JSON answer it keeps the body's data, or the empty
    list when data is missing or falsy, and leaves the error shown before
    as it was. When the request fails the error becomes 'Failed to fetch
    carousel items' and the items are kept. *)
Theorem fetchCarouselItems_answered (env : option string) (backend : Backend)
    (w : World) :
  let req :=
    {| method := GET;
       url := CarouselManagementPage.base env ++ "/carousel/admin";
       headers := [("Authorization", Bearer (accessToken (store w)))];
       body := NoBody; timeout := None |} in
  let run := CarouselManagementPage.fetchCarouselItems env backend w in
  outcome_of run = Returned tt
  /\ sent (state_of run) = (sent w ++ [req])%list
  /\ cells (state_of run) !! "loading" = Some (JBool false)
  /\ (forall st data inner,
        backend (sent w) req = HttpResponse st (Json data) ->
        status_ok st = true ->
        get_prop data "data" = Some inner ->
        cells (state_of run) !! "carouselItems"
        = Some (js_or inner (JArr []))
        /\ cells (state_of run) !! "error" = cells w !! "error")
  /\ (failed (backend (sent w) req) = true ->
      cells (state_of run) !! "error"
      = Some (JStr "Failed to fetch carousel items")
      /\ cells (state_of run) !! "carouselItems"
         = cells w !! "carouselItems").
Proof.
  intros req run. subst run.
  change (wp (CarouselManagementPage.fetchCarouselItems env backend)
            (fun o w' =>
               o = Returned tt
               /\ sent w' = (sent w ++ [req])%list
               /\ cells w' !! "loading" = Some (JBool false)
               /\ (forall st data inner,
                     backend (sent w) req = HttpResponse st (Json data) ->
                     status_ok st = true ->
                     get_prop data "data" = Some inner ->
                     cells w' !! "carouselItems"
                     = Some (js_or inner (JArr []))
                     /\ cells w' !! "error" = cells w !! "error")
               /\ (failed (backend (sent w) req) = true ->
                   cells w' !! "error"
                   = Some (JStr "Failed to fetch carousel items")
                   /\ cells w' !! "carouselItems"
                      = cells w !! "carouselItems")) w).
  subst req. destruct w as [s ls sn al nv co ce], s.
  wp_to_request.
  apply wp_fetch_cases; [intros st p E|intros msg E];
    wp_run_pages; by_form E.
Qed.

(** A backend that answers with a bare list loses it. *)
Lemma fetchCarouselItems_answered_witness :
  cells (state_of (CarouselManagementPage.fetchCarouselItems None backend_bare
                     logged_in))
  !! "carouselItems"
  = Some (JArr []).
Proof.
  pose proof (fetchCarouselItems_answered None backend_bare logged_in)
    as (_ & _ & _ & H & _).
  destruct (H 200 _ JUndefined eq_refl eq_refl eq_refl) as [Hitems _].
  exact Hitems.
Defined.

(** X26. Deleting a carousel item does nothing when the confirmation is
    refused. Confirmed, and likewise toggling an item, whose PATCH carries
    the negation of the current isActive, the handler never throws and
    alerts exactly once: when its request fails, the failure message, and
    nothing more is sent; when it succeeds, the success message, and the
    items are fetched again. *)
Theorem carousel_mutations (env : option string) (backend : Backend)
    (id : string) (currentStatus : bool) (w : World) :
  let auth := ("Authorization", Bearer (accessToken (store w))) in
  let item := CarouselManagementPage.base env ++ "/carousel/" ++ id in
  let refetch :=
    {| method := GET;
       url := CarouselManagementPage.base env ++ "/carousel/admin";
       headers := [auth]; body := NoBody; timeout := None |} in
  let delete :=
    {| method := DELETE; url := item; headers := [auth]; body := NoBody;
       timeout := None |} in
  let toggle :=
    {| method := PATCH; url := item;
       headers := [auth; ("Content-Type", "application/json")];
       body := JsonBody (JObj [("isActive", JBool (negb currentStatus))]);
       timeout := None |} in
  run_op env backend (Carousel_handleDelete false id) w
  = (Returned JUndefined, w)
  /\ forall op req success failure,
      In (op, req, success, failure)
        [(Carousel_handleDelete true id, delete,
          "Carousel item deleted successfully",
          "Failed to delete carousel item");
         (Carousel_handleToggleActive id currentStatus, toggle,
          "Carousel item "
          ++ (if currentStatus then "deactivated" else "activated")
          ++ " successfully",
          "Failed to update carousel item")] ->
      let run := run_op env backend op w in
      outcome_of run = Returned JUndefined
      /\ (failed (backend (sent w) req) = true ->
          sent (state_of run) = (sent w ++ [req])%list
          /\ alerts (state_of run) = (alerts w ++ [failure])%list)
      /\ (failed (backend (sent w) req) = false ->
          sent (state_of run) = (sent w ++ [req; refetch])%list
          /\ alerts (state_of run) = (alerts w ++ [success])%list).
Proof.
  intros auth item refetch delete toggle. split; [done|].
  intros op req success failure Hin run. subst run.
  change (wp (run_op env backend op)
            (fun o w' =>
               o = Returned JUndefined
               /\ (failed (backend (sent w) req) = true ->
                   sent w' = (sent w ++ [req])%list
                   /\ alerts w' = (alerts w ++ [failure])%list)
               /\ (failed (backend (sent w) req) = false ->
                   sent w' = (sent w ++ [req; refetch])%list
                   /\ alerts w' = (alerts w ++ [success])%list)) w).
  subst auth item refetch delete toggle.
  destruct w as [s ls sn al nv co ce], s.
  destruct Hin as [[= <- <- <- <-]|[[= <- <- <- <-]|[]]];
    cbn [run_op]; unfold void;
    [unfold CarouselManagementPage.handleDelete; cbn [negb]|];
    wp_to_request;
    (apply wp_fetch_cases; [intros st p E|intros msg E]);
    wp_run_pages; destruct currentStatus;
    (split; [done|]); split; intros Hf';
    cbn [ok status negb] in *; try contradict_failed;
    world_cbn; rewrite <- ?app_assoc; done.
Qed.

Lemma carousel_mutations_witness :
  alerts (state_of (run_op None (backend_ok (JObj []))
                      (Carousel_handleToggleActive "c1" true) logged_in))
  = (alerts logged_in ++ ["Carousel item deactivated successfully"])%list.
Proof.
  pose proof (carousel_mutations None (backend_ok (JObj [])) "c1" true
                logged_in) as [_ H].
  destruct (H (Carousel_handleToggleActive "c1" true) _ _ _
              (or_intror (or_introl eq_refl))) as (_ & _ & Hok).
  destruct (Hok eq_refl) as [_ Halerts]. exact Halerts.
Defined.

(** X27. loadCarouselItem never throws, sends one GET of the item and
    ends with fetchingItem false. From a 2xx JSON answer whose data is
    truthy it fills the form, title, imageUrl, actionType, actionValue,
    isActive and sortOrder as they are and the description or the empty
    string, alerting nothing and staying on the page; when data is
    missing or falsy it alerts 'Carousel item not found', leaves for
    /carousel and does not touch the form. *)
Theorem loadCarouselItem_answered (env : option string) (backend : Backend)
    (carouselId : string) (w : World) :
  let req :=
    {| method := GET;
       url := EditCarouselPage.base env ++ "/carousel/" ++ carouselId;
       headers := [("Authorization", Bearer (accessToken (store w)))];
       body := NoBody; timeout := None |} in
  let run := EditCarouselPage.loadCarouselItem env backend carouselId w in
  outcome_of run = Returned tt
  /\ sent (state_of run) = (sent w ++ [req])%list
  /\ cells (state_of run) !! "fetchingItem" = Some (JBool false)
  /\ forall st data item,
      backend (sent w) req = HttpResponse st (Json data) ->
      status_ok st = true ->
      get_prop data "data" = Some item ->
      (truthy item = true ->
       alerts (state_of run) = alerts w
       /\ navigations (state_of run) = navigations w
       /\ exists form,
           cells (state_of run) !! "form" = Some form
           /\ (forall k,
                 In k ["title"; "imageUrl"; "actionType"; "actionValue";
                       "isActive"; "sortOrder"] ->
                 get_prop form k = get_prop item k)
           /\ get_prop form "description"
              = Some (js_or (default JUndefined (get_prop item "description"))
                        (JStr "")))
      /\ (truthy item = false ->
          alerts (state_of run)
          = (alerts w ++ ["Carousel item not found"])%list
          /\ navigations (state_of run) = (navigations w ++ ["/carousel"])%list
          /\ cells (state_of run) !! "form" = cells w !! "form").
Proof.
  intros req run. subst run.
  change (wp (EditCarouselPage.loadCarouselItem env backend carouselId)
            (fun o w' =>
               o = Returned tt
               /\ sent w' = (sent w ++ [req])%list
               /\ cells w' !! "fetchingItem" = Some (JBool false)
               /\ forall st data item,
                   backend (sent w) req = HttpResponse st (Json data) ->
                   status_ok st = true ->
                   get_prop data "data" = Some item ->
                   (truthy item = true ->
                    alerts w' = alerts w
                    /\ navigations w' = navigations w
                    /\ exists form,
                        cells w' !! "form" = Some form
                        /\ (forall k,
                              In k ["title"; "imageUrl"; "actionType";
                                    "actionValue"; "isActive"; "sortOrder"] ->
                              get_prop form k = get_prop item k)
                        /\ get_prop form "description"
                           = Some (js_or (default JUndefined
                                            (get_prop item "description"))
                                     (JStr "")))
                   /\ (truthy item = false ->
                       alerts w' = (alerts w ++ ["Carousel item not found"])%list
                       /\ navigations w' = (navigations w ++ ["/carousel"])%list
                       /\ cells w' !! "form" = cells w !! "form")) w).
  subst req. destruct w as [s ls sn al nv co ce], s.
  wp_to_request.
  apply wp_fetch_cases; [intros st p E|intros msg E];
    unfold EditCarouselPage.form_of; wp_run_pages;
    (split; [done|]); (split; [done|]);
    (split;
     [world_cbn;
      repeat (rewrite lookup_insert_eq || (rewrite lookup_insert_ne by done));
      done|]);
    by_reply E; simplify_eq;
    split; intros Ht;
    try match goal with
        | H1 : truthy ?x = _, H2 : truthy ?x = _ |- _ =>
            rewrite H1 in H2; discriminate H2
        end;
    try match type of Ht with
        | truthy ?x = true =>
            destruct x; cbn [truthy get_prop] in *; simplify_eq
        end;
    first
      [ split; [done|]; split; [done|]; eexists; split;
        [repeat (rewrite lookup_insert_eq
                 || (rewrite lookup_insert_ne by done));
         reflexivity|];
        split;
        [intros k Hk; cbn [In] in Hk;
         repeat (destruct Hk as [<-|Hk]; [reflexivity|]); destruct Hk
        |reflexivity]
      | repeat split;
        repeat (rewrite lookup_insert_eq
                || (rewrite lookup_insert_ne by done));
        done ].
Qed.

Lemma loadCarouselItem_answered_witness :
  navigations (state_of (EditCarouselPage.loadCarouselItem None backend_bare
                           "c1" logged_in))
  = (navigations logged_in ++ ["/carousel"])%list.
Proof.
  pose proof (loadCarouselItem_answered None backend_bare "c1" logged_in)
    as (_ & _ & _ & H).
  destruct (H 200 _ JUndefined eq_refl eq_refl eq_refl) as [_ Hnone].
  destruct (Hnone eq_refl) as (_ & Hnav & _). exact Hnav.
Defined.

(** ** The highlights of a package form *)

Lemma map_index_other (index : Z) (value : string) (start : nat)
    (highlights : list string) :
  (index < Z.of_nat start)%Z ->
  map_index (fun h i => if (Z.of_nat i =? index)%Z then value else h) start
    highlights
  = highlights.
Proof.
  revert start. induction highlights as [|h rest IH]; intros start Hlt; [done|].
  cbn [map_index].
  destruct (Z.eqb_spec (Z.of_nat start) index) as [E|_]; [lia|].
  f_equal. apply IH. lia.
Qed.

Lemma filter_index_other (index : Z) (start : nat) (highlights : list string) :
  (index < Z.of_nat start)%Z ->
  filter_index (fun _ i => negb (Z.of_nat i =? index)%Z) start highlights
  = highlights.
Proof.
  revert start. induction highlights as [|h rest IH]; intros start Hlt; [done|].
  cbn [filter_index].
  destruct (Z.eqb_spec (Z.of_nat start) index) as [E|_]; [lia|].
  cbn [negb]. f_equal. apply IH. lia.
Qed.

Lemma map_index_insert (n : nat) (value : string) (start : nat)
    (highlights : list string) :
  map_index (fun h i => if (Z.of_nat i =? Z.of_nat (start + n))%Z
                        then value else h) start highlights
  = <[n := value]> highlights.
Proof.
  revert n start.
  induction highlights as [|h rest IH]; intros n start; [done|].
  cbn [map_index]. destruct n as [|n].
  - rewrite Nat.add_0_r, Z.eqb_refl. cbn. f_equal.
    apply map_index_other. lia.
  - destruct (Z.eqb_spec (Z.of_nat start) (Z.of_nat (start + S n))) as [E|_];
      [lia|].
    change (<[S n := value]> (h :: rest)) with (h :: <[n := value]> rest).
    f_equal. rewrite <- (IH n (S start)).
    by replace (S start + n)%nat with (start + S n)%nat by lia.
Qed.

Lemma filter_index_delete (n : nat) (start : nat) (highlights : list string) :
  filter_index (fun _ i => negb (Z.of_nat i =? Z.of_nat (start + n))%Z) start
    highlights
  = delete n highlights.
Proof.
  revert n start.
  induction highlights as [|h rest IH]; intros n start; [done|].
  cbn [filter_index]. destruct n as [|n].
  - rewrite Nat.add_0_r, Z.eqb_refl. cbn.
    apply filter_index_other. lia.
  - destruct (Z.eqb_spec (Z.of_nat start) (Z.of_nat (start + S n))) as [E|_];
      [lia|].
    cbn [negb].
    change (delete (S n) (h :: rest)) with (h :: delete n rest).
    f_equal. rewrite <- (IH n (S start)).
    by replace (S start + n)%nat with (start + S n)%nat by lia.
Qed.

(** X28. In the create and edit pages of a package, updateHighlight
    replaces the highlight at the index and removeHighlight drops it, the
    other highlights keeping their order; an index past the end or below
    zero leaves the list as it is. Removing the highlight that
    addHighlight has just added gives the list back. *)
Theorem highlights_editing :
  (forall (n : nat) (value : string) (highlights : list string),
      updateHighlight (Z.of_nat n) value highlights
      = <[n := value]> highlights)
  /\ (forall (n : nat) (highlights : list string),
        removeHighlight (Z.of_nat n) highlights = delete n highlights)
  /\ (forall (index : Z) (value : string) (highlights : list string),
        (index < 0 \/ Z.of_nat (length highlights) <= index)%Z ->
        updateHighlight index value highlights = highlights
        /\ removeHighlight index highlights = highlights)
  /\ (forall highlights : list string,
        removeHighlight (Z.of_nat (length highlights))
          (addHighlight highlights)
        = highlights).
Proof.
  assert (Hu : forall n value highlights,
             updateHighlight (Z.of_nat n) value highlights
             = <[n := value]> highlights)
    by (intros; apply (map_index_insert n value 0)).
  assert (Hr : forall n highlights,
             removeHighlight (Z.of_nat n) highlights = delete n highlights)
    by (intros; apply (filter_index_delete n 0)).
  split; [exact Hu|]. split; [exact Hr|]. split.
  - intros index value highlights [Hneg|Hpast].
    + split; [by apply map_index_other|by apply filter_index_other].
    + rewrite <- (Z2Nat.id index) by lia. rewrite Hu, Hr.
      assert (Hlen : (length highlights <= Z.to_nat index)%nat) by lia.
      split.
      * by apply list_insert_ge.
      * rewrite delete_take_drop, take_ge, drop_ge by lia.
        apply app_nil_r.
  - intros highlights. rewrite Hr. unfold addHighlight.
    rewrite delete_take_drop, take_app_length.
    rewrite drop_ge by (rewrite length_app; simpl; lia).
    apply app_nil_r.
Qed.

Lemma highlights_editing_witness :
  updateHighlight 5 "Sunset" ["Camel ride"; "Tea"] = ["Camel ride"; "Tea"]
  /\ removeHighlight 5 ["Camel ride"; "Tea"] = ["Camel ride"; "Tea"].
Proof.
  apply (proj1 (proj2 (proj2 highlights_editing))). simpl. lia.
Defined.
